(** * Medication reminder bot: the reminder and retry state machine

    A shallow embedding of the JSON-file store (database.js), the webhook
    handler (lineBot.js) and the two schedulers of the repository (the
    fixed-cron scheduler with [sendReminderForMealType] and the older
    per-minute scheduler with [checkAndSendReminders] / [checkRetryNeeded]).

    Conventions of the embedding.
    - The in-memory object [data] is the authority; it is threaded through a
      small state monad together with the trace of effects (file writes and
      pushes to the chat API, in the order the code performs them).
    - [uuidv4()] and the outcome of [bot.push] are external: they are read
      from two oracles, the section variables [uuidv4] and [push_ok].
    - The clock is an input of every entry point: [today] is the date key
      (the string the code derives from the clock) and [now] the reading of
      the clock that the entry point stamps and compares, in milliseconds.
      For the handler and the cron scheduler that reading is [new Date()];
      for the older scheduler it is [getTaiwanTime()], which is the true
      instant only in a process that runs in the zone of Taipei (see
      [getTaiwanTime] below). One entry point runs within one instant, and
      an [await] does not interleave with another entry point.
    - ISO timestamps are kept as their millisecond value, retry counters as
      integers, the JSON text of a medicine list as the list itself.
    - Message wording is rendering: text messages are kept as tags, one per
      literal of the source. *)

From Stdlib Require Import ZArith Lia Ascii DecimalString DecimalPos.
From stdpp Require Import base strings numbers list.

Open Scope string_scope.
Open Scope Z_scope.
Open Scope list_scope.

(** ** Data model (database.js) *)

Inductive Status := PENDING | SNOOZED | TAKEN | MISSED.

#[global] Instance Status_eq_dec : EqDecision Status.
Proof. solve_decision. Defined.

Module User.
Record t := mk {
    id : string;
    line_user_id : string;
    display_name : option string;
    created_at : Z
}.
End User.

Module Schedule.
Record t := mk {
    id : string;
    user_id : string;
    meal_type : string;
    default_time : string;
    medicines : list string;
    is_second_dose : bool;
    linked_schedule_id : option string;
    link_delay_minutes : Z;
    created_at : Z
}.
End Schedule.

Module Log.
Record t := mk {
    id : string;
    schedule_id : string;
    user_id : string;
    date : string;
    status : Status;
    retry_count : Z;
    last_reminded_at : option Z;
    taken_at : option Z;
    created_at : Z
}.

Definition set_status (s : Status) (l : t) : t :=
    mk (id l) (schedule_id l) (user_id l) (date l) s (retry_count l)
       (last_reminded_at l) (taken_at l) (created_at l).
Definition set_retry_count (n : Z) (l : t) : t :=
    mk (id l) (schedule_id l) (user_id l) (date l) (status l) n
       (last_reminded_at l) (taken_at l) (created_at l).
Definition set_last_reminded_at (ts : Z) (l : t) : t :=
    mk (id l) (schedule_id l) (user_id l) (date l) (status l) (retry_count l)
       (Some ts) (taken_at l) (created_at l).
Definition set_taken_at (ts : Z) (l : t) : t :=
    mk (id l) (schedule_id l) (user_id l) (date l) (status l) (retry_count l)
       (last_reminded_at l) (Some ts) (created_at l).
End Log.

(** The in-memory cache [data] of database.js. *)
Record Data := mkData {
  users : list User.t;
  schedules : list Schedule.t;
  medicationLogs : list Log.t
}.

(** The optional fields of the [options] argument of [createSchedule] and of
    the [additionalData] argument of [updateMedicationLogStatus]; [None] is a
    field that the caller left out. *)
Record ScheduleOptions := mkOptions {
  isSecondDoseOpt : option bool;
  linkedScheduleIdOpt : option string;
  linkDelayMinutesOpt : option Z
}.

Record AdditionalData := mkAdditional {
  takenAt : option Z;
  retryCountOpt : option Z;
  lastRemindedAt : option Z
}.

Definition no_options : ScheduleOptions := mkOptions None None None.

(** ** Messages and effects *)

(** The [scheduleInfo] object handed to [sendReminderMessage]; its
    [scheduleId] and [retryCount] end up in the postback data of the two
    buttons. *)
Record ScheduleInfo := mkInfo {
  mealType : string;
  info_medicines : list string;
  scheduleId : string;
  retryCount : Z;
  isSecondDose : bool
}.

(** One tag per text literal of lineBot.js and scheduler.js. *)
Inductive Text :=
| TxtRecorded                 (* "已記錄！太棒了 ..." *)
| TxtHerbalHint               (* "請於 1 小時後（09:01）記得服用中藥哦" *)
| TxtSnoozed (n : Z)          (* "下一次提醒將在 30 分鐘後發送（已提醒 n/3 次）" *)
| TxtExceeded                 (* "已超過最大提醒次數（3次），請記得盡快服用藥物" *)
| TxtSettingUp                (* "正在為您設定吃藥提醒排程..." *)
| TxtSetupDone                (* "吃藥提醒排程已設定完成 ..." *)
| TxtStatus (rows : list (string * option Status))
| TxtTestSending
| TxtTestSent
| TxtHelp
| TxtDefault.

Inductive Message :=
| Flex (info : ScheduleInfo)
| TextMessage (t : Text).

(** What the process does to the outside, in order: [Saved d] is one
    [saveDatabase()] writing the cache [d] to the file, [Push to m ok] one
    [bot.push(to, m)] and whether it went through. *)
Inductive Event :=
| Saved (d : Data)
| Push (to : string) (m : Message) (ok : bool).

Record World := mkWorld {
  data : Data;
  trace : list Event;
  uuid_n : nat
}.

Abbreviation logs_of w := (medicationLogs (data w)).

(** ** A state monad over the world *)

Definition M (A : Type) : Type := World -> A * World.

#[global] Instance M_ret : MRet M := fun A (a : A) w => (a, w).

#[global] Instance M_bind : MBind M :=
  fun A B (k : A -> M B) (m : M A) w => let (a, w') := m w in k a w'.

Definition ret {A} (a : A) : M A := mret a.

Definition get_data : M Data := fun w => (data w, w).

Definition put_data (d : Data) : M unit :=
  fun w => (tt, mkWorld d (trace w) (uuid_n w)).

Definition emit (e : Event) : M unit :=
  fun w => (tt, mkWorld (data w) (trace w ++ [e]) (uuid_n w)).

(** [for (const x of xs) body(x)] *)
Fixpoint for_each {A} (xs : list A) (body : A -> M unit) : M unit :=
  match xs with
  | [] => ret tt
  | x :: xs' => body x;; for_each xs' body
  end.

Definition exec {A} (m : M A) (w : World) : World := snd (m w).
Definition eval {A} (m : M A) (w : World) : A := fst (m w).

(** The events a computation adds to the trace. *)
Definition emitted {A} (m : M A) (w : World) : list Event :=
  drop (length (trace w)) (trace (exec m w)).

Section Bot.

(** The k-th call of [uuidv4()] and the outcome of the push made when the
    trace holds k events. *)
Variable uuidv4 : nat -> string.
Variable push_ok : nat -> bool.

Definition fresh_uuid : M string :=
  fun w => (uuidv4 (uuid_n w), mkWorld (data w) (trace w) (S (uuid_n w))).

Definition push (to : string) (m : Message) : M bool :=
  fun w => let ok := push_ok (length (trace w)) in
           (ok, mkWorld (data w) (trace w ++ [Push to m ok]) (uuid_n w)).

(** ** database.js *)

Definition saveDatabase : M unit :=
  d ← get_data; emit (Saved d).

Definition getUserByLineId (lineUserId : string) : M (option User.t) :=
  d ← get_data;
  ret (snd <$> list_find (λ u, User.line_user_id u = lineUserId) (users d)).

Definition getAllUsers : M (list User.t) :=
  d ← get_data; ret (users d).

Definition createUser (now : Z) (lineUserId : string)
    (displayName : option string) : M User.t :=
  existingUser ← getUserByLineId lineUserId;
  match existingUser with
  | Some u => ret u
  | None =>
      uid ← fresh_uuid;
      let user := User.mk uid lineUserId displayName now in
      d ← get_data;
      put_data (mkData (users d ++ [user]) (schedules d) (medicationLogs d));;
      saveDatabase;;
      ret user
  end.

(** [x || null] on an identifier: the empty string is falsy. *)
Definition nonempty (s : option string) : option string :=
  match s with
  | Some "" => None
  | _ => s
  end.

(** [x || 60] on a number: zero is falsy. *)
Definition or_default (dflt : Z) (x : option Z) : Z :=
  match x with
  | Some 0 | None => dflt
  | Some n => n
  end.

Definition createSchedule (now : Z) (userId mealType defaultTime : string)
    (meds : list string) (options : ScheduleOptions) : M Schedule.t :=
  sid ← fresh_uuid;
  let schedule :=
    Schedule.mk sid userId mealType defaultTime meds
      (default false (isSecondDoseOpt options))
      (nonempty (linkedScheduleIdOpt options))
      (or_default 60 (linkDelayMinutesOpt options))
      now in
  d ← get_data;
  put_data (mkData (users d) (schedules d ++ [schedule]) (medicationLogs d));;
  saveDatabase;;
  ret schedule.

Definition getScheduleById (scheduleId : string) : M (option Schedule.t) :=
  d ← get_data;
  ret (snd <$> list_find (λ s, Schedule.id s = scheduleId) (schedules d)).

Definition getSchedulesByUserId (userId : string) : M (list Schedule.t) :=
  d ← get_data;
  ret (filter (λ s, Schedule.user_id s = userId) (schedules d)).

(** The test of the two [find] calls on [medicationLogs]. *)
Definition log_matches (scheduleId date : string) (l : Log.t) : Prop :=
  Log.schedule_id l = scheduleId ∧ Log.date l = date.

#[global] Instance log_matches_dec scheduleId date l :
  Decision (log_matches scheduleId date l).
Proof. unfold log_matches. apply _. Defined.

Definition getMedicationLogByScheduleAndDate (scheduleId date : string)
    : M (option Log.t) :=
  d ← get_data;
  ret (snd <$> list_find (log_matches scheduleId date) (medicationLogs d)).

Definition getMedicationLogById (logId : string) : M (option Log.t) :=
  d ← get_data;
  ret (snd <$> list_find (λ l, Log.id l = logId) (medicationLogs d)).

Definition createMedicationLog (now : Z) (scheduleId userId date : string)
    : M Log.t :=
  existingLog ← getMedicationLogByScheduleAndDate scheduleId date;
  match existingLog with
  | Some l => ret l
  | None =>
      lid ← fresh_uuid;
      let log := Log.mk lid scheduleId userId date PENDING 0 None None now in
      d ← get_data;
      put_data (mkData (users d) (schedules d) (medicationLogs d ++ [log]));;
      saveDatabase;;
      ret log
  end.

(** The field assignments of [updateMedicationLogStatus] on the record it
    found. *)
Definition apply_update (status : Status) (ad : AdditionalData) (l : Log.t)
    : Log.t :=
  let l1 := Log.set_status status l in
  let l2 := match status, takenAt ad with
            | TAKEN, Some ts => Log.set_taken_at ts l1
            | _, _ => l1
            end in
  let l3 := match retryCountOpt ad with
            | Some n => Log.set_retry_count n l2
            | None => l2
            end in
  match lastRemindedAt ad with
  | Some ts => Log.set_last_reminded_at ts l3
  | None => l3
  end.

Definition updateMedicationLogStatus (logId : string) (status : Status)
    (ad : AdditionalData) : M (option Log.t) :=
  d ← get_data;
  match list_find (λ l, Log.id l = logId) (medicationLogs d) with
  | None => ret None
  | Some (logIndex, l) =>
      let log := apply_update status ad l in
      put_data (mkData (users d) (schedules d)
                       (<[logIndex := log]> (medicationLogs d)));;
      saveDatabase;;
      ret (Some log)
  end.

(** A row of [getPendingLogsForDate]: a copy of the record, joined with its
    schedule and user. *)
Record PendingLog := mkPending {
  pl_log : Log.t;
  pl_meal_type : string;
  pl_default_time : string;
  pl_medicines : list string;
  pl_is_second_dose : bool;
  pl_linked_schedule_id : option string;
  pl_line_user_id : string
}.

Definition is_open (s : Status) : bool :=
  bool_decide (s = PENDING) || bool_decide (s = SNOOZED).

Definition join_pending (d : Data) (l : Log.t) : PendingLog :=
  let schedule :=
    snd <$> list_find (λ s, Schedule.id s = Log.schedule_id l) (schedules d) in
  let user :=
    snd <$> list_find (λ u, User.id u = Log.user_id l) (users d) in
  mkPending l
    (from_option Schedule.meal_type "" schedule)
    (from_option Schedule.default_time "" schedule)
    (from_option Schedule.medicines [] schedule)
    (from_option Schedule.is_second_dose false schedule)
    (schedule ≫= Schedule.linked_schedule_id)
    (from_option User.line_user_id "" user).

Definition getPendingLogsForDate (date : string) : M (list PendingLog) :=
  d ← get_data;
  ret (join_pending d <$>
       filter (λ l, Log.date l = date ∧ is_open (Log.status l) = true)
              (medicationLogs d)).

(** ** lineBot.js *)

Definition sendReminderMessage (userId : string) (scheduleInfo : ScheduleInfo)
    : M bool :=
  push userId (Flex scheduleInfo).

Definition sendTextMessage (userId : string) (text : Text) : M bool :=
  push userId (TextMessage text).

(** An inbound webhook event. A postback carries the fields that
    [handlePostback] reads from the button data: [action] and [schedule_id]
    ([None] when the parameter is missing) and the parsed [retry_count]. *)
Inductive WebhookEvent :=
| Postback (userId : string) (action scheduleId : option string)
           (reportedRetryCount : Z)
| TextEvent (userId : string) (messageText : string)
| OtherEvent.

Record HandlerResult := mkResult {
  success : bool;
  result_action : option string
}.

(** A lookup with an identifier read from the postback data: a missing
    parameter is [null], which is the identifier of no record. *)
Definition with_id {A} (scheduleId : option string)
    (lookup : string -> M (option A)) : M (option A) :=
  match scheduleId with
  | Some sid => lookup sid
  | None => ret None
  end.

Definition when (b : bool) (m : M unit) : M unit :=
  if b then m else ret tt.

Definition setupDefaultSchedules (today : string) (now : Z) (userId : string)
    : M unit :=
  existingSchedules ← getSchedulesByUserId userId;
  breakfastFirst ←
    createSchedule now userId "早餐後（西藥）" "08:00" ["高血壓（西藥）"]
      (mkOptions (Some false) None (Some 60));
  breakfastSecond ←
    createSchedule now userId "早餐後（中藥）" "09:00" ["高血壓（中藥）"]
      (mkOptions (Some true) (Some (Schedule.id breakfastFirst)) (Some 60));
  lunchSchedule ←
    createSchedule now userId "午餐後" "13:00" ["高血壓（中藥）"] no_options;
  dinnerSchedule ←
    createSchedule now userId "晚餐後" "19:00" ["高血壓（中藥）"] no_options;
  createMedicationLog now (Schedule.id breakfastFirst) userId today;;
  createMedicationLog now (Schedule.id breakfastSecond) userId today;;
  createMedicationLog now (Schedule.id lunchSchedule) userId today;;
  createMedicationLog now (Schedule.id dinnerSchedule) userId today;;
  ret tt.

(** The first lines of both branches of [handleWebhookEvent]: look the
    sender up and register a sender that is not known yet. *)
Definition ensure_user (today : string) (now : Z) (userId : string)
    : M User.t :=
  user ← getUserByLineId userId;
  match user with
  | Some u => ret u
  | None =>
      u ← createUser now userId (Some userId);
      setupDefaultSchedules today now (User.id u);;
      ret u
  end.

(** [if (postback.action === 'taken') { ... }] *)
Definition handle_taken (today : string) (now : Z) (userId : string)
    (scheduleId : option string) (reportedRetryCount : Z) : M unit :=
  log ← with_id scheduleId (λ sid, getMedicationLogByScheduleAndDate sid today);
  match log with
  | None => ret tt
  | Some log =>
      updateMedicationLogStatus (Log.id log) TAKEN
        (mkAdditional (Some now) (Some reportedRetryCount) None);;
      schedule ← with_id scheduleId getScheduleById;
      sendTextMessage userId TxtRecorded;;
      match schedule with
      | Some sch =>
          when (bool_decide (Schedule.meal_type sch = "早餐後（西藥）"))
               (sendTextMessage userId TxtHerbalHint;; ret tt)
      | None => ret tt
      end
  end.

(** [if (postback.action === 'snooze') { ... }] *)
Definition handle_snooze (today : string) (now : Z) (userId : string)
    (scheduleId : option string) (reportedRetryCount : Z) : M unit :=
  log ← with_id scheduleId (λ sid, getMedicationLogByScheduleAndDate sid today);
  schedule ← with_id scheduleId getScheduleById;
  match log with
  | None => ret tt
  | Some log =>
      let newRetryCount := reportedRetryCount + 1 in
      updateMedicationLogStatus (Log.id log) SNOOZED
        (mkAdditional None (Some newRetryCount) (Some now));;
      if bool_decide (newRetryCount < 3)%Z then
        sendTextMessage userId (TxtSnoozed newRetryCount);; ret tt
      else
        updateMedicationLogStatus (Log.id log) MISSED
          (mkAdditional None (Some newRetryCount) (Some now));;
        sendTextMessage userId TxtExceeded;; ret tt
  end.

Definition status_row (today : string) (schedule : Schedule.t)
    : M (string * option Status) :=
  log ← getMedicationLogByScheduleAndDate (Schedule.id schedule) today;
  ret (Schedule.meal_type schedule, Log.status <$> log).

Fixpoint status_rows (today : string) (schedules : list Schedule.t)
    : M (list (string * option Status)) :=
  match schedules with
  | [] => ret []
  | s :: rest =>
      row ← status_row today s;
      rows ← status_rows today rest;
      ret (row :: rows)
  end.

Definition is_one_of (text a b : string) : bool :=
  bool_decide (text = a) || bool_decide (text = b).

Definition handle_text (today : string) (now : Z) (userId : string)
    (user : User.t) (messageText : string) : M unit :=
  if is_one_of messageText "設定提醒" "/setup" then
    sendTextMessage userId TxtSettingUp;;
    setupDefaultSchedules today now (User.id user);;
    sendTextMessage userId TxtSetupDone;; ret tt
  else if is_one_of messageText "查詢提醒" "/status" then
    schedules ← getSchedulesByUserId (User.id user);
    rows ← status_rows today schedules;
    sendTextMessage userId (TxtStatus rows);; ret tt
  else if is_one_of messageText "測試" "/test" then
    sendTextMessage userId TxtTestSending;;
    sendReminderMessage userId
      (mkInfo "測試提醒" ["這是測試用藥"]
              ("test-" +:+ NilZero.string_of_int (Z.to_int now)) 0 false);;
    sendTextMessage userId TxtTestSent;; ret tt
  else if is_one_of messageText "說明" "/help" then
    sendTextMessage userId TxtHelp;; ret tt
  else
    sendTextMessage userId TxtDefault;; ret tt.

Definition handleWebhookEvent (today : string) (now : Z) (event : WebhookEvent)
    : M HandlerResult :=
  match event with
  | Postback userId action scheduleId reportedRetryCount =>
      user ← ensure_user today now userId;
      when (bool_decide (action = Some "taken"))
           (handle_taken today now userId scheduleId reportedRetryCount);;
      when (bool_decide (action = Some "snooze"))
           (handle_snooze today now userId scheduleId reportedRetryCount);;
      ret (mkResult true action)
  | TextEvent userId messageText =>
      user ← ensure_user today now userId;
      handle_text today now userId user messageText;;
      ret (mkResult true (Some "text"))
  | OtherEvent => ret (mkResult false None)
  end.

(** ** scheduler.js: shared by both schedulers *)

(** The body of the inner loop of [initDailySchedule]. *)
Definition init_schedule (today : string) (now : Z) (user : User.t)
    (schedule : Schedule.t) : M unit :=
  existingLog ← getMedicationLogByScheduleAndDate (Schedule.id schedule) today;
  match existingLog with
  | Some _ => ret tt
  | None =>
      createMedicationLog now (Schedule.id schedule) (User.id user) today;;
      ret tt
  end.

Definition init_user (today : string) (now : Z) (user : User.t) : M unit :=
  schedules ← getSchedulesByUserId (User.id user);
  for_each schedules (init_schedule today now user).

Definition initDailySchedule (today : string) (now : Z) : M unit :=
  users ← getAllUsers;
  for_each users (init_user today now).

(** ** scheduler.js: one cron job per reminder time *)

(** [log.retry_count || 0] *)
Definition retry_or_zero (l : Log.t) : Z := or_default 0 (Some (Log.retry_count l)).

(** The body of the loop of [sendReminderForMealType]. *)
Definition remind_user (today : string) (now : Z) (mealType : string)
    (user : User.t) : M unit :=
  schedules ← getSchedulesByUserId (User.id user);
  match snd <$> list_find (λ s, Schedule.meal_type s = mealType) schedules with
  | None => ret tt
  | Some schedule =>
      log ← getMedicationLogByScheduleAndDate (Schedule.id schedule) today;
      match log with
      | None => ret tt
      | Some log =>
          if bool_decide (Log.status log = TAKEN) then ret tt
          else if bool_decide (Log.status log = MISSED) then ret tt
          else
            let retryCount := retry_or_zero log in
            if bool_decide (3 ≤ retryCount)%Z then
              when (bool_decide (Log.status log ≠ MISSED))
                (updateMedicationLogStatus (Log.id log) MISSED
                   (mkAdditional None None (Some now));;
                 sendTextMessage (User.line_user_id user) TxtExceeded;;
                 ret tt)
            else
              sendReminderMessage (User.line_user_id user)
                (mkInfo (Schedule.meal_type schedule)
                        (Schedule.medicines schedule)
                        (Schedule.id schedule)
                        retryCount
                        (Schedule.is_second_dose schedule));;
              let newRetryCount := retryCount + 1 in
              updateMedicationLogStatus (Log.id log) SNOOZED
                (mkAdditional None (Some newRetryCount) (Some now));;
              ret tt
      end
  end.

Definition sendReminderForMealType (today : string) (now : Z)
    (mealType : string) : M unit :=
  users ← getAllUsers;
  match users with
  | [] => ret tt
  | _ => for_each users (remind_user today now mealType)
  end.

(** The jobs registered by [start], as (hour, minute, meal type). *)
Definition reminder_jobs : list (Z * Z * string) :=
  [ (8, 0, "早餐後（西藥）"); (8, 30, "早餐後（西藥）");
    (9, 0, "早餐後（西藥）"); (9, 30, "早餐後（西藥）");
    (9, 1, "早餐後（中藥）"); (9, 31, "早餐後（中藥）");
    (10, 1, "早餐後（中藥）"); (10, 31, "早餐後（中藥）");
    (13, 0, "午餐後"); (13, 30, "午餐後"); (14, 0, "午餐後"); (14, 30, "午餐後");
    (19, 0, "晚餐後"); (19, 30, "晚餐後"); (20, 0, "晚餐後"); (20, 30, "晚餐後");
    (16, 15, "午餐後") ].

(** ** The older scheduler: a check every minute, a retry check every five *)

(** [getTaiwanTime()]: the wall clock of Taipei at the instant [t], printed
    by [toLocaleString] and read back by [new Date(text)] as a wall clock of
    the zone of the process. [t] is what [new Date()] holds, in
    milliseconds; [zone] is the offset of the zone of the process from UTC
    in milliseconds, east positive, as it applies to the text that is read
    back. The text has no milliseconds, and Taipei is eight hours ahead of
    UTC all year. In a process that runs in the zone of Taipei the result is
    [t] without its milliseconds; in any other zone it is off by the
    difference of the two zones. The calendar fields of the result, from
    which [today] and [currentTime] are made, are those of Taipei in every
    zone. *)
Definition taipei : Z := 8 * 3600000.

Definition getTaiwanTime (zone t : Z) : Z :=
  1000 * (t `div` 1000) + taipei - zone.

(** In [checkAndSendReminders] the stamp [now] is the ISO text of a
    [getTaiwanTime()] taken after the push. *)

(** The body of the inner loop of [checkAndSendReminders]. *)
Definition check_schedule (today currentTime : string) (now : Z)
    (user : User.t) (schedule : Schedule.t) : M unit :=
  when (bool_decide (Schedule.default_time schedule = currentTime))
    (log ← getMedicationLogByScheduleAndDate (Schedule.id schedule) today;
     match log with
     | None => ret tt
     | Some log =>
         when (is_open (Log.status log))
           (firstDoseLog ←
              (if Schedule.is_second_dose schedule then
                 match nonempty (Schedule.linked_schedule_id schedule) with
                 | Some linked =>
                     l ← getMedicationLogByScheduleAndDate linked today;
                     ret (Some l)
                 | None => ret None
                 end
               else ret None);
            match firstDoseLog with
            | Some None => ret tt
            | Some (Some first) =>
                if bool_decide (Log.status first ≠ TAKEN) then ret tt
                else
                  sendReminderMessage (User.line_user_id user)
                    (mkInfo (Schedule.meal_type schedule)
                            (Schedule.medicines schedule)
                            (Schedule.id schedule)
                            (retry_or_zero log)
                            (Schedule.is_second_dose schedule));;
                  updateMedicationLogStatus (Log.id log) (Log.status log)
                    (mkAdditional None None (Some now));;
                  ret tt
            | None =>
                sendReminderMessage (User.line_user_id user)
                  (mkInfo (Schedule.meal_type schedule)
                          (Schedule.medicines schedule)
                          (Schedule.id schedule)
                          (retry_or_zero log)
                          (Schedule.is_second_dose schedule));;
                updateMedicationLogStatus (Log.id log) (Log.status log)
                  (mkAdditional None None (Some now));;
                ret tt
            end)
     end).

Definition check_user (today currentTime : string) (now : Z) (user : User.t)
    : M unit :=
  schedules ← getSchedulesByUserId (User.id user);
  for_each schedules (check_schedule today currentTime now user).

Definition checkAndSendReminders (today currentTime : string) (now : Z)
    : M unit :=
  users ← getAllUsers;
  for_each users (check_user today currentTime now).

(** The body of the loop of [checkRetryNeeded]; [pl] is a row of the list
    read before the loop; [now] is the [getTaiwanTime()] that the round took
    on entry. It is compared with the stored stamp, whoever wrote it (the
    handler and the cron scheduler stamp [new Date()], the older scheduler
    stamps [getTaiwanTime()]), and it is the stamp this round writes. *)
Definition retry_log (now : Z) (pl : PendingLog) : M unit :=
  let log := pl_log pl in
  match Log.last_reminded_at log with
  | None => ret tt
  | Some lastReminded =>
      let minutesDiff := (now - lastReminded) `div` 60000 in
      when (bool_decide (30 ≤ minutesDiff)%Z && bool_decide (Log.retry_count log < 3)%Z
            && bool_decide (Log.status log = SNOOZED))
        (schedule ← getScheduleById (Log.schedule_id log);
         match schedule with
         | None => ret tt
         | Some schedule =>
             let newRetryCount := Log.retry_count log + 1 in
             updateMedicationLogStatus (Log.id log) PENDING
               (mkAdditional None (Some newRetryCount) (Some now));;
             sendReminderMessage (pl_line_user_id pl)
               (mkInfo (Schedule.meal_type schedule)
                       (Schedule.medicines schedule)
                       (Schedule.id schedule)
                       newRetryCount
                       (Schedule.is_second_dose schedule));;
             ret tt
         end);;
      when (bool_decide (90 ≤ minutesDiff)%Z && bool_decide (3 ≤ Log.retry_count log)%Z
            && bool_decide (Log.status log = PENDING))
        (updateMedicationLogStatus (Log.id log) MISSED
           (mkAdditional None None (Some now));;
         ret tt)
  end.

(** [checkRetryNeeded] at the instant [t], in a process whose zone is
    [zone]. *)
Definition checkRetryNeeded (zone : Z) (today : string) (t : Z) : M unit :=
  let now := getTaiwanTime zone t in
  pendingLogs ← getPendingLogsForDate today;
  for_each pendingLogs (retry_log now).

(** * Running the monad *)

Lemma run_bind {A B} (m : M A) (k : A -> M B) (w : World) :
  (m ≫= k) w = let (a, w') := m w in k a w'.
Proof. reflexivity. Qed.

Lemma exec_bind {A B} (m : M A) (k : A -> M B) (w : World) :
  exec (m ≫= k) w = exec (k (eval m w)) (exec m w).
Proof. unfold exec, eval. rewrite run_bind. destruct (m w); reflexivity. Qed.

Lemma exec_ret {A} (a : A) (w : World) : exec (ret a) w = w.
Proof. reflexivity. Qed.

Lemma exec_for_each_cons {A} (x : A) (xs : list A) (body : A -> M unit) w :
  exec (for_each (x :: xs) body) w = exec (for_each xs body) (exec (body x) w).
Proof. simpl. apply exec_bind. Qed.

Lemma exec_for_each_app {A} (xs ys : list A) (body : A -> M unit) w :
  exec (for_each (xs ++ ys) body) w
  = exec (for_each ys body) (exec (for_each xs body) w).
Proof.
  revert w. induction xs as [|x xs IH]; intros w; [reflexivity|].
  rewrite <- app_comm_cons, !exec_for_each_cons. apply IH.
Qed.

(** A loop keeps what each round keeps. *)
Lemma for_each_invariant {A} (I : World -> Prop) (xs : list A)
    (body : A -> M unit) :
  (forall x w, x ∈ xs -> I w -> I (exec (body x) w)) ->
  forall w, I w -> I (exec (for_each xs body) w).
Proof.
  induction xs as [|x xs IH]; intros Hbody w Hw; [exact Hw|].
  rewrite exec_for_each_cons. apply IH.
  - intros y w' Hy. apply Hbody. by right.
  - apply Hbody; [by left | exact Hw].
Qed.

(** Symbolic execution of one entry point: unfold the monad and the store
    operations, then project the world. *)
Ltac mrun_in H :=
  cbv beta iota zeta delta
    [exec eval emitted mbind M_bind mret M_ret ret get_data put_data emit
     fresh_uuid push saveDatabase when with_id
     getUserByLineId getAllUsers createUser createSchedule getScheduleById
     getSchedulesByUserId getMedicationLogByScheduleAndDate
     getMedicationLogById createMedicationLog updateMedicationLogStatus
     getPendingLogsForDate sendReminderMessage sendTextMessage] in H;
  cbn [fst snd data trace uuid_n users schedules medicationLogs] in H.

Ltac mrun :=
  cbv beta iota zeta delta
    [exec eval emitted mbind M_bind mret M_ret ret get_data put_data emit
     fresh_uuid push saveDatabase when with_id
     getUserByLineId getAllUsers createUser createSchedule getScheduleById
     getSchedulesByUserId getMedicationLogByScheduleAndDate
     getMedicationLogById createMedicationLog updateMedicationLogStatus
     getPendingLogsForDate sendReminderMessage sendTextMessage];
  cbn [fst snd data trace uuid_n users schedules medicationLogs].

(** * The store operation behind every transition *)

Definition find_by_id (logId : string) (ls : list Log.t) : option (nat * Log.t) :=
  list_find (λ l, Log.id l = logId) ls.

Lemma updateMedicationLogStatus_run logId st ad w :
  updateMedicationLogStatus logId st ad w =
  match find_by_id logId (logs_of w) with
  | None => (None, w)
  | Some (i, l) =>
      let d' := mkData (users (data w)) (schedules (data w))
                       (<[i := apply_update st ad l]> (logs_of w)) in
      (Some (apply_update st ad l),
       mkWorld d' (trace w ++ [Saved d']) (uuid_n w))
  end.
Proof.
  unfold find_by_id. destruct w as [d tr n]. mrun.
  destruct (list_find _ _) as [[i l]|]; reflexivity.
Qed.

(** C10. [updateMedicationLogStatus] on an identifier that no stored record
    carries returns null and changes nothing (no record, no file write); on
    an identifier that is present it returns the updated record, which
    replaces the first record carrying the identifier, and every other
    record, the users and the schedules stay as they were. *)
Theorem updateMedicationLogStatus_addressed_only :
  forall (logId : string) (st : Status) (ad : AdditionalData) (w : World),
    (logId ∉ Log.id <$> logs_of w ->
       eval (updateMedicationLogStatus logId st ad) w = None
       /\ exec (updateMedicationLogStatus logId st ad) w = w)
    /\ (logId ∈ Log.id <$> logs_of w ->
         exists (i : nat) (l : Log.t),
           logs_of w !! i = Some l
           /\ Log.id l = logId
           /\ (forall j l', (j < i)%nat -> logs_of w !! j = Some l' ->
                             Log.id l' <> logId)
           /\ eval (updateMedicationLogStatus logId st ad) w
              = Some (apply_update st ad l)
           /\ logs_of (exec (updateMedicationLogStatus logId st ad) w) !! i
              = Some (apply_update st ad l)
           /\ (forall j, j <> i ->
                 logs_of (exec (updateMedicationLogStatus logId st ad) w) !! j
                 = logs_of w !! j)
           /\ length (logs_of (exec (updateMedicationLogStatus logId st ad) w))
              = length (logs_of w)
           /\ users (data (exec (updateMedicationLogStatus logId st ad) w))
              = users (data w)
           /\ schedules (data (exec (updateMedicationLogStatus logId st ad) w))
              = schedules (data w)).
Proof.
  intros logId st ad w. unfold exec, eval.
  rewrite updateMedicationLogStatus_run. unfold find_by_id.
  destruct (list_find _ _) as [[i l]|] eqn:Hfind; split.
  - intros Hnot. exfalso. apply Hnot.
    apply list_find_Some in Hfind as (Hi & Hid & _).
    apply list_elem_of_fmap. exists l. split; [done|].
    eapply list_elem_of_lookup_2; eauto.
  - intros _. apply list_find_Some in Hfind as (Hi & Hid & Hfirst).
    exists i, l. cbn [fst snd data medicationLogs users schedules].
    repeat split; try done.
    + intros j l' Hj Hl'. eapply Hfirst; eauto.
    + apply list_lookup_insert_eq. eapply lookup_lt_Some; eauto.
    + intros j Hj. apply list_lookup_insert_ne. congruence.
    + apply length_insert.
  - intros _. done.
  - intros Hin. exfalso.
    apply list_find_None in Hfind.
    apply list_elem_of_fmap in Hin as (l & Hid & Hl).
    rewrite Forall_forall in Hfind. eapply Hfind; [|symmetry; exact Hid].
    done.
Qed.

(** * Weakest preconditions for the monad *)

Definition wp {A} (m : M A) (w : World) (Q : A -> World -> Prop) : Prop :=
  Q (eval m w) (exec m w).

Lemma wp_ret {A} (a : A) w (Q : A -> World -> Prop) : Q a w -> wp (ret a) w Q.
Proof. done. Qed.

Lemma wp_bind {A B} (m : M A) (k : A -> M B) w (Q : B -> World -> Prop) :
  wp m w (λ a w', wp (k a) w' Q) -> wp (m ≫= k) w Q.
Proof.
  unfold wp, eval, exec. rewrite run_bind. by destruct (m w).
Qed.

Lemma wp_conseq {A} (m : M A) w (Q Q' : A -> World -> Prop) :
  wp m w Q -> (forall a w', Q a w' -> Q' a w') -> wp m w Q'.
Proof. unfold wp. auto. Qed.

Lemma wp_when (b : bool) (m : M unit) w (Q : unit -> World -> Prop) :
  (b = true -> wp m w Q) -> (b = false -> Q tt w) -> wp (when b m) w Q.
Proof.
  intros H1 H2. destruct b; [by apply H1 | by apply (H2 eq_refl)].
Qed.

Lemma wp_for_each {A} (I : World -> Prop) (xs : list A) (body : A -> M unit)
    w (Q : unit -> World -> Prop) :
  I w ->
  (forall x w', x ∈ xs -> I w' -> wp (body x) w' (λ _, I)) ->
  (forall w', I w' -> Q tt w') ->
  wp (for_each xs body) w Q.
Proof.
  intros Hw Hbody HQ. unfold wp. destruct (eval _ w).
  apply HQ. apply for_each_invariant; [|exact Hw].
  intros x w' Hx Hw'. by apply Hbody.
Qed.

Lemma wp_get_data w (Q : Data -> World -> Prop) : Q (data w) w -> wp get_data w Q.
Proof. done. Qed.

Lemma wp_getAllUsers w (Q : list User.t -> World -> Prop) :
  Q (users (data w)) w -> wp getAllUsers w Q.
Proof. done. Qed.

Lemma wp_getUserByLineId lineUserId w (Q : option User.t -> World -> Prop) :
  Q (snd <$> list_find (λ u, User.line_user_id u = lineUserId) (users (data w))) w ->
  wp (getUserByLineId lineUserId) w Q.
Proof. done. Qed.

Lemma wp_getScheduleById sid w (Q : option Schedule.t -> World -> Prop) :
  Q (snd <$> list_find (λ s, Schedule.id s = sid) (schedules (data w))) w ->
  wp (getScheduleById sid) w Q.
Proof. done. Qed.

Lemma wp_getSchedulesByUserId uid w (Q : list Schedule.t -> World -> Prop) :
  Q (filter (λ s, Schedule.user_id s = uid) (schedules (data w))) w ->
  wp (getSchedulesByUserId uid) w Q.
Proof. done. Qed.

Lemma wp_getMedicationLogByScheduleAndDate sid date w
    (Q : option Log.t -> World -> Prop) :
  Q (snd <$> list_find (log_matches sid date) (logs_of w)) w ->
  wp (getMedicationLogByScheduleAndDate sid date) w Q.
Proof. done. Qed.

Lemma wp_getPendingLogsForDate date w (Q : list PendingLog -> World -> Prop) :
  Q (join_pending (data w) <$>
     filter (λ l, Log.date l = date /\ is_open (Log.status l) = true)
            (logs_of w)) w ->
  wp (getPendingLogsForDate date) w Q.
Proof. done. Qed.

Lemma wp_push to msg w (Q : bool -> World -> Prop) :
  Q (push_ok (length (trace w)))
    (mkWorld (data w) (trace w ++ [Push to msg (push_ok (length (trace w)))])
             (uuid_n w)) ->
  wp (push to msg) w Q.
Proof. done. Qed.

Lemma wp_sendReminderMessage to info w (Q : bool -> World -> Prop) :
  Q (push_ok (length (trace w)))
    (mkWorld (data w)
             (trace w ++ [Push to (Flex info) (push_ok (length (trace w)))])
             (uuid_n w)) ->
  wp (sendReminderMessage to info) w Q.
Proof. done. Qed.

Lemma wp_sendTextMessage to text w (Q : bool -> World -> Prop) :
  Q (push_ok (length (trace w)))
    (mkWorld (data w)
             (trace w ++ [Push to (TextMessage text) (push_ok (length (trace w)))])
             (uuid_n w))->
  wp (sendTextMessage to text) w Q.
Proof. done. Qed.

(** The store after an update, as a function of the store before. *)
Definition update_data (logId : string) (st : Status) (ad : AdditionalData)
    (d : Data) : Data :=
  match find_by_id logId (medicationLogs d) with
  | None => d
  | Some (i, l) =>
      mkData (users d) (schedules d)
             (<[i := apply_update st ad l]> (medicationLogs d))
  end.

Lemma wp_updateMedicationLogStatus logId st ad w
    (Q : option Log.t -> World -> Prop) :
  (forall r tr, Q r (mkWorld (update_data logId st ad (data w)) tr (uuid_n w))) ->
  wp (updateMedicationLogStatus logId st ad) w Q.
Proof.
  intros HQ. unfold wp, eval, exec.
  rewrite updateMedicationLogStatus_run.
  pose proof (HQ None (trace w)) as HN. unfold update_data in HQ, HN.
  destruct (find_by_id _ _) as [[i l]|]; cbn [fst snd]; [apply HQ|].
  by destruct w.
Qed.

(** * Records that are rewritten in place *)

Definition terminal (s : Status) : Prop := s = TAKEN \/ s = MISSED.

(** What no update touches. *)
Definition same_key (l l' : Log.t) : Prop :=
  Log.id l' = Log.id l /\ Log.schedule_id l' = Log.schedule_id l
  /\ Log.user_id l' = Log.user_id l /\ Log.date l' = Log.date l
  /\ Log.created_at l' = Log.created_at l.

Definition unique_log_ids (d : Data) : Prop := NoDup (Log.id <$> medicationLogs d).

(** [rewrites P d d']: from [d] to [d'] the users and the schedules are the
    same and every record was rewritten in place along [P]. *)
Definition rewrites (P : Log.t -> Log.t -> Prop) (d d' : Data) : Prop :=
  users d' = users d
  /\ schedules d' = schedules d
  /\ Forall2 (λ l l', same_key l l' /\ P l l') (medicationLogs d) (medicationLogs d').

Lemma same_key_refl l : same_key l l.
Proof. by repeat split. Qed.

Lemma same_key_trans l1 l2 l3 : same_key l1 l2 -> same_key l2 l3 -> same_key l1 l3.
Proof. unfold same_key. intuition congruence. Qed.

Lemma apply_update_same_key st ad l : same_key l (apply_update st ad l).
Proof.
  unfold apply_update. destruct ad as [[t|] [n|] [r|]], st; by repeat split.
Qed.

Lemma apply_update_status st ad l : Log.status (apply_update st ad l) = st.
Proof. unfold apply_update. by destruct ad as [[t|] [n|] [r|]], st. Qed.

Lemma apply_update_retry_count st ad l :
  Log.retry_count (apply_update st ad l)
  = default (Log.retry_count l) (retryCountOpt ad).
Proof. unfold apply_update. by destruct ad as [[t|] [n|] [r|]], st. Qed.

Lemma apply_update_taken_at st ad l :
  Log.taken_at (apply_update st ad l)
  = match st, takenAt ad with
    | TAKEN, Some ts => Some ts
    | _, _ => Log.taken_at l
    end.
Proof. unfold apply_update. by destruct ad as [[t|] [n|] [r|]], st. Qed.

Lemma apply_update_last_reminded_at st ad l :
  Log.last_reminded_at (apply_update st ad l)
  = match lastRemindedAt ad with
    | Some ts => Some ts
    | None => Log.last_reminded_at l
    end.
Proof. unfold apply_update. by destruct ad as [[t|] [n|] [r|]], st. Qed.

(** With unique identifiers the search by identifier ends on the record the
    identifier was read from. *)
Lemma find_by_id_unique (ls : list Log.t) i l :
  NoDup (Log.id <$> ls) -> ls !! i = Some l ->
  find_by_id (Log.id l) ls = Some (i, l).
Proof.
  intros Hnd Hi. unfold find_by_id. apply list_find_Some.
  split; [done|]. split; [done|].
  intros j y Hj Hlt Heq.
  assert (j = i); [|lia].
  eapply (NoDup_lookup _ _ _ _ Hnd); rewrite list_lookup_fmap.
  - by rewrite Hj.
  - rewrite Hi. simpl. by rewrite Heq.
Qed.

(** Two stored records with one identifier are one record. *)
Lemma unique_ids_eq d l l' :
  unique_log_ids d -> l ∈ medicationLogs d -> l' ∈ medicationLogs d ->
  Log.id l' = Log.id l -> l' = l.
Proof.
  intros Hnd [i Hi]%list_elem_of_lookup_1 [j Hj]%list_elem_of_lookup_1 Hid.
  assert (i = j).
  { eapply (NoDup_lookup _ _ _ _ Hnd); rewrite list_lookup_fmap.
    - by rewrite Hi.
    - rewrite Hj. simpl. by rewrite Hid. }
  subst j. congruence.
Qed.

Lemma found_log_in sid date (ls : list Log.t) l :
  snd <$> list_find (log_matches sid date) ls = Some l ->
  l ∈ ls /\ Log.schedule_id l = sid /\ Log.date l = date.
Proof.
  destruct (list_find _ _) as [[i x]|] eqn:Hfind; [|done].
  intros [= ->]. apply list_find_Some in Hfind as (Hi & [? ?] & _).
  split; [by eapply list_elem_of_lookup_2 | done].
Qed.

Section Rewrites.

Variable P : Log.t -> Log.t -> Prop.
Hypothesis P_refl : forall l, P l l.
Hypothesis P_trans : forall l1 l2 l3, P l1 l2 -> P l2 l3 -> P l1 l3.

Lemma rewrites_refl d : rewrites P d d.
Proof.
  repeat split. apply Forall_Forall2_diag, Forall_forall.
  intros l _. split; [apply same_key_refl | apply P_refl].
Qed.

Lemma rewrites_trans d1 d2 d3 :
  rewrites P d1 d2 -> rewrites P d2 d3 -> rewrites P d1 d3.
Proof.
  intros (Hu1 & Hs1 & H1) (Hu2 & Hs2 & H2). repeat split; try congruence.
  eapply Forall2_trans; [|exact H1|exact H2].
  intros x y z [? ?] [? ?]. split; [by eapply same_key_trans | by eapply P_trans].
Qed.

Lemma rewrites_ids d d' :
  rewrites P d d' -> Log.id <$> medicationLogs d' = Log.id <$> medicationLogs d.
Proof.
  intros (_ & _ & H). induction H as [|l l' ls ls' [Hk _] _ IH]; [done|].
  rewrite !fmap_cons, IH. by destruct Hk as [-> _].
Qed.

Lemma rewrites_unique d d' :
  rewrites P d d' -> unique_log_ids d -> unique_log_ids d'.
Proof. unfold unique_log_ids. intros H. by rewrite (rewrites_ids _ _ H). Qed.

(** An update seen from an earlier store [d0]: the record that carries the
    identifier of [l0] is rewritten, the others stay. *)
Lemma update_rewrites_from d0 d l0 st ad :
  unique_log_ids d0 -> rewrites P d0 d -> l0 ∈ medicationLogs d0 ->
  (forall l, l ∈ medicationLogs d -> same_key l0 l -> P l0 l ->
             P l0 (apply_update st ad l)) ->
  rewrites P d0 (update_data (Log.id l0) st ad d).
Proof.
  intros Hnd Hrw Hin HP.
  apply list_elem_of_lookup_1 in Hin as [i Hi].
  assert (Hnd' : unique_log_ids d) by (by eapply rewrites_unique).
  destruct Hrw as (Hu & Hs & Hls).
  destruct (Forall2_lookup_l _ _ _ _ _ Hls Hi) as (l & Hl & Hk & HPl).
  unfold update_data.
  assert (Hid : Log.id l0 = Log.id l) by (by destruct Hk as [-> _]).
  rewrite Hid, (find_by_id_unique _ i l Hnd' Hl).
  repeat split; try done. cbn [medicationLogs].
  rewrite <- (list_insert_id (medicationLogs d0) i l0 Hi).
  apply Forall2_insert; [done|].
  split.
  - eapply same_key_trans; [exact Hk | apply apply_update_same_key].
  - apply HP; try done. by eapply list_elem_of_lookup_2.
Qed.

Lemma update_rewrites d l st ad :
  unique_log_ids d -> l ∈ medicationLogs d -> P l (apply_update st ad l) ->
  rewrites P d (update_data (Log.id l) st ad d).
Proof.
  intros Hnd Hin HP. apply update_rewrites_from; try done.
  - apply rewrites_refl.
  - intros l' Hin' Hk _.
    assert (l' = l) as ->; [|done].
    apply (unique_ids_eq d); try done. by destruct Hk as [-> _].
Qed.

End Rewrites.

(** One round of a scheduler on one record: the record stays as it is, or it
    was open and is rewritten with a retry counter that is not smaller, the
    same [taken_at] and a status other than TAKEN. *)
Definition scheduler_step (l l' : Log.t) : Prop :=
  l' = l
  \/ (is_open (Log.status l) = true
      /\ Log.retry_count l <= Log.retry_count l'
      /\ Log.taken_at l' = Log.taken_at l
      /\ Log.status l' <> TAKEN).

Lemma scheduler_step_refl l : scheduler_step l l.
Proof. by left. Qed.

Lemma is_open_spec s : is_open s = true <-> s = PENDING \/ s = SNOOZED.
Proof. destruct s; unfold is_open; simpl; intuition congruence. Qed.

Lemma scheduler_step_stays_open l l' :
  scheduler_step l l' -> is_open (Log.status l') = true ->
  is_open (Log.status l) = true.
Proof. intros [->|(? & _)]; auto. Qed.

Lemma scheduler_step_trans l1 l2 l3 :
  scheduler_step l1 l2 -> scheduler_step l2 l3 -> scheduler_step l1 l3.
Proof.
  intros [->|(Ho1 & Hr1 & Ht1 & Hs1)]; [done|].
  intros [->|(Ho2 & Hr2 & Ht2 & Hs2)]; [by right|].
  right. repeat split; try done; [lia | congruence].
Qed.

Ltac wp_step :=
  lazymatch goal with
  | |- wp (ret _) _ _ => apply wp_ret
  | |- wp (mbind _ _) _ _ => apply wp_bind
  | |- wp get_data _ _ => apply wp_get_data
  | |- wp getAllUsers _ _ => apply wp_getAllUsers
  | |- wp (getUserByLineId _) _ _ => apply wp_getUserByLineId
  | |- wp (getScheduleById _) _ _ => apply wp_getScheduleById
  | |- wp (getSchedulesByUserId _) _ _ => apply wp_getSchedulesByUserId
  | |- wp (getMedicationLogByScheduleAndDate _ _) _ _ =>
      apply wp_getMedicationLogByScheduleAndDate
  | |- wp (getPendingLogsForDate _) _ _ => apply wp_getPendingLogsForDate
  | |- wp (sendReminderMessage _ _) _ _ => apply wp_sendReminderMessage
  | |- wp (sendTextMessage _ _) _ _ => apply wp_sendTextMessage
  | |- wp (push _ _) _ _ => apply wp_push
  | |- wp (when true _) _ _ => unfold when at 1
  | |- wp (when false _) _ _ => unfold when at 1
  end;
  cbv beta.

Ltac wp_steps := repeat wp_step.

Lemma retry_or_zero_eq l : retry_or_zero l = Log.retry_count l.
Proof. unfold retry_or_zero, or_default. by destruct (Log.retry_count l). Qed.

Lemma not_terminal_open s : s <> TAKEN -> s <> MISSED -> is_open s = true.
Proof. by destruct s. Qed.

(** ** The schedulers rewrite open records only *)

Lemma remind_user_rewrites today now mealType user w :
  unique_log_ids (data w) ->
  wp (remind_user today now mealType user) w
     (λ _ w', rewrites scheduler_step (data w) (data w')).
Proof.
  intros Hnd. unfold remind_user. wp_steps.
  destruct (snd <$> list_find _ (filter _ _)) as [schedule|];
    [|wp_steps; apply rewrites_refl, scheduler_step_refl].
  wp_steps.
  destruct (snd <$> list_find (log_matches _ _) _) as [log|] eqn:Hlog;
    [|wp_steps; apply rewrites_refl, scheduler_step_refl].
  apply found_log_in in Hlog as (Hin & _).
  repeat case_bool_decide;
    try (wp_steps; apply rewrites_refl, scheduler_step_refl).
  - wp_steps. apply wp_updateMedicationLogStatus. intros r tr. wp_steps.
    cbn [data]. apply update_rewrites; try done; [apply scheduler_step_refl|].
    right. rewrite apply_update_status, apply_update_retry_count,
      apply_update_taken_at. simpl.
    repeat split; try done; try lia; by apply not_terminal_open.
  - wp_steps. apply wp_updateMedicationLogStatus. intros r tr. wp_steps.
    cbn [data]. apply update_rewrites; try done; [apply scheduler_step_refl|].
    right. rewrite apply_update_status, apply_update_retry_count,
      apply_update_taken_at, retry_or_zero_eq. simpl.
    repeat split; try done; try lia; by apply not_terminal_open.
Qed.

(** A loop of rounds that each rewrite along [scheduler_step]. *)
Lemma for_each_rewrites {A} (xs : list A) (body : A -> M unit) w :
  (forall x w', unique_log_ids (data w') ->
     wp (body x) w' (λ _ w'', rewrites scheduler_step (data w') (data w''))) ->
  unique_log_ids (data w) ->
  wp (for_each xs body) w (λ _ w', rewrites scheduler_step (data w) (data w')).
Proof.
  intros Hbody Hnd.
  apply (wp_for_each (λ w', rewrites scheduler_step (data w) (data w'))).
  - apply rewrites_refl, scheduler_step_refl.
  - intros x w' _ Hrw.
    assert (Hnd' : unique_log_ids (data w')) by (by eapply rewrites_unique).
    eapply wp_conseq; [by apply Hbody|].
    intros a w'' Hrw'. cbv beta in *.
    eapply rewrites_trans; [apply scheduler_step_trans|exact Hrw|exact Hrw'].
  - done.
Qed.

Lemma sendReminderForMealType_rewrites today now mealType w :
  unique_log_ids (data w) ->
  wp (sendReminderForMealType today now mealType) w
     (λ _ w', rewrites scheduler_step (data w) (data w')).
Proof.
  intros Hnd. unfold sendReminderForMealType. wp_steps.
  destruct (users (data w)) as [|u us] eqn:Hus;
    [wp_steps; apply rewrites_refl, scheduler_step_refl|].
  apply for_each_rewrites; [|done].
  intros x w' Hnd'. by apply remind_user_rewrites.
Qed.

Lemma scheduler_step_touch (st : Status) ad l :
  is_open (Log.status l) = true -> st <> TAKEN ->
  Log.retry_count l <= default (Log.retry_count l) (retryCountOpt ad) ->
  scheduler_step l (apply_update st ad l).
Proof.
  intros Hopen Hst Hretry. right.
  rewrite apply_update_status, apply_update_retry_count, apply_update_taken_at.
  repeat split; try done. by destruct st.
Qed.

Lemma scheduler_step_touch_from (st : Status) ad l0 l :
  is_open (Log.status l0) = true -> st <> TAKEN ->
  scheduler_step l0 l ->
  Log.retry_count l0 <= default (Log.retry_count l) (retryCountOpt ad) ->
  scheduler_step l0 (apply_update st ad l).
Proof.
  intros Hopen Hst Hstep Hretry. right.
  rewrite apply_update_status, apply_update_retry_count, apply_update_taken_at.
  repeat split; try done.
  destruct Hstep as [->|(_ & _ & Htaken & _)]; by destruct st.
Qed.

Lemma check_schedule_rewrites today currentTime now user schedule w :
  unique_log_ids (data w) ->
  wp (check_schedule today currentTime now user schedule) w
     (λ _ w', rewrites scheduler_step (data w) (data w')).
Proof.
  intros Hnd. unfold check_schedule.
  pose proof (rewrites_refl scheduler_step scheduler_step_refl (data w)) as Hrefl.
  case_bool_decide; wp_steps; [|done].
  destruct (snd <$> list_find (log_matches _ _) _) as [log|] eqn:Hlog;
    [|by wp_steps].
  apply found_log_in in Hlog as (Hin & _).
  destruct (is_open (Log.status log)) eqn:Hopen; wp_steps; [|done].
  assert (Hsend : forall tr,
    wp (updateMedicationLogStatus (Log.id log) (Log.status log)
          (mkAdditional None None (Some now)))
       (mkWorld (data w) tr (uuid_n w))
       (λ _ w', wp (ret ()) w'
                   (λ _ w'', rewrites scheduler_step (data w) (data w'')))).
  { intros tr. apply wp_updateMedicationLogStatus.
    intros r tr'. wp_steps. cbn [data].
    apply update_rewrites; try done; [apply scheduler_step_refl|].
    apply scheduler_step_touch; [done| |simpl; lia].
    intros Heq. by rewrite Heq in Hopen. }
  destruct (Schedule.is_second_dose schedule);
    [destruct (nonempty (Schedule.linked_schedule_id schedule)) as [linked|]|];
    wp_steps; try apply Hsend.
  destruct (snd <$> list_find (log_matches linked today) _) as [first|];
    [case_bool_decide|]; wp_steps; first [done | apply Hsend].
Qed.

Lemma checkAndSendReminders_rewrites today currentTime now w :
  unique_log_ids (data w) ->
  wp (checkAndSendReminders today currentTime now) w
     (λ _ w', rewrites scheduler_step (data w) (data w')).
Proof.
  intros Hnd. unfold checkAndSendReminders. wp_steps.
  apply for_each_rewrites; [|done].
  intros user w' Hnd'. unfold check_user. wp_steps.
  apply for_each_rewrites; [|done].
  intros schedule w'' Hnd''. by apply check_schedule_rewrites.
Qed.

(** A round of [checkRetryNeeded] decides on the row [pl] read before the
    loop; what it writes is a step from the record as it was then. *)
Lemma retry_log_rewrites d0 now pl w :
  unique_log_ids d0 -> pl_log pl ∈ medicationLogs d0 ->
  is_open (Log.status (pl_log pl)) = true ->
  rewrites scheduler_step d0 (data w) ->
  wp (retry_log now pl) w (λ _ w', rewrites scheduler_step d0 (data w')).
Proof.
  intros Hnd Hin Hopen Hrw. unfold retry_log. cbv zeta.
  destruct (Log.last_reminded_at (pl_log pl)) as [lastReminded|];
    [|by wp_steps].
  wp_steps.
  apply (wp_conseq _ _ (λ _ w', rewrites scheduler_step d0 (data w'))).
  - apply wp_when; [intros _|done]. wp_steps.
    destruct (snd <$> list_find _ (schedules (data w))) as [schedule|];
      [|by wp_steps].
    wp_steps. apply wp_updateMedicationLogStatus. intros r tr. wp_steps.
    cbn [data]. apply update_rewrites_from; try done.
    intros l _ _ Hstep. apply scheduler_step_touch_from; [done|done|done|].
    simpl. lia.
  - intros a w' Hrw'. apply wp_when; [intros _|done].
    wp_steps. apply wp_updateMedicationLogStatus. intros r tr. wp_steps.
    cbn [data]. apply update_rewrites_from; try done.
    intros l _ _ Hstep. apply scheduler_step_touch_from; [done|done|done|].
    simpl. destruct Hstep as [->|(_ & ? & _)]; lia.
Qed.

Lemma checkRetryNeeded_rewrites zone today t w :
  unique_log_ids (data w) ->
  wp (checkRetryNeeded zone today t) w
     (λ _ w', rewrites scheduler_step (data w) (data w')).
Proof.
  intros Hnd. unfold checkRetryNeeded. cbv zeta. wp_steps.
  apply (wp_for_each (λ w', rewrites scheduler_step (data w) (data w')));
    [apply rewrites_refl, scheduler_step_refl| |done].
  intros pl w' Hpl Hrw.
  apply list_elem_of_fmap in Hpl as (l & -> & Hl).
  apply list_elem_of_filter in Hl as ((_ & Hopen) & Hl).
  by apply retry_log_rewrites.
Qed.

(** * One evaluation of the cron scheduler, exactly *)

(** The schedule and the record of today that [remind_user] settles on. *)
Definition find_schedule (d : Data) (mealType : string) (u : User.t)
    : option Schedule.t :=
  snd <$> list_find (λ s, Schedule.meal_type s = mealType)
            (filter (λ s, Schedule.user_id s = User.id u) (schedules d)).

Definition today_record (d : Data) (sid today : string) : option (nat * Log.t) :=
  list_find (log_matches sid today) (medicationLogs d).

Definition set_log (i : nat) (l : Log.t) (d : Data) : Data :=
  mkData (users d) (schedules d) (<[i := l]> (medicationLogs d)).

Definition reminder_info (s : Schedule.t) (retry : Z) : ScheduleInfo :=
  mkInfo (Schedule.meal_type s) (Schedule.medicines s) (Schedule.id s) retry
         (Schedule.is_second_dose s).

Definition missed_now (now : Z) (l : Log.t) : Log.t :=
  apply_update MISSED (mkAdditional None None (Some now)) l.

Definition snoozed_now (now : Z) (l : Log.t) : Log.t :=
  apply_update SNOOZED
    (mkAdditional None (Some (Log.retry_count l + 1)) (Some now)) l.

Definition remind_user_result (now : Z) (u : User.t) (s : Schedule.t)
    (j : nat) (l : Log.t) (w : World) : World :=
  if negb (is_open (Log.status l)) then w
  else if bool_decide (3 <= Log.retry_count l) then
    let d' := set_log j (missed_now now l) (data w) in
    mkWorld d'
      (trace w ++
       [Saved d';
        Push (User.line_user_id u) (TextMessage TxtExceeded)
             (push_ok (S (length (trace w))))])
      (uuid_n w)
  else
    let d' := set_log j (snoozed_now now l) (data w) in
    mkWorld d'
      (trace w ++
       [Push (User.line_user_id u)
             (Flex (reminder_info s (Log.retry_count l)))
             (push_ok (length (trace w)));
        Saved d'])
      (uuid_n w).

Lemma today_record_lookup d sid today j l :
  today_record d sid today = Some (j, l) ->
  medicationLogs d !! j = Some l /\ Log.schedule_id l = sid /\ Log.date l = today.
Proof.
  unfold today_record. intros (Hj & [? ?] & _)%list_find_Some. done.
Qed.

Lemma update_data_unique d j l st ad :
  unique_log_ids d -> medicationLogs d !! j = Some l ->
  update_data (Log.id l) st ad d = set_log j (apply_update st ad l) d.
Proof.
  intros Hnd Hj. unfold update_data. by rewrite (find_by_id_unique _ j l Hnd Hj).
Qed.

Lemma exec_updateMedicationLogStatus_unique w j l st ad :
  unique_log_ids (data w) -> logs_of w !! j = Some l ->
  exec (updateMedicationLogStatus (Log.id l) st ad) w
  = let d' := set_log j (apply_update st ad l) (data w) in
    mkWorld d' (trace w ++ [Saved d']) (uuid_n w).
Proof.
  intros Hnd Hj. unfold exec. rewrite updateMedicationLogStatus_run.
  by rewrite (find_by_id_unique _ j l Hnd Hj).
Qed.

Lemma remind_user_exact today now mealType u w s j l :
  unique_log_ids (data w) ->
  find_schedule (data w) mealType u = Some s ->
  today_record (data w) (Schedule.id s) today = Some (j, l) ->
  exec (remind_user today now mealType u) w = remind_user_result now u s j l w.
Proof.
  intros Hnd Hs Hl. unfold find_schedule in Hs. unfold today_record in Hl.
  pose proof (today_record_lookup _ _ _ _ _ Hl) as (Hj & _).
  unfold remind_user, remind_user_result.
  rewrite exec_bind. change (exec (getSchedulesByUserId _) w) with w.
  change (eval (getSchedulesByUserId (User.id u)) w)
    with (filter (λ s, Schedule.user_id s = User.id u) (schedules (data w))).
  rewrite Hs. rewrite exec_bind.
  change (exec (getMedicationLogByScheduleAndDate _ _) w) with w.
  change (eval (getMedicationLogByScheduleAndDate (Schedule.id s) today) w)
    with (snd <$> list_find (log_matches (Schedule.id s) today) (logs_of w)).
  rewrite Hl. cbn [fmap option_fmap option_map snd].
  rewrite retry_or_zero_eq.
  destruct (is_open (Log.status l)) eqn:Hopen; cbn [negb].
  - assert (Log.status l <> TAKEN /\ Log.status l <> MISSED) as [HnT HnM].
    { by destruct (Log.status l). }
    rewrite (bool_decide_eq_false_2 (Log.status l = TAKEN)) by done.
    rewrite (bool_decide_eq_false_2 (Log.status l = MISSED)) by done.
    case_bool_decide as Hge.
    + rewrite (bool_decide_eq_true_2 (Log.status l <> MISSED)) by done.
      unfold when. rewrite !exec_bind.
      rewrite (exec_updateMedicationLogStatus_unique _ j l) by done.
      destruct w as [d tr n]. unfold missed_now. cbn.
      by rewrite length_app, Nat.add_1_r, <- app_assoc.
    + rewrite !exec_bind.
      change (exec (sendReminderMessage ?a ?b) w) with
        (mkWorld (data w) (trace w ++ [Push a (Flex b) (push_ok (length (trace w)))])
                 (uuid_n w)).
      rewrite (exec_updateMedicationLogStatus_unique _ j l) by done.
      destruct w as [d tr n]. unfold snoozed_now. cbn.
      by rewrite <- app_assoc.
  - destruct (Log.status l); try done; by repeat case_bool_decide.
Qed.

Lemma remind_user_no_schedule today now mealType u w :
  find_schedule (data w) mealType u = None ->
  exec (remind_user today now mealType u) w = w.
Proof.
  intros Hs. unfold find_schedule in Hs. unfold remind_user.
  rewrite exec_bind. change (exec (getSchedulesByUserId _) w) with w.
  change (eval (getSchedulesByUserId (User.id u)) w)
    with (filter (λ s, Schedule.user_id s = User.id u) (schedules (data w))).
  by rewrite Hs.
Qed.

Lemma remind_user_no_record today now mealType u w s :
  find_schedule (data w) mealType u = Some s ->
  today_record (data w) (Schedule.id s) today = None ->
  exec (remind_user today now mealType u) w = w.
Proof.
  intros Hs Hl. unfold find_schedule, today_record in *. unfold remind_user.
  rewrite exec_bind. change (exec (getSchedulesByUserId _) w) with w.
  change (eval (getSchedulesByUserId (User.id u)) w)
    with (filter (λ s, Schedule.user_id s = User.id u) (schedules (data w))).
  rewrite Hs. rewrite exec_bind.
  change (exec (getMedicationLogByScheduleAndDate _ _) w) with w.
  change (eval (getMedicationLogByScheduleAndDate (Schedule.id s) today) w)
    with (snd <$> list_find (log_matches (Schedule.id s) today) (logs_of w)).
  by rewrite Hl.
Qed.

(** ** Counting what reaches a user *)

Fixpoint count (f : Event -> bool) (tr : list Event) : nat :=
  match tr with
  | [] => 0
  | e :: tr' => (if f e then 1 else 0) + count f tr'
  end.

(** A reminder (the Flex message with the two buttons) pushed to [line] for
    the schedule [sid]. *)
Definition is_reminder (line sid : string) (e : Event) : bool :=
  match e with
  | Push to (Flex info) _ =>
      bool_decide (to = line) && bool_decide (scheduleId info = sid)
  | _ => false
  end.

(** The notice that the maximum of three reminders is exceeded, pushed to
    [line]. *)
Definition is_notice (line : string) (e : Event) : bool :=
  match e with
  | Push to (TextMessage TxtExceeded) _ => bool_decide (to = line)
  | _ => false
  end.

Lemma count_app f tr1 tr2 : count f (tr1 ++ tr2) = (count f tr1 + count f tr2)%nat.
Proof. induction tr1 as [|e tr1 IH]; simpl; [done|]. rewrite IH. lia. Qed.

Lemma emitted_app {A} (m : M A) w (new : list Event) :
  trace (exec m w) = trace w ++ new -> emitted m w = new.
Proof. intros H. unfold emitted. rewrite H. apply drop_app_length. Qed.

(** The identifiers that the store keeps unique: [uuidv4()] for users,
    schedules and records, and the chat identifier that [createUser] looks
    up before it inserts. *)
Definition unique_ids (d : Data) : Prop :=
  NoDup (User.id <$> users d)
  /\ NoDup (User.line_user_id <$> users d)
  /\ NoDup (Schedule.id <$> schedules d)
  /\ unique_log_ids d.

Lemma NoDup_fmap_eq {A B} (f : A -> B) (xs : list A) x y :
  NoDup (f <$> xs) -> x ∈ xs -> y ∈ xs -> f x = f y -> x = y.
Proof.
  intros Hnd [i Hi]%list_elem_of_lookup_1 [j Hj]%list_elem_of_lookup_1 Hf.
  assert (i = j).
  { eapply (NoDup_lookup _ _ _ _ Hnd); rewrite list_lookup_fmap.
    - by rewrite Hi.
    - rewrite Hj. simpl. by rewrite Hf. }
  subst j. congruence.
Qed.

Lemma rewrites_unique_ids P d d' :
  rewrites P d d' -> unique_ids d -> unique_ids d'.
Proof.
  intros Hrw (Hu & Hl & Hs & Hlog). pose proof Hrw as (Hus & Hss & _).
  unfold unique_ids. rewrite Hus, Hss. repeat split; try done.
  by eapply rewrites_unique.
Qed.

(** A search by schedule and date ends at the same place after records were
    rewritten in place. *)
Lemma today_record_rewrites P d d' sid today j l :
  rewrites P d d' -> today_record d sid today = Some (j, l) ->
  exists l', today_record d' sid today = Some (j, l')
             /\ medicationLogs d' !! j = Some l' /\ same_key l l' /\ P l l'.
Proof.
  intros (_ & _ & Hall) Hfind. unfold today_record in *.
  apply list_find_Some in Hfind as (Hj & Hm & Hfirst).
  destruct (Forall2_lookup_l _ _ _ _ _ Hall Hj) as (l' & Hj' & Hk & HP).
  exists l'. refine (conj _ (conj Hj' (conj Hk HP))).
  apply list_find_Some. split; [done|]. split.
  - destruct Hk as (_ & Hsid & _ & Hdate & _), Hm as [? ?].
    split; congruence.
  - intros i y Hi Hlt [Hy1 Hy2].
    assert (exists x, medicationLogs d !! i = Some x) as [x Hx].
    { apply lookup_lt_is_Some. apply Forall2_length in Hall. rewrite Hall.
      by eapply lookup_lt_Some. }
    pose proof (Forall2_lookup_lr _ _ _ _ _ _ Hall Hx Hi) as [Hk' _].
    destruct Hk' as (_ & Hsid & _ & Hdate & _).
    eapply (Hfirst i x); try done. split; congruence.
Qed.

Lemma today_record_rewrites_None P d d' sid today :
  rewrites P d d' -> today_record d sid today = None ->
  today_record d' sid today = None.
Proof.
  intros (_ & _ & Hall) Hfind. unfold today_record in *.
  apply list_find_None. apply list_find_None in Hfind.
  apply Forall_lookup. intros i y Hi [Hy1 Hy2].
  assert (exists x, medicationLogs d !! i = Some x) as [x Hx].
  { apply lookup_lt_is_Some. apply Forall2_length in Hall. rewrite Hall.
    by eapply lookup_lt_Some. }
  pose proof (Forall2_lookup_lr _ _ _ _ _ _ Hall Hx Hi) as [Hk' _].
  destruct Hk' as (_ & Hsid & _ & Hdate & _).
  eapply (Forall_lookup_1 _ _ _ _ Hfind Hx). split; congruence.
Qed.

Lemma find_schedule_rewrites P d d' mealType u :
  rewrites P d d' -> find_schedule d' mealType u = find_schedule d mealType u.
Proof. intros (_ & Hs & _). unfold find_schedule. by rewrite Hs. Qed.

Lemma find_schedule_in d mealType u s :
  find_schedule d mealType u = Some s ->
  s ∈ schedules d /\ Schedule.user_id s = User.id u
  /\ Schedule.meal_type s = mealType.
Proof.
  unfold find_schedule.
  destruct (list_find _ _) as [[i x]|] eqn:Hfind; [|done].
  intros [= ->]. apply list_find_Some in Hfind as (Hi & Hm & _).
  apply list_elem_of_lookup_2, list_elem_of_filter in Hi as [? ?]. done.
Qed.

Lemma exec_sendReminderForMealType today now mealType w :
  exec (sendReminderForMealType today now mealType) w
  = exec (for_each (users (data w)) (remind_user today now mealType)) w.
Proof.
  unfold sendReminderForMealType. rewrite exec_bind.
  change (eval getAllUsers w) with (users (data w)).
  change (exec getAllUsers w) with w.
  by destruct (users (data w)).
Qed.

(** ** The retry ceiling of one record *)

Section RetryCeiling.

(** The record under observation: the one that an evaluation for
    [mealType] on [today] finds for the user [u], through the schedule [s],
    at position [j] of the store. *)
Variables (today mealType : string) (u : User.t) (s : Schedule.t) (j : nat).

Definition on_target (d : Data) (l : Log.t) : Prop :=
  u ∈ users d
  /\ find_schedule d mealType u = Some s
  /\ today_record d (Schedule.id s) today = Some (j, l).

Definition reminders (tr : list Event) : nat :=
  count (is_reminder (User.line_user_id u) (Schedule.id s)) tr.

Definition notices (tr : list Event) : nat :=
  count (is_notice (User.line_user_id u)) tr.

(** What one evaluation does to the record. *)
Definition record_step (now : Z) (l : Log.t) : Log.t :=
  if negb (is_open (Log.status l)) then l
  else if bool_decide (3 <= Log.retry_count l) then missed_now now l
  else snoozed_now now l.

Definition reminder_due (l : Log.t) : bool :=
  is_open (Log.status l) && bool_decide (Log.retry_count l < 3).

Definition notice_due (l : Log.t) : bool :=
  is_open (Log.status l) && bool_decide (3 <= Log.retry_count l).

Lemma on_target_rewrites P d d' l l' :
  rewrites P d d' -> on_target d l -> medicationLogs d' !! j = Some l' ->
  on_target d' l'.
Proof.
  intros Hrw (Hu & Hs & Hl) Hj. pose proof Hrw as (Hus & _).
  unfold on_target. rewrite Hus, (find_schedule_rewrites _ _ _ _ _ Hrw).
  repeat split; try done.
  destruct (today_record_rewrites _ _ _ _ _ _ _ Hrw Hl) as (l2 & Hl2 & Hj2 & _).
  congruence.
Qed.

Lemma nothing_happens w l :
  on_target (data w) l ->
  exists new : list Event,
    trace w = trace w ++ new
    /\ reminders new = 0%nat /\ notices new = 0%nat
    /\ rewrites scheduler_step (data w) (data w)
    /\ logs_of w !! j = Some l.
Proof.
  intros (_ & _ & Hl). exists []. rewrite app_nil_r.
  split; [done|]. split; [done|]. split; [done|]. split.
  - apply rewrites_refl, scheduler_step_refl.
  - by apply today_record_lookup in Hl as [? _].
Qed.

(** Another user's round leaves the record and the messages to [u] alone. *)
Lemma remind_other now u' w l :
  unique_ids (data w) -> on_target (data w) l ->
  u' ∈ users (data w) -> User.id u' <> User.id u ->
  exists new : list Event,
    trace (exec (remind_user today now mealType u') w) = trace w ++ new
    /\ reminders new = 0%nat /\ notices new = 0%nat
    /\ rewrites scheduler_step (data w)
                (data (exec (remind_user today now mealType u') w))
    /\ logs_of (exec (remind_user today now mealType u') w) !! j = Some l.
Proof.
  intros Hwf Htgt Hu' Hne. pose proof Htgt as (Hu & Hs & Hl).
  pose proof Hwf as (Hnu & Hnl & Hns & Hnd).
  pose proof (remind_user_rewrites today now mealType u' w Hnd) as Hrw.
  unfold wp in Hrw.
  pose proof (today_record_lookup _ _ _ _ _ Hl) as (Hj & Hsid & _).
  assert (Hline : User.line_user_id u' <> User.line_user_id u).
  { intros Heq. apply Hne. f_equal.
    by apply (NoDup_fmap_eq User.line_user_id (users (data w))). }
  destruct (find_schedule (data w) mealType u') as [s'|] eqn:Hs'.
  2: { rewrite remind_user_no_schedule by done. by apply nothing_happens. }
  destruct (today_record (data w) (Schedule.id s') today) as [[j' l']|] eqn:Hl'.
  2: { rewrite (remind_user_no_record _ _ _ _ _ s') by done.
       by apply nothing_happens. }
  assert (Hjj : j' <> j).
  { intros ->.
    pose proof (today_record_lookup _ _ _ _ _ Hl') as (Hj' & Hsid' & _).
    assert (l' = l) as -> by congruence.
    apply find_schedule_in in Hs as (Hin & Huid & _).
    apply find_schedule_in in Hs' as (Hin' & Huid' & _).
    assert (s' = s) as ->.
    { apply (NoDup_fmap_eq Schedule.id (schedules (data w))); try done.
      congruence. }
    congruence. }
  rewrite (remind_user_exact _ _ _ _ _ s' j' l') in * by done.
  unfold remind_user_result in *.
  destruct (negb (is_open (Log.status l'))); [|case_bool_decide];
    cbn [trace data medicationLogs set_log] in *.
  - by apply nothing_happens.
  - eexists. split; [done|]. unfold reminders, notices. cbn.
    rewrite bool_decide_eq_false_2 by done.
    split; [done|]. split; [done|]. split; [exact Hrw|].
    by rewrite list_lookup_insert_ne.
  - eexists. split; [done|]. unfold reminders, notices. cbn.
    rewrite bool_decide_eq_false_2 by done.
    split; [done|]. split; [done|]. split; [exact Hrw|].
    by rewrite list_lookup_insert_ne.
Qed.

Lemma remind_others now us w l :
  unique_ids (data w) -> on_target (data w) l ->
  (forall u', u' ∈ us -> u' ∈ users (data w) /\ User.id u' <> User.id u) ->
  exists new : list Event,
    trace (exec (for_each us (remind_user today now mealType)) w)
    = trace w ++ new
    /\ reminders new = 0%nat /\ notices new = 0%nat
    /\ rewrites scheduler_step (data w)
         (data (exec (for_each us (remind_user today now mealType)) w))
    /\ logs_of (exec (for_each us (remind_user today now mealType)) w) !! j
       = Some l.
Proof.
  revert w. induction us as [|u' us IH]; intros w Hwf Htgt Hus.
  - by apply nothing_happens.
  - rewrite exec_for_each_cons.
    destruct (Hus u') as [Hin Hne]; [by left|].
    destruct (remind_other now u' w l Hwf Htgt Hin Hne)
      as (new1 & Htr1 & Hr1 & Hn1 & Hrw1 & Hj1).
    set (w1 := exec (remind_user today now mealType u') w) in *.
    assert (Hwf1 : unique_ids (data w1)) by (by eapply rewrites_unique_ids).
    assert (Htgt1 : on_target (data w1) l) by (by eapply on_target_rewrites).
    destruct (IH w1 Hwf1 Htgt1) as (new2 & Htr2 & Hr2 & Hn2 & Hrw2 & Hj2).
    { intros x Hx. destruct (Hus x) as [? ?]; [by right|].
      destruct Hrw1 as (-> & _). done. }
    exists (new1 ++ new2). rewrite Htr2, Htr1, app_assoc.
    unfold reminders, notices in *. rewrite !count_app, Hr1, Hr2, Hn1, Hn2.
    split; [done|]. split; [done|]. split; [done|]. split; [|done].
    eapply rewrites_trans; [apply scheduler_step_trans|exact Hrw1|exact Hrw2].
Qed.

(** The round of [u] itself. *)
Lemma remind_target now w l :
  unique_ids (data w) -> on_target (data w) l ->
  exists new : list Event,
    trace (exec (remind_user today now mealType u) w) = trace w ++ new
    /\ reminders new = (if reminder_due l then 1 else 0)%nat
    /\ notices new = (if notice_due l then 1 else 0)%nat
    /\ rewrites scheduler_step (data w)
                (data (exec (remind_user today now mealType u) w))
    /\ logs_of (exec (remind_user today now mealType u) w) !! j
       = Some (record_step now l).
Proof.
  intros Hwf Htgt. pose proof Htgt as (Hu & Hs & Hl).
  pose proof Hwf as (_ & _ & _ & Hnd).
  pose proof (remind_user_rewrites today now mealType u w Hnd) as Hrw.
  unfold wp in Hrw.
  pose proof (today_record_lookup _ _ _ _ _ Hl) as (Hj & _).
  rewrite (remind_user_exact _ _ _ _ _ s j l) in * by done.
  unfold remind_user_result, record_step, reminder_due, notice_due in *.
  destruct (is_open (Log.status l)); cbn [negb andb].
  2: { destruct (nothing_happens w l Htgt) as (new & ? & ? & ? & ? & ?).
       by exists new. }
  case_bool_decide as Hge.
  - rewrite bool_decide_eq_false_2 by lia.
    eexists. split; [done|]. unfold reminders, notices. cbn.
    rewrite bool_decide_eq_true_2 by done.
    split; [done|]. split; [done|]. split; [exact Hrw|].
    apply list_lookup_insert_eq. by eapply lookup_lt_Some.
  - rewrite bool_decide_eq_true_2 by lia.
    eexists. split; [done|]. unfold reminders, notices. cbn.
    rewrite !bool_decide_eq_true_2 by done.
    split; [done|]. split; [done|]. split; [exact Hrw|].
    apply list_lookup_insert_eq. by eapply lookup_lt_Some.
Qed.

(** One evaluation of [sendReminderForMealType], seen from the record. *)
Lemma evaluation_effect now w l :
  unique_ids (data w) -> on_target (data w) l ->
  exists new : list Event,
    trace (exec (sendReminderForMealType today now mealType) w) = trace w ++ new
    /\ reminders new = (if reminder_due l then 1 else 0)%nat
    /\ notices new = (if notice_due l then 1 else 0)%nat
    /\ unique_ids (data (exec (sendReminderForMealType today now mealType) w))
    /\ on_target (data (exec (sendReminderForMealType today now mealType) w))
                 (record_step now l).
Proof.
  intros Hwf Htgt. rewrite exec_sendReminderForMealType.
  pose proof Htgt as (Hu & _). pose proof Hwf as (Hnu & _).
  apply list_elem_of_split in Hu as (us1 & us2 & Hus).
  rewrite Hus in Hnu |- *. rewrite fmap_app, fmap_cons in Hnu.
  apply NoDup_app in Hnu as (_ & Hnot1 & Hnu2).
  apply NoDup_cons in Hnu2 as (Hnot2 & _).
  assert (Hothers : forall u', u' ∈ us1 ++ us2 ->
            u' ∈ users (data w) /\ User.id u' <> User.id u).
  { intros u' [H1|H2]%elem_of_app; rewrite Hus; split.
    - apply elem_of_app. by left.
    - intros Heq. apply (Hnot1 (User.id u')).
      + apply list_elem_of_fmap. by exists u'.
      + rewrite Heq. by left.
    - apply elem_of_app. right. by right.
    - intros Heq. apply Hnot2. rewrite <- Heq.
      apply list_elem_of_fmap. by exists u'. }
  rewrite exec_for_each_app, exec_for_each_cons.
  destruct (remind_others now us1 w l Hwf Htgt)
    as (new1 & Htr1 & Hr1 & Hn1 & Hrw1 & Hj1).
  { intros u' Hu'. apply Hothers, elem_of_app. by left. }
  set (w1 := exec (for_each us1 (remind_user today now mealType)) w) in *.
  assert (Hwf1 : unique_ids (data w1)) by (by eapply rewrites_unique_ids).
  assert (Htgt1 : on_target (data w1) l) by (by eapply on_target_rewrites).
  destruct (remind_target now w1 l Hwf1 Htgt1)
    as (new2 & Htr2 & Hr2 & Hn2 & Hrw2 & Hj2).
  set (w2 := exec (remind_user today now mealType u) w1) in *.
  assert (Hwf2 : unique_ids (data w2)) by (by eapply rewrites_unique_ids).
  assert (Htgt2 : on_target (data w2) (record_step now l))
    by (by eapply on_target_rewrites).
  destruct (remind_others now us2 w2 _ Hwf2 Htgt2)
    as (new3 & Htr3 & Hr3 & Hn3 & Hrw3 & Hj3).
  { intros u' Hu'. destruct (Hothers u') as [Hin Hne].
    - apply elem_of_app. by right.
    - split; [|done]. destruct Hrw2 as (-> & _), Hrw1 as (-> & _). done. }
  set (w3 := exec (for_each us2 (remind_user today now mealType)) w2) in *.
  exists (new1 ++ new2 ++ new3). rewrite Htr3, Htr2, Htr1, !app_assoc.
  unfold reminders, notices in *.
  rewrite !count_app, Hr1, Hr2, Hr3, Hn1, Hn2, Hn3.
  split; [done|]. split; [lia|]. split; [lia|]. split.
  - by eapply rewrites_unique_ids.
  - by eapply on_target_rewrites.
Qed.

(** Evaluations of the same meal type at the instants [nows], with no user
    action in between. *)
Definition evaluations (nows : list Z) : M unit :=
  for_each nows (λ now, sendReminderForMealType today now mealType).



Lemma snoozed_now_fields now l :
  Log.status (snoozed_now now l) = SNOOZED
  /\ Log.retry_count (snoozed_now now l) = Log.retry_count l + 1.
Proof.
  unfold snoozed_now. by rewrite apply_update_status, apply_update_retry_count.
Qed.

Lemma missed_now_fields now l :
  Log.status (missed_now now l) = MISSED
  /\ Log.retry_count (missed_now now l) = Log.retry_count l.
Proof.
  unfold missed_now. by rewrite apply_update_status, apply_update_retry_count.
Qed.




End RetryCeiling.

(** * Runs of the whole bot *)

(** The jobs that the two schedulers register with cron, and the steps of a
    run: a job fires or a webhook event is handled. Every step carries the
    readings of the clock that its entry point takes, each step its own:
    [now] is a [new Date()] for [JobInit], [JobReminder] and [Act], and the
    [getTaiwanTime()] of the stamp for [JobCheck]; [JobRetry] carries the
    zone of the process and the instant, from which [checkRetryNeeded]
    takes its [getTaiwanTime()]. *)
Inductive Job :=
| JobInit (today : string) (now : Z)
| JobReminder (today : string) (now : Z) (mealType : string)
| JobCheck (today currentTime : string) (now : Z)
| JobRetry (zone : Z) (today : string) (t : Z).

Inductive Step :=
| Tick (job : Job)
| Act (today : string) (now : Z) (event : WebhookEvent).

Definition run_job (job : Job) : M unit :=
  match job with
  | JobInit today now => initDailySchedule today now
  | JobReminder today now mealType => sendReminderForMealType today now mealType
  | JobCheck today currentTime now => checkAndSendReminders today currentTime now
  | JobRetry zone today t => checkRetryNeeded zone today t
  end.

Definition run_step (step : Step) : M unit :=
  match step with
  | Tick job => run_job job
  | Act today now event => handleWebhookEvent today now event;; ret tt
  end.

Definition run (steps : list Step) : M unit := for_each steps run_step.

(** ** Invariants of the store, by the operation that changes it *)

Definition add_user (u : User.t) (d : Data) : Data :=
  mkData (users d ++ [u]) (schedules d) (medicationLogs d).

Definition add_schedule (s : Schedule.t) (d : Data) : Data :=
  mkData (users d) (schedules d ++ [s]) (medicationLogs d).

Definition add_log (l : Log.t) (d : Data) : Data :=
  mkData (users d) (schedules d) (medicationLogs d ++ [l]).

(** [keeps I m]: the computation [m] keeps the property [I] of the store and
    of the number of identifiers drawn so far. *)
Definition keeps (I : Data -> nat -> Prop) {A} (m : M A) : Prop :=
  forall w, I (data w) (uuid_n w) ->
            I (data (exec m w)) (uuid_n (exec m w)).

Definition user_ok (I : Data -> nat -> Prop) : Prop :=
  forall d n u, User.id u = uuidv4 n -> I d n -> I (add_user u d) (S n).

Definition schedule_ok (I : Data -> nat -> Prop) : Prop :=
  forall d n s, Schedule.id s = uuidv4 n -> I d n -> I (add_schedule s d) (S n).

(** A new record is PENDING with no reminder and no intake, under a key
    that the store does not hold yet. *)
Definition log_ok (I : Data -> nat -> Prop) : Prop :=
  forall d n l,
    Log.id l = uuidv4 n -> Log.status l = PENDING -> Log.retry_count l = 0 ->
    Log.last_reminded_at l = None -> Log.taken_at l = None ->
    today_record d (Log.schedule_id l) (Log.date l) = None ->
    I d n -> I (add_log l d) (S n).

(** An update with arguments in the class [U] rewrites a stored record. *)
Definition update_ok (I : Data -> nat -> Prop)
    (U : Status -> AdditionalData -> Prop) : Prop :=
  forall d n i l st ad,
    medicationLogs d !! i = Some l -> U st ad -> I d n ->
    I (set_log i (apply_update st ad l) d) n.

Section Keeps.

Variable I : Data -> nat -> Prop.

Lemma keeps_ret {A} (a : A) : keeps I (ret a).
Proof. by intros w. Qed.

Lemma keeps_bind {A B} (m : M A) (k : A -> M B) :
  keeps I m -> (forall a, keeps I (k a)) -> keeps I (m ≫= k).
Proof. intros Hm Hk w Hw. rewrite exec_bind. by apply Hk, Hm. Qed.

Lemma keeps_when (b : bool) (m : M unit) :
  (b = true -> keeps I m) -> keeps I (when b m).
Proof. intros Hm. destruct b; [by apply Hm|apply keeps_ret]. Qed.

Lemma keeps_for_each {A} (xs : list A) (body : A -> M unit) :
  (forall x, keeps I (body x)) -> keeps I (for_each xs body).
Proof.
  intros Hbody w Hw.
  apply (for_each_invariant (λ w', I (data w') (uuid_n w'))); [|done].
  intros x w' _. apply Hbody.
Qed.

Lemma keeps_same {A} (m : M A) :
  (forall w, data (exec m w) = data w /\ uuid_n (exec m w) = uuid_n w) ->
  keeps I m.
Proof. intros H w Hw. by destruct (H w) as [-> ->]. Qed.

Lemma keeps_saveDatabase : keeps I saveDatabase.
Proof. by apply keeps_same. Qed.

Lemma keeps_getAllUsers : keeps I getAllUsers.
Proof. by apply keeps_same. Qed.

Lemma keeps_getUserByLineId x : keeps I (getUserByLineId x).
Proof. by apply keeps_same. Qed.

Lemma keeps_getScheduleById x : keeps I (getScheduleById x).
Proof. by apply keeps_same. Qed.

Lemma keeps_getSchedulesByUserId x : keeps I (getSchedulesByUserId x).
Proof. by apply keeps_same. Qed.

Lemma keeps_getMedicationLogByScheduleAndDate x y :
  keeps I (getMedicationLogByScheduleAndDate x y).
Proof. by apply keeps_same. Qed.

Lemma keeps_getPendingLogsForDate x : keeps I (getPendingLogsForDate x).
Proof. by apply keeps_same. Qed.

Lemma keeps_push to msg : keeps I (push to msg).
Proof. by apply keeps_same. Qed.

Lemma keeps_sendTextMessage to text : keeps I (sendTextMessage to text).
Proof. by apply keeps_same. Qed.

Lemma keeps_sendReminderMessage to info : keeps I (sendReminderMessage to info).
Proof. by apply keeps_same. Qed.

Lemma keeps_with_id {A} sid (lookup : string -> M (option A)) :
  (forall x, keeps I (lookup x)) -> keeps I (with_id sid lookup).
Proof. intros H. destruct sid; [apply H | apply keeps_ret]. Qed.

Lemma keeps_createUser now line name :
  user_ok I -> keeps I (createUser now line name).
Proof.
  intros HI w Hw. destruct w as [d tr n]. mrun.
  destruct (snd <$> list_find _ _); [done|]. cbn. by apply HI.
Qed.

Lemma keeps_createSchedule now uid mealType time meds options :
  schedule_ok I -> keeps I (createSchedule now uid mealType time meds options).
Proof. intros HI w Hw. destruct w as [d tr n]. mrun. by apply HI. Qed.

Lemma keeps_createMedicationLog now sid uid date :
  log_ok I -> keeps I (createMedicationLog now sid uid date).
Proof.
  intros HI w Hw. destruct w as [d tr n]. mrun.
  destruct (list_find _ _) as [[i l]|] eqn:Hfind; [done|]. cbn.
  by apply HI.
Qed.

Lemma keeps_updateMedicationLogStatus U logId st ad :
  update_ok I U -> U st ad -> keeps I (updateMedicationLogStatus logId st ad).
Proof.
  intros HI HU w Hw. unfold exec. rewrite updateMedicationLogStatus_run.
  unfold find_by_id.
  destruct (list_find _ _) as [[i l]|] eqn:Hfind; [|done].
  apply list_find_Some in Hfind as (Hi & _). cbn. by apply (HI _ _ _ _ _ _ Hi).
Qed.

End Keeps.

Ltac keeps_step :=
  lazymatch goal with
  | |- keeps _ (ret _) => apply keeps_ret
  | |- keeps _ (mbind _ _) => apply keeps_bind; [|intros ?]
  | |- keeps _ (when _ _) => apply keeps_when; intros ?
  | |- keeps _ (with_id _ _) => apply keeps_with_id; intros ?
  | |- keeps _ (for_each _ _) => apply keeps_for_each; intros ?
  | |- keeps _ saveDatabase => apply keeps_saveDatabase
  | |- keeps _ getAllUsers => apply keeps_getAllUsers
  | |- keeps _ (getUserByLineId _) => apply keeps_getUserByLineId
  | |- keeps _ (getScheduleById _) => apply keeps_getScheduleById
  | |- keeps _ (getSchedulesByUserId _) => apply keeps_getSchedulesByUserId
  | |- keeps _ (getMedicationLogByScheduleAndDate _ _) =>
      apply keeps_getMedicationLogByScheduleAndDate
  | |- keeps _ (getPendingLogsForDate _) => apply keeps_getPendingLogsForDate
  | |- keeps _ (push _ _) => apply keeps_push
  | |- keeps _ (sendTextMessage _ _) => apply keeps_sendTextMessage
  | |- keeps _ (sendReminderMessage _ _) => apply keeps_sendReminderMessage
  | |- keeps _ (createUser _ _ _) => apply keeps_createUser; assumption
  | |- keeps _ (createSchedule _ _ _ _ _ _) =>
      apply keeps_createSchedule; assumption
  | |- keeps _ (createMedicationLog _ _ _ _) =>
      apply keeps_createMedicationLog; assumption
  | |- keeps _ (match ?x with _ => _ end) => destruct x eqn:?
  end.

(** The three kinds of update that the code issues. *)
Definition scheduler_update (st : Status) (ad : AdditionalData) : Prop :=
  st <> TAKEN /\ takenAt ad = None.

Definition snooze_update (reported now : Z) (st : Status) (ad : AdditionalData)
    : Prop :=
  (st = SNOOZED \/ st = MISSED)
  /\ ad = mkAdditional None (Some (reported + 1)) (Some now).

Definition taken_update (reported now : Z) (st : Status) (ad : AdditionalData)
    : Prop :=
  st = TAKEN /\ ad = mkAdditional (Some now) (Some reported) None.

Section KeepsOperations.

Variable I : Data -> nat -> Prop.
Variable U : Status -> AdditionalData -> Prop.
Hypothesis I_update : update_ok I U.

Ltac keeps_update :=
  lazymatch goal with
  | |- keeps _ (updateMedicationLogStatus _ _ _) =>
      apply (keeps_updateMedicationLogStatus I U); [exact I_update|]
  end.

Ltac keeps_steps := repeat first [keeps_step | keeps_update].

Lemma keeps_setupDefaultSchedules today now userId :
  schedule_ok I -> log_ok I -> keeps I (setupDefaultSchedules today now userId).
Proof. intros Hs Hl. unfold setupDefaultSchedules. keeps_steps. Qed.

Lemma keeps_ensure_user today now userId :
  user_ok I -> schedule_ok I -> log_ok I ->
  keeps I (ensure_user today now userId).
Proof.
  intros Hu Hs Hl. unfold ensure_user. keeps_steps.
  by apply keeps_setupDefaultSchedules.
Qed.

Lemma keeps_handle_taken today now userId scheduleId reported :
  (forall st ad, taken_update reported now st ad -> U st ad) ->
  keeps I (handle_taken today now userId scheduleId reported).
Proof. intros HU. unfold handle_taken. keeps_steps. by apply HU. Qed.

Lemma keeps_handle_snooze today now userId scheduleId reported :
  (forall st ad, snooze_update reported now st ad -> U st ad) ->
  keeps I (handle_snooze today now userId scheduleId reported).
Proof.
  intros HU. unfold handle_snooze. cbv zeta. keeps_steps; apply HU; split; auto.
Qed.

Lemma keeps_status_rows today schedules : keeps I (status_rows today schedules).
Proof.
  induction schedules as [|s rest IH]; simpl; [apply keeps_ret|].
  unfold status_row. keeps_steps. exact IH.
Qed.

Lemma keeps_handle_text today now userId user messageText :
  schedule_ok I -> log_ok I ->
  keeps I (handle_text today now userId user messageText).
Proof.
  intros Hs Hl. unfold handle_text. keeps_steps;
    first [by apply keeps_setupDefaultSchedules | apply keeps_status_rows].
Qed.

(** What a webhook event may write: nothing for a text, the acknowledge or
    the snooze update for a postback. *)
Definition event_update (now : Z) (event : WebhookEvent) (st : Status)
    (ad : AdditionalData) : Prop :=
  match event with
  | Postback _ action _ reported =>
      (action = Some "taken" /\ taken_update reported now st ad)
      \/ (action = Some "snooze" /\ snooze_update reported now st ad)
  | _ => False
  end.

Lemma keeps_handleWebhookEvent today now event :
  user_ok I -> schedule_ok I -> log_ok I ->
  (forall st ad, event_update now event st ad -> U st ad) ->
  keeps I (handleWebhookEvent today now event).
Proof.
  intros Hu Hs Hl HU. unfold handleWebhookEvent.
  destruct event as [userId action scheduleId reported|userId text|].
  - apply keeps_bind; [by apply keeps_ensure_user|intros user].
    apply keeps_bind; [|intros ?; apply keeps_bind; [|intros ?; apply keeps_ret]].
    + case_bool_decide; [|apply keeps_ret]. apply keeps_handle_taken.
      intros st ad Hup. apply HU. by left.
    + case_bool_decide; [|apply keeps_ret]. apply keeps_handle_snooze.
      intros st ad Hup. apply HU. by right.
  - apply keeps_bind; [by apply keeps_ensure_user|intros user].
    apply keeps_bind; [by apply keeps_handle_text|intros ?; apply keeps_ret].
  - apply keeps_ret.
Qed.

Lemma keeps_initDailySchedule today now :
  log_ok I -> keeps I (initDailySchedule today now).
Proof.
  intros Hl. unfold initDailySchedule, init_user, init_schedule. keeps_steps.
Qed.

Hypothesis U_scheduler : forall st ad, scheduler_update st ad -> U st ad.

Lemma keeps_sendReminderForMealType today now mealType :
  keeps I (sendReminderForMealType today now mealType).
Proof.
  unfold sendReminderForMealType, remind_user. cbv zeta.
  keeps_steps; try (by apply U_scheduler);
    repeat case_bool_decide; keeps_steps; by apply U_scheduler.
Qed.

Lemma keeps_checkAndSendReminders today currentTime now :
  keeps I (checkAndSendReminders today currentTime now).
Proof.
  unfold checkAndSendReminders, check_user, check_schedule.
  keeps_steps; repeat case_bool_decide; keeps_steps;
    apply U_scheduler; split; try done;
    match goal with H : is_open ?s = true |- _ => by destruct s end.
Qed.

Lemma keeps_checkRetryNeeded zone today t :
  keeps I (checkRetryNeeded zone today t).
Proof.
  unfold checkRetryNeeded, retry_log. cbv zeta.
  keeps_steps; by apply U_scheduler.
Qed.

Lemma keeps_run_job job : log_ok I -> keeps I (run_job job).
Proof.
  intros Hl. destruct job; simpl.
  - by apply keeps_initDailySchedule.
  - apply keeps_sendReminderForMealType.
  - apply keeps_checkAndSendReminders.
  - apply keeps_checkRetryNeeded.
Qed.

End KeepsOperations.

(** * The two user actions, exactly *)

(** The record after an acknowledge and after a snooze that carry the retry
    count [reported], at the instant [now]. *)
Definition taken_now (reported now : Z) (l : Log.t) : Log.t :=
  apply_update TAKEN (mkAdditional (Some now) (Some reported) None) l.

Definition snooze_now (reported now : Z) (l : Log.t) : Log.t :=
  let l1 := apply_update SNOOZED
              (mkAdditional None (Some (reported + 1)) (Some now)) l in
  if bool_decide (reported + 1 < 3) then l1
  else apply_update MISSED
         (mkAdditional None (Some (reported + 1)) (Some now)) l1.

Lemma set_log_ids d j l l' :
  medicationLogs d !! j = Some l -> Log.id l' = Log.id l ->
  Log.id <$> medicationLogs (set_log j l' d) = Log.id <$> medicationLogs d.
Proof.
  intros Hj Hid. cbn. rewrite list_fmap_insert, Hid.
  apply list_insert_id. by rewrite list_lookup_fmap, Hj.
Qed.

Lemma set_log_unique d j l l' :
  unique_log_ids d -> medicationLogs d !! j = Some l -> Log.id l' = Log.id l ->
  unique_log_ids (set_log j l' d).
Proof.
  intros Hnd Hj Hid. unfold unique_log_ids.
  by rewrite (set_log_ids d j l l').
Qed.

Lemma set_log_twice d j l l' :
  set_log j l' (set_log j l d) = set_log j l' d.
Proof. unfold set_log. cbn. by rewrite list_insert_insert_eq. Qed.

Lemma apply_update_id st ad l : Log.id (apply_update st ad l) = Log.id l.
Proof. by destruct (apply_update_same_key st ad l) as [? _]. Qed.

Lemma handle_taken_exact today now userId sid reported w j l :
  unique_log_ids (data w) ->
  today_record (data w) sid today = Some (j, l) ->
  data (exec (handle_taken today now userId (Some sid) reported) w)
  = set_log j (taken_now reported now l) (data w)
  /\ uuid_n (exec (handle_taken today now userId (Some sid) reported) w)
     = uuid_n w.
Proof.
  intros Hnd Hl. pose proof (today_record_lookup _ _ _ _ _ Hl) as (Hj & _).
  unfold today_record in Hl.
  change (wp (handle_taken today now userId (Some sid) reported) w
            (λ _ w', data w' = set_log j (taken_now reported now l) (data w)
                     /\ uuid_n w' = uuid_n w)).
  unfold handle_taken, with_id. wp_steps. rewrite Hl. cbn [fmap option_fmap option_map snd].
  wp_steps. apply wp_updateMedicationLogStatus. intros r tr.
  rewrite (update_data_unique _ j l) by done. wp_steps.
  destruct (snd <$> list_find _ _) as [sch|]; [case_bool_decide|];
    wp_steps; done.
Qed.

Lemma handle_taken_no_record today now userId scheduleId reported w :
  (forall sid, scheduleId = Some sid -> today_record (data w) sid today = None) ->
  exec (handle_taken today now userId scheduleId reported) w = w.
Proof.
  intros Hnone. unfold handle_taken, with_id.
  destruct scheduleId as [sid|]; rewrite exec_bind.
  - change (eval (getMedicationLogByScheduleAndDate sid today) w)
      with (snd <$> list_find (log_matches sid today) (logs_of w)).
    specialize (Hnone sid eq_refl). unfold today_record in Hnone.
    by rewrite Hnone.
  - done.
Qed.

Lemma handle_snooze_exact today now userId sid reported w j l :
  unique_log_ids (data w) ->
  today_record (data w) sid today = Some (j, l) ->
  data (exec (handle_snooze today now userId (Some sid) reported) w)
  = set_log j (snooze_now reported now l) (data w)
  /\ uuid_n (exec (handle_snooze today now userId (Some sid) reported) w)
     = uuid_n w.
Proof.
  intros Hnd Hl. pose proof (today_record_lookup _ _ _ _ _ Hl) as (Hj & _).
  unfold today_record in Hl.
  change (wp (handle_snooze today now userId (Some sid) reported) w
            (λ _ w', data w' = set_log j (snooze_now reported now l) (data w)
                     /\ uuid_n w' = uuid_n w)).
  unfold handle_snooze, with_id, snooze_now. cbv zeta. wp_steps.
  rewrite Hl. cbn [fmap option_fmap option_map snd].
  wp_steps. apply wp_updateMedicationLogStatus. intros r tr.
  rewrite (update_data_unique _ j l) by done.
  case_bool_decide; wp_steps; [done|].
  apply wp_updateMedicationLogStatus. intros r' tr'. cbn [data].
  set (l1 := apply_update SNOOZED _ l).
  assert (Hid : Log.id l = Log.id l1) by (symmetry; apply apply_update_id).
  rewrite Hid, (update_data_unique _ j l1).
  - wp_steps. by rewrite set_log_twice.
  - by apply (set_log_unique _ _ l).
  - cbn. apply list_lookup_insert_eq. by eapply lookup_lt_Some.
Qed.

Lemma handle_snooze_no_record today now userId scheduleId reported w :
  (forall sid, scheduleId = Some sid -> today_record (data w) sid today = None) ->
  exec (handle_snooze today now userId scheduleId reported) w = w.
Proof.
  intros Hnone. unfold handle_snooze, with_id.
  destruct scheduleId as [sid|]; rewrite !exec_bind.
  - change (eval (getMedicationLogByScheduleAndDate sid today) w)
      with (snd <$> list_find (log_matches sid today) (logs_of w)).
    specialize (Hnone sid eq_refl). unfold today_record in Hnone.
    by rewrite Hnone.
  - done.
Qed.

(** A postback is handled on the store that [ensure_user] leaves. *)
Lemma exec_postback today now userId action scheduleId reported w :
  exec (handleWebhookEvent today now
          (Postback userId action scheduleId reported)) w
  = exec (when (bool_decide (action = Some "snooze"))
            (handle_snooze today now userId scheduleId reported))
      (exec (when (bool_decide (action = Some "taken"))
               (handle_taken today now userId scheduleId reported))
         (exec (ensure_user today now userId) w)).
Proof.
  unfold handleWebhookEvent. by rewrite !exec_bind.
Qed.

Lemma postback_taken today now userId sid reported w j l :
  unique_log_ids (data (exec (ensure_user today now userId) w)) ->
  today_record (data (exec (ensure_user today now userId) w)) sid today
  = Some (j, l) ->
  data (exec (handleWebhookEvent today now
                (Postback userId (Some "taken") (Some sid) reported)) w)
  = set_log j (taken_now reported now l)
            (data (exec (ensure_user today now userId) w)).
Proof.
  intros Hnd Hl. rewrite exec_postback.
  rewrite (bool_decide_eq_true_2 (Some "taken" = Some "taken")) by done.
  rewrite (bool_decide_eq_false_2 (Some "taken" = Some "snooze")) by done.
  unfold when.
  by destruct (handle_taken_exact today now userId sid reported _ j l Hnd Hl).
Qed.

Lemma postback_snooze today now userId sid reported w j l :
  unique_log_ids (data (exec (ensure_user today now userId) w)) ->
  today_record (data (exec (ensure_user today now userId) w)) sid today
  = Some (j, l) ->
  data (exec (handleWebhookEvent today now
                (Postback userId (Some "snooze") (Some sid) reported)) w)
  = set_log j (snooze_now reported now l)
            (data (exec (ensure_user today now userId) w)).
Proof.
  intros Hnd Hl. rewrite exec_postback.
  rewrite (bool_decide_eq_false_2 (Some "snooze" = Some "taken")) by done.
  rewrite (bool_decide_eq_true_2 (Some "snooze" = Some "snooze")) by done.
  unfold when.
  by destruct (handle_snooze_exact today now userId sid reported _ j l Hnd Hl).
Qed.

(** * Records over a run *)

(** [evolved P d0 d]: every record of [d0] is still at its place in [d],
    related to what it was by [P]. *)
Definition evolved (P : Log.t -> Log.t -> Prop) (d0 d : Data) : Prop :=
  forall i l0, medicationLogs d0 !! i = Some l0 ->
               exists l, medicationLogs d !! i = Some l /\ P l0 l.

Lemma evolved_refl (P : Log.t -> Log.t -> Prop) d :
  (forall l, P l l) -> evolved P d d.
Proof. intros HP i l Hi. by exists l. Qed.

Lemma evolved_trans (P : Log.t -> Log.t -> Prop) d1 d2 d3 :
  (forall l1 l2 l3, P l1 l2 -> P l2 l3 -> P l1 l3) ->
  evolved P d1 d2 -> evolved P d2 d3 -> evolved P d1 d3.
Proof.
  intros HP H12 H23 i l1 Hi.
  destruct (H12 i l1 Hi) as (l2 & Hi2 & HP12).
  destruct (H23 i l2 Hi2) as (l3 & Hi3 & HP23).
  exists l3. split; [done|]. by eapply HP.
Qed.

Lemma evolved_impl (P Q : Log.t -> Log.t -> Prop) d d' :
  (forall l l', P l l' -> Q l l') -> evolved P d d' -> evolved Q d d'.
Proof.
  intros HPQ H i l Hi. destruct (H i l Hi) as (l' & ? & ?).
  exists l'. split; [done|]. by apply HPQ.
Qed.

Lemma rewrites_evolved P d d' :
  rewrites P d d' -> evolved (λ l l', same_key l l' /\ P l l') d d'.
Proof.
  intros (_ & _ & Hall) i l Hi.
  destruct (Forall2_lookup_l _ _ _ _ _ Hall Hi) as (l' & ? & ?). by exists l'.
Qed.

Lemma evolved_set_log (P : Log.t -> Log.t -> Prop) d j l l' :
  (forall x, P x x) -> medicationLogs d !! j = Some l -> P l l' ->
  evolved P d (set_log j l' d).
Proof.
  intros Hrefl Hj HP i x Hi. cbn. destruct (decide (i = j)) as [->|Hne].
  - exists l'. split; [|congruence].
    apply list_lookup_insert_eq. by eapply lookup_lt_Some.
  - exists x. split; [|done]. by rewrite list_lookup_insert_ne.
Qed.

Section Evolved.

Variable P : Log.t -> Log.t -> Prop.
Variable d0 : Data.

Definition evolved_from : Data -> nat -> Prop := λ d _, evolved P d0 d.

Lemma evolved_user_ok : user_ok evolved_from.
Proof. by intros d n u _ H. Qed.

Lemma evolved_schedule_ok : schedule_ok evolved_from.
Proof. by intros d n s _ H. Qed.

Lemma evolved_log_ok : log_ok evolved_from.
Proof.
  intros d n l _ _ _ _ _ _ H i l0 Hi. destruct (H i l0 Hi) as (x & Hx & HP).
  exists x. split; [|done]. cbn. by apply lookup_app_l_Some.
Qed.

Lemma evolved_update_ok (U : Status -> AdditionalData -> Prop) :
  (forall l0 l st ad, U st ad -> P l0 l -> P l0 (apply_update st ad l)) ->
  update_ok evolved_from U.
Proof.
  intros HU d n j l st ad Hj Hst H i l0 Hi.
  destruct (H i l0 Hi) as (x & Hx & HP). cbn.
  destruct (decide (i = j)) as [->|Hne].
  - exists (apply_update st ad l). split.
    + apply list_lookup_insert_eq. by eapply lookup_lt_Some.
    + apply HU; [done|]. congruence.
  - exists x. split; [|done]. by rewrite list_lookup_insert_ne.
Qed.

End Evolved.

(** [initDailySchedule] only appends. *)
Lemma initDailySchedule_appends today now w :
  evolved eq (data w) (data (exec (initDailySchedule today now) w)).
Proof.
  apply (keeps_initDailySchedule (evolved_from eq (data w))).
  - apply evolved_log_ok.
  - by apply evolved_refl.
Qed.

(** Every job of the schedulers moves each record along [scheduler_step]. *)
Lemma run_job_scheduler_step job w :
  unique_log_ids (data w) ->
  evolved (λ l l', same_key l l' /\ scheduler_step l l')
          (data w) (data (exec (run_job job) w)).
Proof.
  intros Hnd.
  destruct job as [today now|today now m|today ct now|zone today t];
    cbn [run_job].
  - eapply evolved_impl; [|apply initDailySchedule_appends].
    intros l l' <-. split; [apply same_key_refl|apply scheduler_step_refl].
  - by apply rewrites_evolved, sendReminderForMealType_rewrites.
  - by apply rewrites_evolved, checkAndSendReminders_rewrites.
  - by apply rewrites_evolved, checkRetryNeeded_rewrites.
Qed.

Lemma scheduler_step_terminal l l' :
  terminal (Log.status l) -> scheduler_step l l' -> l' = l.
Proof.
  intros Hterm [->|(Hopen & _)]; [done|].
  by destruct Hterm as [Hs|Hs]; rewrite Hs in Hopen.
Qed.

Lemma taken_now_fields reported now l :
  Log.status (taken_now reported now l) = TAKEN
  /\ Log.taken_at (taken_now reported now l) = Some now
  /\ Log.retry_count (taken_now reported now l) = reported
  /\ Log.last_reminded_at (taken_now reported now l) = Log.last_reminded_at l.
Proof. by destruct l. Qed.

Lemma snooze_now_fields reported now l :
  Log.status (snooze_now reported now l)
  = (if bool_decide (reported + 1 < 3) then SNOOZED else MISSED)
  /\ Log.retry_count (snooze_now reported now l) = reported + 1
  /\ Log.last_reminded_at (snooze_now reported now l) = Some now
  /\ Log.taken_at (snooze_now reported now l) = Log.taken_at l.
Proof. unfold snooze_now. cbv zeta. case_bool_decide; by destruct l. Qed.

Lemma taken_now_same_key reported now l : same_key l (taken_now reported now l).
Proof. apply apply_update_same_key. Qed.

Lemma snooze_now_same_key reported now l : same_key l (snooze_now reported now l).
Proof.
  unfold snooze_now. cbv zeta. case_bool_decide.
  - apply apply_update_same_key.
  - eapply same_key_trans; apply apply_update_same_key.
Qed.

(** * Terminal records (C1) *)

(** C1, as the code has it. No job of either scheduler changes a record that
    is TAKEN or MISSED (record identifiers being unique): the record stays as
    it is, field by field. The two user actions do not test the status: on
    the record of today for the schedule of the event, whatever its status,
    an acknowledge writes TAKEN with [taken_at] the instant of the action and
    [retry_count] the count of the event, and a snooze writes SNOOZED, or
    MISSED when the count of the event plus one reaches three, with that
    count plus one as [retry_count]; so an acknowledge repeated on a TAKEN
    record keeps it TAKEN and rewrites its [taken_at] and [retry_count]. *)
Theorem terminal_kept_by_schedulers_rewritten_by_actions :
  (forall (job : Job) (w : World) (i : nat) (l : Log.t),
      unique_log_ids (data w) ->
      logs_of w !! i = Some l ->
      terminal (Log.status l) ->
      logs_of (exec (run_job job) w) !! i = Some l)
  /\ (forall (today : string) (now : Z) (userId sid : string) (reported : Z)
             (w : World) (j : nat) (l : Log.t),
        unique_log_ids (data (exec (ensure_user today now userId) w)) ->
        today_record (data (exec (ensure_user today now userId) w)) sid today
        = Some (j, l) ->
        (logs_of (exec (handleWebhookEvent today now
                          (Postback userId (Some "taken") (Some sid) reported)) w)
           !! j = Some (taken_now reported now l)
         /\ Log.status (taken_now reported now l) = TAKEN
         /\ Log.taken_at (taken_now reported now l) = Some now
         /\ Log.retry_count (taken_now reported now l) = reported)
        /\ (logs_of (exec (handleWebhookEvent today now
                             (Postback userId (Some "snooze") (Some sid) reported)) w)
              !! j = Some (snooze_now reported now l)
            /\ Log.status (snooze_now reported now l)
               = (if bool_decide (reported + 1 < 3) then SNOOZED else MISSED)
            /\ Log.retry_count (snooze_now reported now l) = reported + 1
            /\ Log.taken_at (snooze_now reported now l) = Log.taken_at l)).
Proof.
  split.
  - intros job w i l Hnd Hi Hterm.
    destruct (run_job_scheduler_step job w Hnd i l Hi) as (l' & Hi' & _ & Hstep).
    by rewrite (scheduler_step_terminal l l' Hterm Hstep) in Hi'.
  - intros today now userId sid reported w j l Hnd Hl.
    pose proof (today_record_lookup _ _ _ _ _ Hl) as (Hj & _).
    destruct (taken_now_fields reported now l) as (? & ? & ? & _).
    destruct (snooze_now_fields reported now l) as (? & ? & _ & ?).
    rewrite (postback_taken _ _ _ _ _ _ j l Hnd Hl).
    rewrite (postback_snooze _ _ _ _ _ _ j l Hnd Hl). cbn.
    rewrite !list_lookup_insert_eq by (by eapply lookup_lt_Some).
    done.
Qed.

(** * What an action writes (C4) *)

(** C4, as the code has it. The handler looks the record of today up in the
    store by the schedule identifier of the event, and writes the retry
    counter from the event: the reported count on an acknowledge, the
    reported count plus one on a snooze, which also decides between SNOOZED
    and MISSED. The stored counter is not read: whatever it was, the record
    written is the same. *)
Theorem action_writes_the_reported_count (today : string) (now : Z)
    (userId sid : string) (reported : Z) (w : World) (j : nat) (l : Log.t) :
  unique_log_ids (data (exec (ensure_user today now userId) w)) ->
  today_record (data (exec (ensure_user today now userId) w)) sid today
  = Some (j, l) ->
  data (exec (handleWebhookEvent today now
                (Postback userId (Some "taken") (Some sid) reported)) w)
  = set_log j (taken_now reported now l)
            (data (exec (ensure_user today now userId) w))
  /\ data (exec (handleWebhookEvent today now
                   (Postback userId (Some "snooze") (Some sid) reported)) w)
     = set_log j (snooze_now reported now l)
               (data (exec (ensure_user today now userId) w))
  /\ Log.retry_count (taken_now reported now l) = reported
  /\ Log.retry_count (snooze_now reported now l) = reported + 1
  /\ Log.status (snooze_now reported now l)
     = (if bool_decide (reported + 1 < 3) then SNOOZED else MISSED)
  /\ (forall stored : Z,
        taken_now reported now (Log.set_retry_count stored l)
        = taken_now reported now l
        /\ snooze_now reported now (Log.set_retry_count stored l)
           = snooze_now reported now l).
Proof.
  intros Hnd Hl.
  destruct (taken_now_fields reported now l) as (_ & _ & ? & _).
  destruct (snooze_now_fields reported now l) as (? & ? & _ & _).
  split; [by apply postback_taken|]. split; [by apply postback_snooze|].
  split; [done|]. split; [done|]. split; [done|].
  intros stored. unfold snooze_now. cbv zeta. by case_bool_decide.
Qed.

Lemma when_taken_no_record today now userId scheduleId reported w (b : bool) :
  (forall sid, scheduleId = Some sid -> today_record (data w) sid today = None) ->
  exec (when b (handle_taken today now userId scheduleId reported)) w = w.
Proof.
  intros Hnone. destruct b; unfold when; [|done].
  by apply handle_taken_no_record.
Qed.

Lemma when_snooze_no_record today now userId scheduleId reported w (b : bool) :
  (forall sid, scheduleId = Some sid -> today_record (data w) sid today = None) ->
  exec (when b (handle_snooze today now userId scheduleId reported)) w = w.
Proof.
  intros Hnone. destruct b; unfold when; [|done].
  by apply handle_snooze_no_record.
Qed.

(** * The retry counter over a run *)

(** Record identifiers are unique and the identifiers still to be drawn are
    not in the store. *)
Definition fresh_ids (d : Data) (n : nat) : Prop :=
  unique_log_ids d
  /\ forall k, (n <= k)%nat -> uuidv4 k ∉ Log.id <$> medicationLogs d.

Section FreshIds.

Hypothesis uuidv4_inj : forall m n, uuidv4 m = uuidv4 n -> m = n.

Lemma fresh_ids_user_ok : user_ok fresh_ids.
Proof.
  intros d n u _ [Hnd Hfresh]. split; [done|].
  intros k Hk. apply Hfresh. lia.
Qed.

Lemma fresh_ids_schedule_ok : schedule_ok fresh_ids.
Proof.
  intros d n s _ [Hnd Hfresh]. split; [done|].
  intros k Hk. apply Hfresh. lia.
Qed.

Lemma fresh_ids_log_ok : log_ok fresh_ids.
Proof.
  intros d n l Hid _ _ _ _ _ [Hnd Hfresh]. unfold fresh_ids, unique_log_ids.
  cbn. rewrite fmap_app. cbn. split.
  - apply NoDup_app. split; [done|]. split; [|apply NoDup_singleton].
    intros x Hx [->|[]%elem_of_nil]%elem_of_cons.
    rewrite Hid in Hx. by apply (Hfresh n).
  - intros k Hk [Hin|[Heq|[]%elem_of_nil]%elem_of_cons]%elem_of_app.
    + apply (Hfresh k); [lia|done].
    + rewrite Hid in Heq. apply uuidv4_inj in Heq. lia.
Qed.

Lemma fresh_ids_update_ok : update_ok fresh_ids (λ _ _, True).
Proof.
  intros d n i l st ad Hi _ [Hnd Hfresh]. unfold fresh_ids, unique_log_ids.
  rewrite (set_log_ids d i l) by (done || apply apply_update_id). done.
Qed.

Lemma fresh_ids_run_step step w :
  fresh_ids (data w) (uuid_n w) ->
  fresh_ids (data (exec (run_step step) w)) (uuid_n (exec (run_step step) w)).
Proof.
  destruct step as [job|today now event]; cbn [run_step].
  - apply (keeps_run_job fresh_ids (λ _ _, True)); try done.
    + apply fresh_ids_update_ok.
    + apply fresh_ids_log_ok.
  - apply keeps_bind; [|intros ?; apply keeps_ret].
    apply (keeps_handleWebhookEvent fresh_ids (λ _ _, True)); try done.
    + apply fresh_ids_update_ok.
    + apply fresh_ids_user_ok.
    + apply fresh_ids_schedule_ok.
    + apply fresh_ids_log_ok.
Qed.

End FreshIds.

(** [ensure_user] only appends. *)
Lemma ensure_user_appends today now userId w :
  evolved eq (data w) (data (exec (ensure_user today now userId) w)).
Proof.
  apply (keeps_ensure_user (evolved_from eq (data w))).
  - apply evolved_user_ok.
  - apply evolved_schedule_ok.
  - apply evolved_log_ok.
  - by apply evolved_refl.
Qed.

(** A text message or an event of another kind writes no record. *)
Lemma text_event_appends today now event w :
  (forall userId action sid reported,
      event <> Postback userId action sid reported) ->
  evolved eq (data w) (data (exec (handleWebhookEvent today now event) w)).
Proof.
  intros Hev.
  apply (keeps_handleWebhookEvent (evolved_from eq (data w)) (λ _ _, False)).
  - by apply evolved_update_ok.
  - apply evolved_user_ok.
  - apply evolved_schedule_ok.
  - apply evolved_log_ok.
  - intros st ad. destruct event; try done. by edestruct Hev.
  - by apply evolved_refl.
Qed.

(** The same record with a retry counter that is not smaller. *)
Definition not_decreased (l l' : Log.t) : Prop :=
  same_key l l' /\ Log.retry_count l <= Log.retry_count l'.

Lemma not_decreased_refl l : not_decreased l l.
Proof. split; [apply same_key_refl|lia]. Qed.

Lemma not_decreased_trans l1 l2 l3 :
  not_decreased l1 l2 -> not_decreased l2 l3 -> not_decreased l1 l3.
Proof.
  intros [? ?] [? ?]. split; [by eapply same_key_trans|lia].
Qed.

(** An action has a count that the store can take without going down: at
    least the stored count for an acknowledge, at least the stored count
    minus one for a snooze. *)
Definition count_not_behind (step : Step) (w : World) : Prop :=
  match step with
  | Act today now (Postback userId action (Some sid) reported) =>
      forall j l,
        today_record (data (exec (ensure_user today now userId) w)) sid today
        = Some (j, l) ->
        (action = Some "taken" -> Log.retry_count l <= reported)
        /\ (action = Some "snooze" -> Log.retry_count l <= reported + 1)
  | _ => True
  end.

Fixpoint counts_not_behind (steps : list Step) (w : World) : Prop :=
  match steps with
  | [] => True
  | step :: rest =>
      count_not_behind step w /\ counts_not_behind rest (exec (run_step step) w)
  end.

Lemma postback_not_decreased today now userId action scheduleId reported w :
  unique_log_ids (data (exec (ensure_user today now userId) w)) ->
  count_not_behind (Act today now (Postback userId action scheduleId reported)) w ->
  evolved not_decreased (data w)
    (data (exec (handleWebhookEvent today now
                   (Postback userId action scheduleId reported)) w)).
Proof.
  intros Hnd Hcount.
  eapply (evolved_trans _ _ (data (exec (ensure_user today now userId) w)));
    [apply not_decreased_trans| |].
  { eapply evolved_impl; [|apply ensure_user_appends].
    intros l l' <-. apply not_decreased_refl. }
  rewrite exec_postback.
  set (w1 := exec (ensure_user today now userId) w) in *.
  assert (Hrefl : evolved not_decreased (data w1) (data w1))
    by (apply evolved_refl, not_decreased_refl).
  destruct scheduleId as [sid|].
  2: { rewrite when_taken_no_record by done.
       by rewrite when_snooze_no_record. }
  cbn [count_not_behind] in Hcount.
  destruct (today_record (data w1) sid today) as [[j l]|] eqn:Hl.
  2: { rewrite when_taken_no_record by (by intros ? [= <-]).
       by rewrite when_snooze_no_record by (by intros ? [= <-]). }
  destruct (Hcount j l Hl) as [Htaken Hsnooze].
  pose proof (today_record_lookup _ _ _ _ _ Hl) as (Hj & _).
  destruct (decide (action = Some "taken")) as [->|Hnt].
  - rewrite (bool_decide_eq_true_2 (Some "taken" = Some "taken")) by done.
    rewrite (bool_decide_eq_false_2 (Some "taken" = Some "snooze")) by done.
    unfold when. rewrite exec_ret.
    destruct (handle_taken_exact today now userId sid reported w1 j l Hnd Hl)
      as [-> _].
    apply (evolved_set_log _ _ j l); [apply not_decreased_refl|done|].
    split; [apply taken_now_same_key|].
    destruct (taken_now_fields reported now l) as (_ & _ & -> & _). auto.
  - rewrite (bool_decide_eq_false_2 (action = Some "taken")) by done.
    case_bool_decide as Hs; unfold when; rewrite !exec_ret; [|done].
    destruct (handle_snooze_exact today now userId sid reported w1 j l Hnd Hl)
      as [-> _].
    apply (evolved_set_log _ _ j l); [apply not_decreased_refl|done|].
    split; [apply snooze_now_same_key|].
    destruct (snooze_now_fields reported now l) as (_ & -> & _). auto.
Qed.

Lemma exec_run_step_act today now event w :
  exec (run_step (Act today now event)) w
  = exec (handleWebhookEvent today now event) w.
Proof. cbn [run_step]. by rewrite exec_bind. Qed.

Lemma scheduler_step_not_decreased l l' :
  same_key l l' /\ scheduler_step l l' -> not_decreased l l'.
Proof.
  intros [Hk [->|(_ & Hle & _)]]; [apply not_decreased_refl|by split].
Qed.

Lemma run_step_not_decreased step w :
  (forall m n, uuidv4 m = uuidv4 n -> m = n) ->
  fresh_ids (data w) (uuid_n w) ->
  count_not_behind step w ->
  evolved not_decreased (data w) (data (exec (run_step step) w)).
Proof.
  intros Hinj Hfresh Hcount. destruct step as [job|today now event].
  - cbn [run_step]. eapply evolved_impl; [apply scheduler_step_not_decreased|].
    apply run_job_scheduler_step. by destruct Hfresh.
  - rewrite exec_run_step_act.
    destruct event as [userId action scheduleId reported|userId text|].
    + apply postback_not_decreased; [|done].
      assert (Hfresh1 : fresh_ids (data (exec (ensure_user today now userId) w))
                          (uuid_n (exec (ensure_user today now userId) w))).
      { apply (keeps_ensure_user fresh_ids); try done.
        - apply fresh_ids_user_ok.
        - apply fresh_ids_schedule_ok.
        - by apply fresh_ids_log_ok. }
      by destruct Hfresh1.
    + eapply evolved_impl; [|by apply text_event_appends].
      intros l l' <-. apply not_decreased_refl.
    + eapply evolved_impl; [|by apply text_event_appends].
      intros l l' <-. apply not_decreased_refl.
Qed.

(** Over every run of scheduler jobs and webhook events in which each
    acknowledge carries a count that is at least the stored one and each
    snooze a count that is at least the stored one minus one, the retry
    counter of every record never decreases (record identifiers being
    unique, as [uuidv4] makes them). The handler writes the count of the
    event, so an action with a smaller count does lower the stored
    counter. *)
Lemma retry_count_not_decreased_by_run :
  (forall m n, uuidv4 m = uuidv4 n -> m = n) ->
  forall (steps : list Step) (w : World),
    fresh_ids (data w) (uuid_n w) ->
    counts_not_behind steps w ->
    forall (i : nat) (l : Log.t),
      logs_of w !! i = Some l ->
      exists l' : Log.t,
        logs_of (exec (run steps) w) !! i = Some l'
        /\ same_key l l'
        /\ Log.retry_count l <= Log.retry_count l'.
Proof.
  intros Hinj steps.
  assert (Hrun : forall w, fresh_ids (data w) (uuid_n w) ->
            counts_not_behind steps w ->
            evolved not_decreased (data w) (data (exec (run steps) w))).
  { induction steps as [|step steps IH]; intros w Hfresh Hcounts.
    - apply evolved_refl, not_decreased_refl.
    - destruct Hcounts as [Hcount Hcounts]. unfold run.
      rewrite exec_for_each_cons.
      eapply evolved_trans; [apply not_decreased_trans| |].
      + by apply run_step_not_decreased.
      + apply IH; [|done]. by apply fresh_ids_run_step. }
  intros w Hfresh Hcounts i l Hi.
  destruct (Hrun w Hfresh Hcounts i l Hi) as (l' & Hi' & Hk & Hle).
  by exists l'.
Qed.

(** * When [taken_at] is set (C8) *)

Definition taken_has_time (d : Data) : Prop :=
  Forall (λ l, Log.status l = TAKEN -> is_Some (Log.taken_at l))
         (medicationLogs d).

(** A step that is the acknowledge of a dose. *)
Definition is_acknowledge (step : Step) : Prop :=
  match step with
  | Act _ _ (Postback _ action _ _) => action = Some "taken"
  | _ => False
  end.

Lemma taken_has_time_run_step step w :
  taken_has_time (data w) -> taken_has_time (data (exec (run_step step) w)).
Proof.
  set (I := λ (d : Data) (_ : nat), taken_has_time d).
  set (U := λ (st : Status) (ad : AdditionalData),
              st = TAKEN -> is_Some (takenAt ad)).
  assert (Hupd : update_ok I U).
  { intros d n i l st ad Hi HU Hd. unfold I, taken_has_time in *. cbn.
    apply Forall_insert; [done|]. intros Hst.
    rewrite apply_update_status in Hst. subst st.
    rewrite apply_update_taken_at. by destruct (HU eq_refl) as [ts ->]. }
  assert (Hlog : log_ok I).
  { intros d n l _ Hst _ _ _ _ Hd. unfold I, taken_has_time in *. cbn.
    apply Forall_app. split; [done|]. apply Forall_singleton. by rewrite Hst. }
  assert (Hsched : forall st ad, scheduler_update st ad -> U st ad).
  { by intros st ad [Hst _] ->. }
  assert (Huser : user_ok I) by (by intros d n u _ H).
  assert (Hschedule : schedule_ok I) by (by intros d n u _ H).
  cut (keeps I (run_step step)); [intros Hkeeps; apply Hkeeps|].
  destruct step as [job|today now event]; cbn [run_step].
  - by apply (keeps_run_job I U).
  - apply keeps_bind; [|intros ?; apply keeps_ret].
    apply (keeps_handleWebhookEvent I U); try done.
    intros st ad Hev. destruct event as [userId action sid reported| |]; try done.
    destruct Hev as [[_ [Hst Had]]|[_ [Hst _]]]; unfold U.
    + subst ad. by intros _.
    + by destruct Hst as [-> | ->].
Qed.

Lemma taken_at_kept_by_run_step step w :
  ~ is_acknowledge step ->
  evolved (λ l l', Log.taken_at l' = Log.taken_at l)
          (data w) (data (exec (run_step step) w)).
Proof.
  intros Hnot.
  set (P := λ l l' : Log.t, Log.taken_at l' = Log.taken_at l).
  set (U := λ (st : Status) (_ : AdditionalData), st <> TAKEN).
  assert (Hupd : update_ok (evolved_from P (data w)) U).
  { apply evolved_update_ok. intros l0 l st ad Hst HP. unfold P in *.
    rewrite apply_update_taken_at. by destruct st. }
  assert (Hsched : forall st ad, scheduler_update st ad -> U st ad).
  { by intros st ad [Hst _]. }
  assert (Hinit : evolved_from P (data w) (data w) (uuid_n w))
    by (by apply evolved_refl).
  cut (keeps (evolved_from P (data w)) (run_step step));
    [intros Hkeeps; by apply Hkeeps|].
  destruct step as [job|today now event]; cbn [run_step].
  - apply (keeps_run_job _ U); try done. apply evolved_log_ok.
  - apply keeps_bind; [|intros ?; apply keeps_ret].
    apply (keeps_handleWebhookEvent _ U); try done.
    + apply evolved_user_ok.
    + apply evolved_schedule_ok.
    + apply evolved_log_ok.
    + intros st ad Hev.
      destruct event as [userId action sid reported| |]; try done.
      destruct Hev as [[Ha _]|[_ [Hst _]]]; [done|].
      unfold U. by destruct Hst as [-> | ->].
Qed.

(** C8, as the code has it. Along every run, a record that is TAKEN has
    its [taken_at] set, provided that held at the start (as it does in the
    store of a fresh installation). The converse is not kept: [taken_at] is
    never cleared, so a record snoozed after an acknowledge carries it with
    another status. [taken_at] is written by every acknowledge, also a
    repeated one, with the instant of that action, and no other step writes
    it. *)
Theorem taken_at_set_when_taken_written_by_acknowledge :
  (forall (steps : list Step) (w : World),
      taken_has_time (data w) -> taken_has_time (data (exec (run steps) w)))
  /\ (forall (step : Step) (w : World) (i : nat) (l : Log.t),
        ~ is_acknowledge step ->
        logs_of w !! i = Some l ->
        exists l' : Log.t,
          logs_of (exec (run_step step) w) !! i = Some l'
          /\ Log.taken_at l' = Log.taken_at l)
  /\ (forall (today : string) (now : Z) (userId sid : string) (reported : Z)
             (w : World) (j : nat) (l : Log.t),
        unique_log_ids (data (exec (ensure_user today now userId) w)) ->
        today_record (data (exec (ensure_user today now userId) w)) sid today
        = Some (j, l) ->
        exists l' : Log.t,
          logs_of (exec (run_step
                           (Act today now
                              (Postback userId (Some "taken") (Some sid) reported)))
                        w) !! j = Some l'
          /\ Log.status l' = TAKEN
          /\ Log.taken_at l' = Some now).
Proof.
  split; [|split].
  - induction steps as [|step steps IH]; intros w Hw; [done|].
    unfold run. rewrite exec_for_each_cons. apply IH.
    by apply taken_has_time_run_step.
  - intros step w i l Hnot Hi.
    by apply (taken_at_kept_by_run_step step w Hnot i l).
  - intros today now userId sid reported w j l Hnd Hl.
    pose proof (today_record_lookup _ _ _ _ _ Hl) as (Hj & _).
    exists (taken_now reported now l). rewrite exec_run_step_act.
    rewrite (postback_taken _ _ _ _ _ _ j l Hnd Hl). cbn.
    rewrite list_lookup_insert_eq by (by eapply lookup_lt_Some).
    by destruct (taken_now_fields reported now l) as (? & ? & _).
Qed.

(** * The order of the last transition (C9) *)

(** C9, as the code has it. When an evaluation finds the record of a user
    open with three reminders sent, it first writes MISSED to the store and
    to the file, and only then pushes the notice: the effects of the round
    are the save of the store that holds the record as MISSED, followed by
    the push. The outcome of the push has no part in the store, so MISSED
    is persisted whether the push succeeds or fails. *)
Theorem missed_is_saved_then_notified (today : string) (now : Z)
    (mealType : string) (u : User.t) (w : World) (s : Schedule.t) (j : nat)
    (l : Log.t) :
  unique_log_ids (data w) ->
  find_schedule (data w) mealType u = Some s ->
  today_record (data w) (Schedule.id s) today = Some (j, l) ->
  is_open (Log.status l) = true ->
  3 <= Log.retry_count l ->
  let d' := set_log j (missed_now now l) (data w) in
  emitted (remind_user today now mealType u) w
  = [Saved d';
     Push (User.line_user_id u) (TextMessage TxtExceeded)
          (push_ok (S (length (trace w))))]
  /\ data (exec (remind_user today now mealType u) w) = d'
  /\ medicationLogs d' !! j = Some (missed_now now l)
  /\ Log.status (missed_now now l) = MISSED.
Proof.
  intros Hnd Hs Hl Hopen Hge d'.
  pose proof (today_record_lookup _ _ _ _ _ Hl) as (Hj & _).
  assert (Hexec : exec (remind_user today now mealType u) w
                  = mkWorld d'
                      (trace w ++
                       [Saved d';
                        Push (User.line_user_id u) (TextMessage TxtExceeded)
                             (push_ok (S (length (trace w))))])
                      (uuid_n w)).
  { rewrite (remind_user_exact _ _ _ _ _ s j l) by done.
    unfold remind_user_result. rewrite Hopen. cbn [negb].
    by rewrite bool_decide_eq_true_2 by done. }
  split; [|split; [|split]].
  - apply emitted_app. by rewrite Hexec.
  - by rewrite Hexec.
  - subst d'. cbn. apply list_lookup_insert_eq. by eapply lookup_lt_Some.
  - by destruct (missed_now_fields now l).
Qed.

(** * What the older scheduler sends *)

Definition is_saved (e : Event) : Prop :=
  match e with
  | Saved _ => True
  | Push _ _ _ => False
  end.

Lemma wp_updateMedicationLogStatus_saved logId st ad w
    (Q : option Log.t -> World -> Prop) :
  (forall r new, Forall is_saved new ->
     Q r (mkWorld (update_data logId st ad (data w)) (trace w ++ new) (uuid_n w))) ->
  wp (updateMedicationLogStatus logId st ad) w Q.
Proof.
  intros HQ. unfold wp, eval, exec.
  rewrite updateMedicationLogStatus_run.
  pose proof (HQ None [] (Forall_nil_2 _)) as HN. unfold update_data in HQ, HN.
  destruct (find_by_id _ _) as [[i l]|]; cbn [fst snd].
  - apply HQ. by apply Forall_singleton.
  - rewrite app_nil_r in HN. by destruct w.
Qed.

(** [emits ok w w']: the trace of [w'] is the trace of [w] followed by
    events that satisfy [ok]. *)
Definition emits (ok : Event -> Prop) (w w' : World) : Prop :=
  exists new, trace w' = trace w ++ new /\ Forall ok new.

Lemma emits_refl ok w : emits ok w w.
Proof. exists []. by rewrite app_nil_r. Qed.



Lemma emits_emitted {A} ok (m : M A) w :
  emits ok w (exec m w) -> Forall ok (emitted m w).
Proof. intros (new & Htr & Hok). by rewrite (emitted_app _ _ _ Htr). Qed.

Lemma emits_step ok d tr new n (w : World) :
  emits ok w (mkWorld d tr n) -> Forall ok new ->
  forall d' n', emits ok w (mkWorld d' (tr ++ new) n').
Proof.
  intros (new0 & Htr & Hok) Hnew d' n'. cbn in *. exists (new0 ++ new).
  rewrite Htr, app_assoc. split; [done|]. by apply Forall_app.
Qed.

(** ** [checkRetryNeeded] *)

(** A reminder of [checkRetryNeeded] answers to a record of [today] in the
    store [d] that is SNOOZED with fewer than three reminders and whose
    stamp is at least 30 minutes behind [now], the [getTaiwanTime()] of the
    round; the job pushes nothing else. *)
Definition retried_reminder (d : Data) (today : string) (now : Z) (e : Event)
    : Prop :=
  match e with
  | Saved _ => True
  | Push _ (TextMessage _) _ => False
  | Push _ (Flex info) _ =>
      exists (l : Log.t) (lastReminded : Z),
        l ∈ medicationLogs d
        /\ Log.date l = today
        /\ Log.schedule_id l = scheduleId info
        /\ Log.status l = SNOOZED
        /\ Log.retry_count l < 3
        /\ retryCount info = Log.retry_count l + 1
        /\ Log.last_reminded_at l = Some lastReminded
        /\ 30 <= (now - lastReminded) `div` 60000
  end.

Lemma saved_retried d today now new :
  Forall is_saved new -> Forall (retried_reminder d today now) new.
Proof. intros H. eapply Forall_impl; [exact H|]. by intros [|]. Qed.

Lemma retry_log_emits d0 today now pl w0 w :
  pl_log pl ∈ medicationLogs d0 -> Log.date (pl_log pl) = today ->
  emits (retried_reminder d0 today now) w0 w ->
  wp (retry_log now pl) w (λ _ w', emits (retried_reminder d0 today now) w0 w').
Proof.
  intros Hin Hdate Hem. unfold retry_log. cbv zeta.
  destruct (Log.last_reminded_at (pl_log pl)) as [lastReminded|] eqn:Hlast;
    [|by wp_steps].
  wp_steps.
  apply (wp_conseq _ _ (λ _ w', emits (retried_reminder d0 today now) w0 w')).
  - apply wp_when; [intros Hcond|done].
    apply andb_prop in Hcond as [Hcond Hst].
    apply andb_prop in Hcond as [Hdiff Hretry].
    apply bool_decide_eq_true in Hst, Hdiff, Hretry.
    wp_steps.
    destruct (snd <$> list_find _ (schedules (data w))) as [schedule|] eqn:Hsch;
      [|by wp_steps].
    assert (Hsid : Schedule.id schedule = Log.schedule_id (pl_log pl)).
    { destruct (list_find _ _) as [[i x]|] eqn:Hfind; [|done].
      injection Hsch as ->. by apply list_find_Some in Hfind as (_ & ? & _). }
    wp_steps. apply wp_updateMedicationLogStatus_saved. intros r new Hnew.
    wp_steps. destruct w as [d tr n]. cbn [data trace uuid_n].
    rewrite <- app_assoc. apply (emits_step _ d tr _ n); [done|].
    apply Forall_app. split; [by apply saved_retried|].
    apply Forall_singleton. cbn.
    exists (pl_log pl), lastReminded. by repeat split.
  - intros a w' Hem'. apply wp_when; [intros _|done].
    wp_steps. apply wp_updateMedicationLogStatus_saved. intros r new Hnew.
    wp_steps. destruct w' as [d tr n]. cbn [data trace uuid_n].
    apply (emits_step _ d tr _ n); [done|]. by apply saved_retried.
Qed.

Lemma checkRetryNeeded_emits zone today t w :
  Forall (retried_reminder (data w) today (getTaiwanTime zone t))
         (emitted (checkRetryNeeded zone today t) w).
Proof.
  apply emits_emitted. set (now := getTaiwanTime zone t).
  change (wp (checkRetryNeeded zone today t) w
            (λ _ w', emits (retried_reminder (data w) today now) w w')).
  unfold checkRetryNeeded. cbv zeta. fold now. wp_steps.
  apply (wp_for_each (λ w', emits (retried_reminder (data w) today now) w w'));
    [apply emits_refl| |done].
  intros pl w' Hpl Hem.
  apply list_elem_of_fmap in Hpl as (l & -> & Hl).
  apply list_elem_of_filter in Hl as ((Hdate & _) & Hl).
  by apply retry_log_emits.
Qed.

(** ** [checkAndSendReminders] *)












(** * The prerequisite of a second dose (C6) *)


(** * The cron times of [start] *)

Definition minute_of_day (job : Z * Z * string) : Z := 60 * job.1.1 + job.1.2.

(** Two different cron times of one meal type are at least 30 minutes
    apart. *)
Definition spaced (jobs : list (Z * Z * string)) : Prop :=
  Forall (λ a, Forall (λ b, a.2 = b.2 -> a <> b ->
                            30 <= Z.abs (minute_of_day a - minute_of_day b))
                      jobs) jobs.

Lemma reminder_jobs_spaced : spaced reminder_jobs.
Proof.
  unfold spaced, reminder_jobs.
  repeat (apply Forall_cons; split); try apply Forall_nil_2;
    intros Hmeal Hne; try done; by vm_compute.
Qed.

(** * The daily initializer (C5) *)

(** The record of today of the schedule [sid] exists. *)
Definition has_record (today sid : string) (d : Data) : Prop :=
  is_Some (today_record d sid today).

(** No two records share schedule and date. *)
Definition unique_keys (d : Data) : Prop :=
  NoDup ((λ l, (Log.schedule_id l, Log.date l)) <$> medicationLogs d).

Lemma today_record_app_Some ls l0 sid today :
  is_Some (list_find (log_matches sid today) ls) ->
  is_Some (list_find (log_matches sid today) (ls ++ [l0])).
Proof.
  intros [[i l] Hfind]. exists (i, l).
  apply list_find_Some in Hfind as (Hi & Hm & Hfirst).
  apply list_find_Some. split; [by apply lookup_app_l_Some|]. split; [done|].
  intros k y Hk Hlt. apply (Hfirst k); [|done].
  rewrite lookup_app_l in Hk; [done|].
  apply lookup_lt_Some in Hi. lia.
Qed.

Lemma has_record_log_ok today sid : log_ok (λ d _, has_record today sid d).
Proof.
  intros d n l _ _ _ _ _ _ H. unfold has_record, today_record in *. cbn.
  by apply today_record_app_Some.
Qed.

Lemma unique_keys_log_ok : log_ok (λ d _, unique_keys d).
Proof.
  intros d n l _ _ _ _ _ Hnone Hnd. unfold unique_keys in *. cbn.
  rewrite fmap_app. cbn. apply NoDup_app. split; [done|].
  split; [|apply NoDup_singleton].
  intros x Hx [->|[]%elem_of_nil]%elem_of_cons.
  apply list_elem_of_fmap in Hx as (l' & [= Hsid Hdate] & Hl').
  unfold today_record in Hnone. apply list_find_None in Hnone.
  rewrite Forall_forall in Hnone. by apply (Hnone l' Hl').
Qed.

Lemma init_schedule_creates today now user schedule w :
  has_record today (Schedule.id schedule)
             (data (exec (init_schedule today now user schedule) w)).
Proof.
  unfold init_schedule, has_record. rewrite exec_bind.
  change (exec (getMedicationLogByScheduleAndDate _ _) w) with w.
  change (eval (getMedicationLogByScheduleAndDate (Schedule.id schedule) today) w)
    with (snd <$> today_record (data w) (Schedule.id schedule) today).
  destruct (today_record (data w) (Schedule.id schedule) today)
    as [[i l]|] eqn:Hfind; cbn [fmap option_fmap option_map snd].
  - rewrite exec_ret, Hfind. by eexists.
  - rewrite exec_bind, exec_ret. destruct w as [d tr n]. mrun.
    unfold today_record in *. cbn in Hfind. rewrite Hfind. cbn.
    unfold today_record. cbn.
    eexists (length (medicationLogs d), _). apply list_find_Some.
    split; [by apply list_lookup_middle|]. split; [by split|].
    intros k y Hk Hlt. rewrite lookup_app_l in Hk by done.
    apply list_find_None in Hfind. rewrite Forall_forall in Hfind.
    apply Hfind. by eapply list_elem_of_lookup_2.
Qed.

Lemma init_schedule_noop today now user schedule w :
  has_record today (Schedule.id schedule) (data w) ->
  exec (init_schedule today now user schedule) w = w.
Proof.
  intros [[i l] Hfind]. unfold init_schedule. rewrite exec_bind.
  change (exec (getMedicationLogByScheduleAndDate _ _) w) with w.
  change (eval (getMedicationLogByScheduleAndDate (Schedule.id schedule) today) w)
    with (snd <$> today_record (data w) (Schedule.id schedule) today).
  by rewrite Hfind.
Qed.

Lemma for_each_noop {A} (xs : list A) (body : A -> M unit) w :
  (forall x, x ∈ xs -> exec (body x) w = w) -> exec (for_each xs body) w = w.
Proof.
  induction xs as [|x xs IH]; intros Hbody; [done|].
  rewrite exec_for_each_cons, Hbody by (by left).
  apply IH. intros y Hy. apply Hbody. by right.
Qed.

(** Every element of a loop is covered at the end if its round covers it and
    no round uncovers it. *)
Lemma for_each_covers {A} (C : A -> World -> Prop) (xs : list A)
    (body : A -> M unit) :
  (forall x w, C x (exec (body x) w)) ->
  (forall x y w, C x w -> C x (exec (body y) w)) ->
  forall x w, x ∈ xs -> C x (exec (for_each xs body) w).
Proof.
  intros Hcover Hkeep x. induction xs as [|y xs IH]; intros w Hx.
  - by apply elem_of_nil in Hx.
  - rewrite exec_for_each_cons. apply elem_of_cons in Hx as [->|Hx].
    + apply (for_each_invariant (C y)); [|apply Hcover].
      intros z w' _. apply Hkeep.
    + by apply IH.
Qed.

(** The initializer leaves users and schedules as they are. *)
Lemma initDailySchedule_catalog today now w :
  users (data (exec (initDailySchedule today now) w)) = users (data w)
  /\ schedules (data (exec (initDailySchedule today now) w)) = schedules (data w).
Proof.
  apply (keeps_initDailySchedule
           (λ d _, users d = users (data w) /\ schedules d = schedules (data w)));
    [|done].
  by intros d n l _ _ _ _ _ _ H.
Qed.

Lemma init_schedule_keeps_record today sid now user schedule w :
  has_record today sid (data w) ->
  has_record today sid (data (exec (init_schedule today now user schedule) w)).
Proof.
  apply (keeps_bind (λ d _, has_record today sid d));
    [apply keeps_getMedicationLogByScheduleAndDate|].
  intros [l|]; [apply keeps_ret|].
  apply keeps_bind; [|intros ?; apply keeps_ret].
  apply keeps_createMedicationLog, has_record_log_ok.
Qed.

Lemma init_user_keeps_record today sid now user w :
  has_record today sid (data w) ->
  has_record today sid (data (exec (init_user today now user) w)).
Proof.
  apply (keeps_bind (λ d _, has_record today sid d));
    [apply keeps_getSchedulesByUserId|].
  intros schedules. apply keeps_for_each. intros schedule w'.
  apply init_schedule_keeps_record.
Qed.

(** After the initializer every schedule of a known user has its record of
    today. *)
Lemma initDailySchedule_covers today now w u s :
  u ∈ users (data w) -> s ∈ schedules (data w) ->
  Schedule.user_id s = User.id u ->
  has_record today (Schedule.id s) (data (exec (initDailySchedule today now) w)).
Proof.
  intros Hu Hs Huid. unfold initDailySchedule. rewrite exec_bind.
  change (exec getAllUsers w) with w.
  change (eval getAllUsers w) with (users (data w)).
  apply list_elem_of_split in Hu as (us1 & us2 & ->).
  rewrite exec_for_each_app, exec_for_each_cons.
  set (w1 := exec (for_each us1 (init_user today now)) w).
  assert (Hs1 : schedules (data w1) = schedules (data w)).
  { apply (keeps_for_each (λ d _, schedules d = schedules (data w))); [|done].
    assert (Hlog : log_ok (λ d (_ : nat), schedules d = schedules (data w)))
      by (by intros d n l _ _ _ _ _ _ H).
    intros x. unfold init_user, init_schedule. repeat keeps_step. }
  apply (for_each_invariant
           (λ w', has_record today (Schedule.id s) (data w'))).
  { intros x w' _. apply init_user_keeps_record. }
  unfold init_user. rewrite exec_bind.
  change (exec (getSchedulesByUserId _) w1) with w1.
  change (eval (getSchedulesByUserId (User.id u)) w1)
    with (filter (λ s, Schedule.user_id s = User.id u) (schedules (data w1))).
  apply (for_each_covers
           (λ s' w', has_record today (Schedule.id s') (data w'))).
  - intros x w'. apply init_schedule_creates.
  - intros x y w'. apply init_schedule_keeps_record.
  - apply list_elem_of_filter. split; [done|]. by rewrite Hs1.
Qed.

(** On a store where every schedule of a known user has its record of
    today, the initializer does nothing at all. *)
Lemma initDailySchedule_noop today now w :
  (forall u s, u ∈ users (data w) -> s ∈ schedules (data w) ->
               Schedule.user_id s = User.id u ->
               has_record today (Schedule.id s) (data w)) ->
  exec (initDailySchedule today now) w = w.
Proof.
  intros Hall. unfold initDailySchedule. rewrite exec_bind.
  change (exec getAllUsers w) with w.
  change (eval getAllUsers w) with (users (data w)).
  apply for_each_noop. intros u Hu. unfold init_user. rewrite exec_bind.
  change (exec (getSchedulesByUserId _) w) with w.
  change (eval (getSchedulesByUserId (User.id u)) w)
    with (filter (λ s, Schedule.user_id s = User.id u) (schedules (data w))).
  apply for_each_noop. intros s [Huid Hs]%list_elem_of_filter.
  apply init_schedule_noop. by apply (Hall u s).
Qed.

(** [initDailySchedule] run a second time on the same day finds every
    record and changes nothing: no record, no file write, no identifier
    drawn. *)
Lemma initDailySchedule_idempotent today now1 now2 w :
  exec (initDailySchedule today now2) (exec (initDailySchedule today now1) w)
  = exec (initDailySchedule today now1) w.
Proof.
  apply initDailySchedule_noop. intros u s Hu Hs Huid.
  destruct (initDailySchedule_catalog today now1 w) as [Hus Hss].
  rewrite Hus in Hu. rewrite Hss in Hs.
  by apply (initDailySchedule_covers today now1 w u s).
Qed.

Lemma filter_none {A} (P : A -> Prop) `{forall x, Decision (P x)} (xs : list A) :
  (forall x, x ∈ xs -> ~ P x) -> filter P xs = [].
Proof.
  induction xs as [|x xs IH]; intros Hnone; [done|].
  rewrite filter_cons. destruct (decide (P x)) as [HP|_].
  - exfalso. apply (Hnone x); [by left|done].
  - apply IH. intros y Hy. apply Hnone. by right.
Qed.

(** With unique keys, a schedule that has its record of today has exactly
    one. *)
Lemma one_record_per_schedule today sid d :
  unique_keys d -> has_record today sid d ->
  length (filter (log_matches sid today) (medicationLogs d)) = 1%nat.
Proof.
  unfold unique_keys, has_record, today_record.
  intros Hnd [[i x] Hfind]. apply list_find_Some in Hfind as (Hi & Hm & _).
  apply list_elem_of_lookup_2 in Hi. clear i.
  induction (medicationLogs d) as [|l ls IH]; [by apply elem_of_nil in Hi|].
  rewrite fmap_cons in Hnd. apply NoDup_cons in Hnd as [Hnot Hnd].
  rewrite filter_cons. destruct (decide (log_matches sid today l)) as [Hl|Hl].
  - cbn. f_equal. rewrite filter_none; [done|].
    intros y Hy [Hy1 Hy2]. apply Hnot. apply list_elem_of_fmap.
    exists y. split; [|done]. destruct Hl as [-> ->]. by rewrite Hy1, Hy2.
  - apply IH; [done|]. apply elem_of_cons in Hi as [->|Hi]; done.
Qed.

(** X1: the initializer, run twice on one day: the second run changes nothing,
    and every schedule of a known user has exactly one record of that day
    (the keys of the records being unique before). *)
Lemma initDailySchedule_twice today now1 now2 w u s :
  unique_keys (data w) ->
  u ∈ users (data w) -> s ∈ schedules (data w) ->
  Schedule.user_id s = User.id u ->
  let w1 := exec (initDailySchedule today now1) w in
  let w2 := exec (initDailySchedule today now2) w1 in
  w2 = w1
  /\ length (filter (log_matches (Schedule.id s) today) (logs_of w2)) = 1%nat.
Proof.
  intros Hkeys Hu Hs Huid w1 w2.
  assert (Heq : w2 = w1) by apply initDailySchedule_idempotent.
  split; [done|]. rewrite Heq. apply one_record_per_schedule.
  - apply (keeps_initDailySchedule (λ d _, unique_keys d)); [|done].
    apply unique_keys_log_ok.
  - by apply (initDailySchedule_covers today now1 w u s).
Qed.


(** * The store, operation by operation (database.js) *)

Lemma createUser_run now line name w :
  createUser now line name w =
  match snd <$> list_find (λ u, User.line_user_id u = line) (users (data w)) with
  | Some u => (u, w)
  | None =>
      let u := User.mk (uuidv4 (uuid_n w)) line name now in
      let d' := add_user u (data w) in
      (u, mkWorld d' (trace w ++ [Saved d']) (S (uuid_n w)))
  end.
Proof.
  destruct w as [d tr n]. mrun.
  destruct (snd <$> list_find _ _); reflexivity.
Qed.

Lemma createMedicationLog_run now sid uid date w :
  createMedicationLog now sid uid date w =
  match snd <$> today_record (data w) sid date with
  | Some l => (l, w)
  | None =>
      let l := Log.mk (uuidv4 (uuid_n w)) sid uid date PENDING 0 None None now in
      let d' := add_log l (data w) in
      (l, mkWorld d' (trace w ++ [Saved d']) (S (uuid_n w)))
  end.
Proof.
  destruct w as [d tr n]. unfold today_record. mrun.
  destruct (snd <$> list_find _ _); reflexivity.
Qed.

Lemma createSchedule_run now uid mealType time meds options w :
  createSchedule now uid mealType time meds options w =
  let s := Schedule.mk (uuidv4 (uuid_n w)) uid mealType time meds
             (default false (isSecondDoseOpt options))
             (nonempty (linkedScheduleIdOpt options))
             (or_default 60 (linkDelayMinutesOpt options)) now in
  let d' := add_schedule s (data w) in
  (s, mkWorld d' (trace w ++ [Saved d']) (S (uuid_n w))).
Proof. destruct w as [d tr n]. reflexivity. Qed.

(** The first match of a list that had none and got a matching element
    appended is that element. *)
Lemma list_find_snoc {A} (P : A -> Prop) `{forall x, Decision (P x)}
    (xs : list A) (x : A) :
  list_find P xs = None -> P x ->
  list_find P (xs ++ [x]) = Some (length xs, x).
Proof.
  intros Hnone HP. rewrite list_find_app_r by done. cbn.
  rewrite decide_True by done. cbn. repeat f_equal; lia.
Qed.

Lemma list_find_app_found {A} (P : A -> Prop) `{forall x, Decision (P x)}
    (xs ys : list A) r :
  list_find P xs = Some r -> list_find P (xs ++ ys) = Some r.
Proof. destruct r as [i x]. apply list_find_app_l. Qed.

(** The user that [createUser] returns: found under the LINE identifier
    afterwards, and appended if the identifier was new. *)
Lemma createUser_result now line name w :
  User.line_user_id (eval (createUser now line name) w) = line
  /\ eval (getUserByLineId line) (exec (createUser now line name) w)
     = Some (eval (createUser now line name) w)
  /\ (eval (getUserByLineId line) w = None ->
      User.display_name (eval (createUser now line name) w) = name
      /\ users (data (exec (createUser now line name) w))
         = users (data w) ++ [eval (createUser now line name) w]
      /\ schedules (data (exec (createUser now line name) w))
         = schedules (data w)).
Proof.
  change (eval (getUserByLineId line) w)
    with (snd <$> list_find (λ u, User.line_user_id u = line) (users (data w))).
  unfold eval, exec. rewrite !createUser_run.
  destruct (list_find (λ u, User.line_user_id u = line) (users (data w)))
    as [[i u]|] eqn:Hfind; cbn [fmap option_fmap option_map snd fst].
  - pose proof Hfind as (_ & Hline & _)%list_find_Some.
    split; [done|]. split; [|done].
    unfold getUserByLineId. mrun. by rewrite Hfind.
  - set (u := User.mk (uuidv4 (uuid_n w)) line name now).
    assert (Hnew : list_find (λ u, User.line_user_id u = line)
                     (users (data w) ++ [u])
                   = Some (length (users (data w)), u))
      by (by apply list_find_snoc).
    split; [done|]. split; [|done].
    unfold getUserByLineId. mrun. unfold add_user. cbn. by rewrite Hnew.
Qed.

(** X2: [createUser] is a find-or-create on the LINE identifier. The user it
    returns carries the identifier and is the one [getUserByLineId] finds
    afterwards; a second call with the same identifier returns that user
    and does nothing (no write, no identifier drawn, the display name not
    replaced); the users stored before keep their places. *)
Theorem createUser_finds_or_creates (now now' : Z) (line : string)
    (name name' : option string) (w : World) :
  let u := eval (createUser now line name) w in
  let w1 := exec (createUser now line name) w in
  User.line_user_id u = line
  /\ eval (getUserByLineId line) w1 = Some u
  /\ eval (createUser now' line name') w1 = u
  /\ exec (createUser now' line name') w1 = w1
  /\ (forall i u0, users (data w) !! i = Some u0 ->
                   users (data w1) !! i = Some u0).
Proof.
  cbv zeta. unfold eval, exec. rewrite !createUser_run.
  destruct (list_find (λ u, User.line_user_id u = line) (users (data w)))
    as [[i u]|] eqn:Hfind; cbn [fmap option_fmap option_map snd fst].
  - rewrite Hfind. cbn.
    pose proof Hfind as (_ & Hline & _)%list_find_Some.
    split; [done|]. split; [|done].
    unfold getUserByLineId. mrun. by rewrite Hfind.
  - set (u := User.mk (uuidv4 (uuid_n w)) line name now).
    assert (Hnew : list_find (λ u, User.line_user_id u = line)
                     (users (data w) ++ [u])
                   = Some (length (users (data w)), u))
      by (by apply list_find_snoc).
    cbn [data users add_user]. rewrite Hnew. cbn.
    split; [done|]. split; [|split; [done|split; [done|]]].
    + unfold getUserByLineId. mrun. unfold add_user. cbn. by rewrite Hnew.
    + intros i u0 Hi. by apply lookup_app_l_Some.
Qed.

(** X3: [createMedicationLog] is a find-or-create on (schedule, date). The
    record it returns has that key and is the one that
    [getMedicationLogByScheduleAndDate] finds afterwards; a second call for
    the key returns the same record and does nothing, whatever user it
    names; a record that had to be created is PENDING with no reminder sent
    and is appended; the records stored before keep their places. *)
Theorem createMedicationLog_finds_or_creates (now now' : Z)
    (sid uid uid' date : string) (w : World) :
  let l := eval (createMedicationLog now sid uid date) w in
  let w1 := exec (createMedicationLog now sid uid date) w in
  log_matches sid date l
  /\ eval (getMedicationLogByScheduleAndDate sid date) w1 = Some l
  /\ eval (createMedicationLog now' sid uid' date) w1 = l
  /\ exec (createMedicationLog now' sid uid' date) w1 = w1
  /\ (today_record (data w) sid date = None ->
      l = Log.mk (uuidv4 (uuid_n w)) sid uid date PENDING 0 None None now
      /\ logs_of w1 = logs_of w ++ [l])
  /\ (is_Some (today_record (data w) sid date) -> w1 = w)
  /\ (forall i l0, logs_of w !! i = Some l0 -> logs_of w1 !! i = Some l0).
Proof.
  cbv zeta. unfold eval, exec. rewrite !createMedicationLog_run.
  unfold today_record.
  destruct (list_find (log_matches sid date) (logs_of w))
    as [[i l]|] eqn:Hfind; cbn [fmap option_fmap option_map snd fst].
  - rewrite Hfind. cbn.
    pose proof Hfind as (_ & Hkey & _)%list_find_Some.
    split; [done|]. split; [|by repeat split].
    unfold getMedicationLogByScheduleAndDate. mrun. by rewrite Hfind.
  - set (l := Log.mk (uuidv4 (uuid_n w)) sid uid date PENDING 0 None None now).
    assert (Hnew : list_find (log_matches sid date) (logs_of w ++ [l])
                   = Some (length (logs_of w), l))
      by (by apply list_find_snoc).
    cbn [data medicationLogs add_log]. rewrite Hnew. cbn.
    split; [done|]. split; [|split; [done|split; [done|split; [done|split]]]].
    + unfold getMedicationLogByScheduleAndDate. mrun. unfold add_log. cbn.
      by rewrite Hnew.
    + by intros [? ?].
    + intros i l0 Hi. by apply lookup_app_l_Some.
Qed.

(** * Invariants of every run *)

(** What every scheduler job and every webhook event keeps, given that the
    three appends and the rewrite of a record keep it. *)
Section KeepsRuns.

Variable I : Data -> nat -> Prop.
Hypothesis I_user : user_ok I.
Hypothesis I_schedule : schedule_ok I.
Hypothesis I_log : log_ok I.
Hypothesis I_update : update_ok I (λ _ _, True).

Lemma keeps_run_step step : keeps I (run_step step).
Proof.
  destruct step as [job|today now event]; cbn [run_step].
  - by apply (keeps_run_job I (λ _ _, True)).
  - apply keeps_bind; [|intros ?; apply keeps_ret].
    by apply (keeps_handleWebhookEvent I (λ _ _, True)).
Qed.

Lemma keeps_run steps : keeps I (run steps).
Proof. apply keeps_for_each, keeps_run_step. Qed.

End KeepsRuns.

Lemma set_log_fmap {B} (f : Log.t -> B) d i l l' :
  medicationLogs d !! i = Some l -> f l' = f l ->
  f <$> medicationLogs (set_log i l' d) = f <$> medicationLogs d.
Proof.
  intros Hi Hf. cbn. rewrite list_fmap_insert, Hf. apply list_insert_id.
  by rewrite list_lookup_fmap, Hi.
Qed.

Lemma unique_keys_update_ok : update_ok (λ d _, unique_keys d) (λ _ _, True).
Proof.
  intros d n i l st ad Hi _ Hnd. unfold unique_keys.
  rewrite (set_log_fmap _ d i l); [done|done|].
  destruct (apply_update_same_key st ad l) as (_ & -> & _ & -> & _). done.
Qed.

Lemma at_most_one_record sid date d :
  unique_keys d ->
  (length (filter (log_matches sid date) (medicationLogs d)) <= 1)%nat.
Proof.
  intros Hkeys.
  destruct (today_record d sid date) as [r|] eqn:Hfind.
  - rewrite (one_record_per_schedule date sid d); [lia|done|].
    unfold has_record. by rewrite Hfind.
  - unfold today_record in Hfind. apply list_find_None in Hfind.
    rewrite Forall_forall in Hfind. rewrite filter_none; [simpl; lia|].
    intros x Hx. by apply Hfind.
Qed.

(** X4: the key of the find-or-create is kept along every run of scheduler
    jobs and webhook events: a store in which no two records share schedule
    and date stays so, whatever the jobs, the events and the counts they
    carry; so every (schedule, date) has at most one record. *)
Theorem record_keys_stay_unique (steps : list Step) (w : World) :
  unique_keys (data w) ->
  unique_keys (data (exec (run steps) w))
  /\ forall sid date,
       (length (filter (log_matches sid date) (logs_of (exec (run steps) w)))
        <= 1)%nat.
Proof.
  intros Hkeys.
  assert (Hafter : unique_keys (data (exec (run steps) w))).
  { apply (keeps_run (λ d _, unique_keys d)); try done.
    - by intros d n u _ H.
    - by intros d n s _ H.
    - apply unique_keys_log_ok.
    - apply unique_keys_update_ok. }
  split; [done|]. intros sid date. by apply at_most_one_record.
Qed.

(** ** Identifiers *)

(** Every identifier in the store is unique in its table, and none of the
    identifiers still to be drawn is in the store. *)
Definition ids_fresh (d : Data) (n : nat) : Prop :=
  NoDup (User.id <$> users d)
  /\ NoDup (Schedule.id <$> schedules d)
  /\ unique_log_ids d
  /\ forall k, (n <= k)%nat ->
       (uuidv4 k ∉ User.id <$> users d)
       /\ (uuidv4 k ∉ Schedule.id <$> schedules d)
       /\ (uuidv4 k ∉ Log.id <$> medicationLogs d).

Definition line_ids_unique (d : Data) : Prop :=
  NoDup (User.line_user_id <$> users d).

Lemma NoDup_snoc {A} (xs : list A) (x : A) :
  NoDup xs -> x ∉ xs -> NoDup (xs ++ [x]).
Proof.
  intros Hnd Hx. apply NoDup_app. split; [done|].
  split; [|apply NoDup_singleton].
  by intros y Hy [->|[]%elem_of_nil]%elem_of_cons.
Qed.

Section IdsFresh.

Hypothesis uuidv4_inj : forall m n, uuidv4 m = uuidv4 n -> m = n.

Lemma not_elem_of_snoc {A} (xs : list A) (x y : A) :
  y ∉ xs -> y <> x -> y ∉ xs ++ [x].
Proof. intros Hxs Hx [?|[?|[]%elem_of_nil]%elem_of_cons]%elem_of_app; done. Qed.

Lemma later_uuid n k : (S n <= k)%nat -> uuidv4 k <> uuidv4 n.
Proof. intros Hk Heq. apply uuidv4_inj in Heq. lia. Qed.

Lemma ids_fresh_user_ok : user_ok ids_fresh.
Proof.
  intros d n u Hid (Hu & Hs & Hl & Hfresh). unfold ids_fresh. cbn.
  rewrite fmap_app. cbn. split; [|split; [done|split; [done|]]].
  - apply NoDup_snoc; [done|]. rewrite Hid. apply (Hfresh n). lia.
  - intros k Hk. destruct (Hfresh k) as (Hku & Hks & Hkl); [lia|].
    split; [|done]. apply not_elem_of_snoc; [done|].
    rewrite Hid. by apply later_uuid.
Qed.

Lemma ids_fresh_schedule_ok : schedule_ok ids_fresh.
Proof.
  intros d n s Hid (Hu & Hs & Hl & Hfresh). unfold ids_fresh. cbn.
  rewrite fmap_app. cbn. split; [done|split; [|split; [done|]]].
  - apply NoDup_snoc; [done|]. rewrite Hid. apply (Hfresh n). lia.
  - intros k Hk. destruct (Hfresh k) as (Hku & Hks & Hkl); [lia|].
    split; [done|split; [|done]]. apply not_elem_of_snoc; [done|].
    rewrite Hid. by apply later_uuid.
Qed.

Lemma ids_fresh_log_ok : log_ok ids_fresh.
Proof.
  intros d n l Hid _ _ _ _ _ (Hu & Hs & Hl & Hfresh).
  unfold ids_fresh, unique_log_ids. cbn.
  rewrite fmap_app. cbn. split; [done|split; [done|split]].
  - apply NoDup_snoc; [done|]. rewrite Hid. apply (Hfresh n). lia.
  - intros k Hk. destruct (Hfresh k) as (Hku & Hks & Hkl); [lia|].
    split; [done|split; [done|]]. apply not_elem_of_snoc; [done|].
    rewrite Hid. by apply later_uuid.
Qed.

Lemma ids_fresh_update_ok : update_ok ids_fresh (λ _ _, True).
Proof.
  intros d n i l st ad Hi _ (Hu & Hs & Hl & Hfresh).
  unfold ids_fresh, unique_log_ids.
  rewrite (set_log_ids d i l) by (done || apply apply_update_id). done.
Qed.

Lemma ids_fresh_run steps : keeps ids_fresh (run steps).
Proof.
  apply keeps_run.
  - apply ids_fresh_user_ok.
  - apply ids_fresh_schedule_ok.
  - apply ids_fresh_log_ok.
  - apply ids_fresh_update_ok.
Qed.

End IdsFresh.

(** The LINE identifiers: only [createUser] adds a user, and only after it
    has looked for the identifier. *)
Lemma line_ids_createUser now line name :
  keeps (λ d _, line_ids_unique d) (createUser now line name).
Proof.
  intros w Hw. unfold exec. rewrite createUser_run.
  destruct (list_find _ _) as [[i u]|] eqn:Hfind; cbn; [done|].
  unfold line_ids_unique. cbn. rewrite fmap_app. cbn.
  apply NoDup_snoc; [done|].
  intros (u & Hline & Hu)%list_elem_of_fmap.
  apply list_find_None in Hfind. rewrite Forall_forall in Hfind.
  by apply (Hfind u Hu).
Qed.

Lemma line_ids_catalog_ok :
  schedule_ok (λ d _, line_ids_unique d)
  /\ log_ok (λ d _, line_ids_unique d)
  /\ update_ok (λ d _, line_ids_unique d) (λ _ _, True).
Proof.
  split; [|split].
  - by intros d n s _ H.
  - by intros d n l _ _ _ _ _ _ H.
  - by intros d n i l st ad _ _ H.
Qed.

Lemma line_ids_ensure_user today now userId :
  keeps (λ d _, line_ids_unique d) (ensure_user today now userId).
Proof.
  destruct line_ids_catalog_ok as (Hs & Hl & Hup).
  unfold ensure_user. apply keeps_bind; [apply keeps_getUserByLineId|].
  intros [u|]; [apply keeps_ret|].
  apply keeps_bind; [apply line_ids_createUser|intros u].
  apply keeps_bind; [|intros ?; apply keeps_ret].
  by apply keeps_setupDefaultSchedules.
Qed.

Lemma line_ids_handleWebhookEvent today now event :
  keeps (λ d _, line_ids_unique d) (handleWebhookEvent today now event).
Proof.
  destruct line_ids_catalog_ok as (Hs & Hl & Hup).
  unfold handleWebhookEvent.
  destruct event as [userId action scheduleId reported|userId text|].
  - apply keeps_bind; [by apply line_ids_ensure_user|intros user].
    apply keeps_bind; [|intros ?; apply keeps_bind; [|intros ?; apply keeps_ret]].
    + case_bool_decide; [|apply keeps_ret].
      by apply (keeps_handle_taken _ (λ _ _, True)).
    + case_bool_decide; [|apply keeps_ret].
      by apply (keeps_handle_snooze _ (λ _ _, True)).
  - apply keeps_bind; [by apply line_ids_ensure_user|intros user].
    apply keeps_bind; [|intros ?; apply keeps_ret].
    by apply keeps_handle_text.
  - apply keeps_ret.
Qed.

Lemma line_ids_run steps : keeps (λ d _, line_ids_unique d) (run steps).
Proof.
  destruct line_ids_catalog_ok as (Hs & Hl & Hup).
  apply keeps_for_each. intros [job|today now event]; cbn [run_step].
  - by apply (keeps_run_job _ (λ _ _, True)).
  - apply keeps_bind; [|intros ?; apply keeps_ret].
    apply line_ids_handleWebhookEvent.
Qed.

(** X5: identifiers stay unique. If [uuidv4] never repeats itself and the
    identifiers it has still to give are not in the store, then along every
    run the user identifiers, the LINE identifiers, the schedule identifiers
    and the record identifiers are each without duplicates; the store of a
    fresh installation is such a start. *)
Theorem identifiers_stay_unique :
  (forall m n, uuidv4 m = uuidv4 n -> m = n) ->
  forall (steps : list Step) (w : World),
    unique_ids (data w) ->
    (forall k, (uuid_n w <= k)%nat ->
       (uuidv4 k ∉ User.id <$> users (data w))
       /\ (uuidv4 k ∉ Schedule.id <$> schedules (data w))
       /\ (uuidv4 k ∉ Log.id <$> logs_of w)) ->
    unique_ids (data (exec (run steps) w)).
Proof.
  intros Hinj steps w (Hu & Hline & Hs & Hl) Hfresh.
  destruct (ids_fresh_run Hinj steps w) as (Hu' & Hs' & Hl' & _); [done|].
  pose proof (line_ids_run steps w Hline) as Hline'.
  by repeat split.
Qed.

(** * The webhook handler, reply by reply (lineBot.js) *)

Lemma run_unit (m : M unit) w : m w = (tt, exec m w).
Proof. unfold exec. by destruct (m w) as [[] w']. Qed.

Lemma run_eval_exec {A} (m : M A) w : m w = (eval m w, exec m w).
Proof. unfold eval, exec. by destruct (m w). Qed.

(** A sender who is registered is looked up and nothing else. *)
Lemma ensure_user_known today now userId w u :
  eval (getUserByLineId userId) w = Some u ->
  ensure_user today now userId w = (u, w).
Proof.
  intros Hu. unfold ensure_user. rewrite run_bind.
  rewrite (run_eval_exec (getUserByLineId userId) w), Hu. reflexivity.
Qed.

Lemma wp_ensure_user_known today now userId w u (Q : User.t -> World -> Prop) :
  eval (getUserByLineId userId) w = Some u ->
  Q u w -> wp (ensure_user today now userId) w Q.
Proof.
  intros Hu HQ. unfold wp, eval, exec.
  by rewrite (ensure_user_known _ _ _ _ u Hu).
Qed.

(** Closes an equation between two traces after symbolic execution. *)
Ltac trace_done :=
  cbn [data trace uuid_n]; rewrite <- ?app_assoc; cbn [app];
  rewrite ?length_app; cbn [length];
  repeat f_equal; first [done | lia].

Lemma trace_emitted {A} (m : M A) w new :
  trace (exec m w) = trace w ++ new -> emitted m w = new.
Proof. apply emitted_app. Qed.

(** The write of [updateMedicationLogStatus] when record identifiers are
    unique: the record at the place found, and one save. *)
Lemma wp_update_unique w j l st ad (Q : option Log.t -> World -> Prop) :
  unique_log_ids (data w) -> logs_of w !! j = Some l ->
  (let d' := set_log j (apply_update st ad l) (data w) in
   Q (Some (apply_update st ad l))
     (mkWorld d' (trace w ++ [Saved d']) (uuid_n w))) ->
  wp (updateMedicationLogStatus (Log.id l) st ad) w Q.
Proof.
  intros Hnd Hj HQ. unfold wp, eval, exec.
  rewrite updateMedicationLogStatus_run, (find_by_id_unique _ j l) by done.
  exact HQ.
Qed.

(** X6: a postback that names no record of today is dropped in silence. For
    a registered sender, an acknowledge or a snooze whose schedule identifier
    is missing or has no record of today (a button of another day, an
    unknown schedule), and a postback with any other action, change nothing
    and send nothing, not even a reply; the handler still reports success
    with the action it read. *)
Theorem postback_without_record_is_silent (today : string) (now : Z)
    (userId : string) (action scheduleId : option string) (reported : Z)
    (w : World) (u : User.t) :
  eval (getUserByLineId userId) w = Some u ->
  (forall sid, scheduleId = Some sid -> today_record (data w) sid today = None)
  \/ (action <> Some "taken" /\ action <> Some "snooze") ->
  handleWebhookEvent today now (Postback userId action scheduleId reported) w
  = (mkResult true action, w).
Proof.
  intros Hu Hcase. unfold handleWebhookEvent.
  rewrite run_bind, (ensure_user_known _ _ _ _ u Hu).
  rewrite run_bind, run_unit.
  assert (Htaken : exec (when (bool_decide (action = Some "taken"))
                           (handle_taken today now userId scheduleId reported)) w
                   = w).
  { destruct Hcase as [Hnone|[Hnt _]]; [by apply when_taken_no_record|].
    by rewrite bool_decide_eq_false_2. }
  rewrite Htaken, run_bind, run_unit.
  assert (Hsnooze : exec (when (bool_decide (action = Some "snooze"))
                            (handle_snooze today now userId scheduleId reported)) w
                    = w).
  { destruct Hcase as [Hnone|[_ Hns]]; [by apply when_snooze_no_record|].
    by rewrite bool_decide_eq_false_2. }
  by rewrite Hsnooze.
Qed.

(** The hint that follows the confirmation of the western medicine of
    breakfast. *)
Definition herbal_hint (d : Data) (sid userId : string) (ok : bool)
    : list Event :=
  match snd <$> list_find (λ s, Schedule.id s = sid) (schedules d) with
  | Some sch =>
      if bool_decide (Schedule.meal_type sch = "早餐後（西藥）")
      then [Push userId (TextMessage TxtHerbalHint) ok]
      else []
  | None => []
  end.

(** X7: what the two buttons do, effect by effect, for a registered sender
    and a record of today (record identifiers unique). An acknowledge saves
    the record once and then sends the confirmation, followed by the hint
    about the herbal medicine exactly when the schedule is the western
    medicine of breakfast. A snooze saves the record as SNOOZED and sends
    the note with the new count while that count is below three; from three
    on it saves twice (SNOOZED, then MISSED) and sends the notice that the
    maximum is exceeded, every time it is pressed. *)
Theorem button_replies (today : string) (now : Z) (userId sid : string)
    (reported : Z) (w : World) (u : User.t) (j : nat) (l : Log.t) :
  eval (getUserByLineId userId) w = Some u ->
  unique_log_ids (data w) ->
  today_record (data w) sid today = Some (j, l) ->
  let n := length (trace w) in
  let snoozed := apply_update SNOOZED
                   (mkAdditional None (Some (reported + 1)) (Some now)) l in
  emitted (handleWebhookEvent today now
             (Postback userId (Some "taken") (Some sid) reported)) w
  = Saved (set_log j (taken_now reported now l) (data w))
    :: Push userId (TextMessage TxtRecorded) (push_ok (S n))
    :: herbal_hint (data w) sid userId (push_ok (S (S n)))
  /\ emitted (handleWebhookEvent today now
                (Postback userId (Some "snooze") (Some sid) reported)) w
     = (if bool_decide (reported + 1 < 3) then
          [Saved (set_log j snoozed (data w));
           Push userId (TextMessage (TxtSnoozed (reported + 1))) (push_ok (S n))]
        else
          [Saved (set_log j snoozed (data w));
           Saved (set_log j (snooze_now reported now l) (data w));
           Push userId (TextMessage TxtExceeded) (push_ok (S (S n)))]).
Proof.
  intros Hu Hnd Hl n snoozed.
  pose proof (today_record_lookup _ _ _ _ _ Hl) as (Hj & _).
  unfold today_record in Hl. split.
  - apply trace_emitted.
    change (wp (handleWebhookEvent today now
                  (Postback userId (Some "taken") (Some sid) reported)) w
              (λ _ w', trace w' = trace w ++
                 Saved (set_log j (taken_now reported now l) (data w))
                 :: Push userId (TextMessage TxtRecorded) (push_ok (S n))
                 :: herbal_hint (data w) sid userId (push_ok (S (S n))))).
    unfold handleWebhookEvent. apply wp_bind.
    apply (wp_ensure_user_known _ _ _ _ u); [done|]. cbv beta.
    rewrite (bool_decide_eq_true_2 (Some "taken" = Some "taken")) by done.
    rewrite (bool_decide_eq_false_2 (Some "taken" = Some "snooze")) by done.
    wp_step. wp_step. unfold handle_taken, with_id. wp_steps.
    rewrite Hl. cbn [fmap option_fmap option_map snd]. wp_steps.
    apply (wp_update_unique _ j l); [done|done|]. cbv zeta. wp_steps.
    cbn [data trace uuid_n schedules set_log]. unfold herbal_hint. subst n.
    destruct (snd <$> list_find _ _) as [sch|]; [case_bool_decide|];
      wp_steps; trace_done.
  - apply trace_emitted.
    set (new := if bool_decide (reported + 1 < 3) then _ else _).
    change (wp (handleWebhookEvent today now
                  (Postback userId (Some "snooze") (Some sid) reported)) w
              (λ _ w', trace w' = trace w ++ new)).
    unfold handleWebhookEvent. apply wp_bind.
    apply (wp_ensure_user_known _ _ _ _ u); [done|]. cbv beta.
    rewrite (bool_decide_eq_false_2 (Some "snooze" = Some "taken")) by done.
    rewrite (bool_decide_eq_true_2 (Some "snooze" = Some "snooze")) by done.
    wp_step. wp_step. wp_step. wp_step.
    unfold handle_snooze, with_id. cbv zeta. wp_steps.
    rewrite Hl. cbn [fmap option_fmap option_map snd]. wp_steps.
    apply (wp_update_unique _ j l); [done|done|]. cbv zeta. fold snoozed.
    subst new. case_bool_decide; wp_steps.
    + subst n. trace_done.
    + assert (Hid : Log.id l = Log.id snoozed)
        by (symmetry; apply apply_update_id).
      rewrite Hid. apply (wp_update_unique _ j snoozed).
      * cbn [data]. by apply (set_log_unique _ _ l).
      * cbn. apply list_lookup_insert_eq. by eapply lookup_lt_Some.
      * cbv zeta. wp_steps. cbn [data trace uuid_n].
        rewrite set_log_twice. unfold snooze_now. cbv zeta.
        rewrite (bool_decide_eq_false_2 (reported + 1 < 3)) by done.
        subst n. trace_done.
Qed.

(** ** Text messages *)

(** A row of the status reply: the meal type of the schedule and the status
    of its record of today, if it has one. *)
Definition status_of (d : Data) (today : string) (s : Schedule.t)
    : string * option Status :=
  (Schedule.meal_type s,
   Log.status <$> (snd <$> today_record d (Schedule.id s) today)).

Lemma status_rows_run today ss w :
  status_rows today ss w = (status_of (data w) today <$> ss, w).
Proof.
  induction ss as [|s ss IH]; [done|].
  cbn [status_rows]. rewrite run_bind.
  change (status_row today s w) with (status_of (data w) today s, w).
  cbv beta iota. rewrite run_bind, IH. reflexivity.
Qed.

Lemma wp_status_rows today ss w
    (Q : list (string * option Status) -> World -> Prop) :
  Q (status_of (data w) today <$> ss) w -> wp (status_rows today ss) w Q.
Proof. intros HQ. unfold wp, eval, exec. by rewrite status_rows_run. Qed.

Definition to_sender (userId : string) (e : Event) : Prop :=
  exists m ok, e = Push userId m ok.

(** X8: a text from a registered sender, other than the set-up command, only
    reads the store. The handler answers with at least one push, every push
    goes to the sender, nothing is saved and no identifier is drawn; for the
    status command the one reply carries one row per schedule of the user,
    in the order of the store, with the status of its record of today or
    none. *)
Theorem text_of_registered_user_reads_only (today : string) (now : Z)
    (userId text : string) (w : World) (u : User.t) :
  eval (getUserByLineId userId) w = Some u ->
  is_one_of text "設定提醒" "/setup" = false ->
  eval (handleWebhookEvent today now (TextEvent userId text)) w
  = mkResult true (Some "text")
  /\ data (exec (handleWebhookEvent today now (TextEvent userId text)) w) = data w
  /\ uuid_n (exec (handleWebhookEvent today now (TextEvent userId text)) w)
     = uuid_n w
  /\ emitted (handleWebhookEvent today now (TextEvent userId text)) w <> []
  /\ Forall (to_sender userId)
            (emitted (handleWebhookEvent today now (TextEvent userId text)) w)
  /\ (is_one_of text "查詢提醒" "/status" = true ->
      emitted (handleWebhookEvent today now (TextEvent userId text)) w
      = [Push userId
           (TextMessage
              (TxtStatus
                 (status_of (data w) today <$>
                  filter (λ s, Schedule.user_id s = User.id u)
                         (schedules (data w)))))
           (push_ok (length (trace w)))]).
Proof.
  intros Hu Hsetup.
  cut (wp (handleWebhookEvent today now (TextEvent userId text)) w
         (λ r w', r = mkResult true (Some "text")
            /\ data w' = data w /\ uuid_n w' = uuid_n w
            /\ exists new, trace w' = trace w ++ new
                 /\ new <> [] /\ Forall (to_sender userId) new
                 /\ (is_one_of text "查詢提醒" "/status" = true ->
                     new = [Push userId
                              (TextMessage
                                 (TxtStatus
                                    (status_of (data w) today <$>
                                     filter (λ s, Schedule.user_id s = User.id u)
                                            (schedules (data w)))))
                              (push_ok (length (trace w)))]))).
  { unfold wp. intros (Hr & Hd & Hn & new & Htr & Hne & Hall & Hstatus).
    rewrite (trace_emitted _ _ _ Htr). by repeat split. }
  unfold handleWebhookEvent. apply wp_bind.
  apply (wp_ensure_user_known _ _ _ _ u); [done|]. cbv beta.
  unfold handle_text. rewrite Hsetup.
  assert (Hpush : forall m ok, to_sender userId (Push userId m ok))
    by (intros m ok; by exists m, ok).
  destruct (is_one_of text "查詢提醒" "/status") eqn:Hstatus;
    [|destruct (is_one_of text "測試" "/test");
      [|destruct (is_one_of text "說明" "/help")]].
  - wp_steps. apply wp_status_rows. wp_steps.
    repeat (split; [done|]). eexists. split; [done|].
    split; [done|]. split; [|done]. repeat constructor. apply Hpush.
  - wp_steps. repeat (split; [done|]). eexists. split; [trace_done|].
    split; [done|]. split; [|done]. repeat constructor; apply Hpush.
  - wp_steps. repeat (split; [done|]). eexists. split; [done|].
    split; [done|]. split; [|done]. repeat constructor; apply Hpush.
  - wp_steps. repeat (split; [done|]). eexists. split; [done|].
    split; [done|]. split; [|done]. repeat constructor; apply Hpush.
Qed.

(** ** The default schedules *)

(** The four schedules that one call of [setupDefaultSchedules] creates,
    with the identifiers it draws for them. *)
Definition default_schedules (now : Z) (userId : string)
    (id1 id2 id3 id4 : string) : list Schedule.t :=
  [ Schedule.mk id1 userId "早餐後（西藥）" "08:00" ["高血壓（西藥）"]
                false None 60 now;
    Schedule.mk id2 userId "早餐後（中藥）" "09:00" ["高血壓（中藥）"]
                true (nonempty (Some id1)) 60 now;
    Schedule.mk id3 userId "午餐後" "13:00" ["高血壓（中藥）"] false None 60 now;
    Schedule.mk id4 userId "晚餐後" "19:00" ["高血壓（中藥）"] false None 60 now ].

Definition pending_record (id sid uid date : string) (now : Z) : Log.t :=
  Log.mk id sid uid date PENDING 0 None None now.

(** The world after the four [createSchedule] calls. *)
Definition schedules_added (now : Z) (userId : string) (w : World) : World :=
  let n := uuid_n w in
  let ss := default_schedules now userId (uuidv4 n) (uuidv4 (S n))
              (uuidv4 (S (S n))) (uuidv4 (S (S (S n)))) in
  let d k := mkData (users (data w)) (schedules (data w) ++ take k ss)
                    (logs_of w) in
  mkWorld (d 4%nat)
          (trace w ++ [Saved (d 1%nat); Saved (d 2%nat); Saved (d 3%nat);
                       Saved (d 4%nat)])
          (S (S (S (S n)))).

Definition four_records (today : string) (now : Z) (userId : string)
    (n : nat) : M unit :=
  createMedicationLog now (uuidv4 n) userId today;;
  createMedicationLog now (uuidv4 (S n)) userId today;;
  createMedicationLog now (uuidv4 (S (S n))) userId today;;
  createMedicationLog now (uuidv4 (S (S (S n)))) userId today;;
  ret tt.

Lemma setupDefaultSchedules_split today now userId w :
  exec (setupDefaultSchedules today now userId) w
  = exec (four_records today now userId (uuid_n w))
         (schedules_added now userId w).
Proof.
  unfold setupDefaultSchedules, four_records, schedules_added.
  rewrite exec_bind. change (exec (getSchedulesByUserId userId) w) with w.
  cbv beta. destruct w as [[us ss ls] tr n].
  rewrite !exec_bind. unfold eval, exec. rewrite !createSchedule_run.
  unfold add_schedule.
  cbn [fst snd data trace uuid_n users schedules medicationLogs add_schedule
       Schedule.id default_schedules take isSecondDoseOpt linkedScheduleIdOpt
       linkDelayMinutesOpt no_options default or_default nonempty].
  rewrite <- !app_assoc. reflexivity.
Qed.

Lemma today_record_add_log d l sid date :
  today_record d sid date = None -> ~ log_matches sid date l ->
  today_record (add_log l d) sid date = None.
Proof.
  unfold today_record. intros Hnone Hl. cbn.
  apply list_find_None in Hnone.
  apply list_find_None. apply Forall_app. split; [done|].
  by repeat constructor.
Qed.

Ltac in_list :=
  repeat first [by (apply elem_of_cons; left) | (apply elem_of_cons; right)].

Lemma exec_createMedicationLog_new now sid uid date w :
  today_record (data w) sid date = None ->
  exec (createMedicationLog now sid uid date) w
  = let l := pending_record (uuidv4 (uuid_n w)) sid uid date now in
    mkWorld (add_log l (data w)) (trace w ++ [Saved (add_log l (data w))])
            (S (uuid_n w)).
Proof.
  intros Hnone. unfold exec. by rewrite createMedicationLog_run, Hnone.
Qed.

Lemma setupDefaultSchedules_catalog today now userId w :
  users (data (exec (setupDefaultSchedules today now userId) w)) = users (data w)
  /\ schedules (data (exec (setupDefaultSchedules today now userId) w))
     = schedules (data w)
       ++ default_schedules now userId (uuidv4 (uuid_n w))
            (uuidv4 (S (uuid_n w))) (uuidv4 (S (S (uuid_n w))))
            (uuidv4 (S (S (S (uuid_n w))))).
Proof.
  rewrite setupDefaultSchedules_split.
  set (w4 := schedules_added now userId w).
  assert (Hlog : forall (J : Data -> nat -> Prop),
             log_ok J -> keeps J (four_records today now userId (uuid_n w))).
  { intros J HJ. unfold four_records. repeat keeps_step. }
  split.
  - apply (Hlog (λ d _, users d = users (data w))); [|done].
    by intros d k l _ _ _ _ _ _ H.
  - apply (Hlog (λ d _, schedules d = schedules (data w4))); [|done].
    by intros d k l _ _ _ _ _ _ H.
Qed.

(** X9: [setupDefaultSchedules] only ever appends. Every call, for a user
    with schedules or without, adds the same four schedules under four new
    identifiers (the herbal medicine of breakfast linked to the western one
    of the same call) and leaves the users, the schedules and the records
    that were there as they were. When the four identifiers are distinct and
    have no record of today yet, it also appends one PENDING record of today
    for each of them, so it draws eight identifiers. *)
Theorem setupDefaultSchedules_appends (today : string) (now : Z)
    (userId : string) (w : World) :
  let n := uuid_n w in
  let w' := exec (setupDefaultSchedules today now userId) w in
  let ids := [uuidv4 n; uuidv4 (S n); uuidv4 (S (S n)); uuidv4 (S (S (S n)))] in
  users (data w') = users (data w)
  /\ schedules (data w')
     = schedules (data w)
       ++ default_schedules now userId (uuidv4 n) (uuidv4 (S n))
            (uuidv4 (S (S n))) (uuidv4 (S (S (S n))))
  /\ (forall i l, logs_of w !! i = Some l -> logs_of w' !! i = Some l)
  /\ (NoDup ids ->
      (forall sid, sid ∈ ids -> today_record (data w) sid today = None) ->
      logs_of w'
      = logs_of w
        ++ [ pending_record (uuidv4 (4 + n)) (uuidv4 n) userId today now;
             pending_record (uuidv4 (5 + n)) (uuidv4 (S n)) userId today now;
             pending_record (uuidv4 (6 + n)) (uuidv4 (S (S n))) userId today now;
             pending_record (uuidv4 (7 + n)) (uuidv4 (S (S (S n)))) userId
                            today now ]
      /\ uuid_n w' = (8 + n)%nat).
Proof.
  intros n w' ids. subst w'. rewrite setupDefaultSchedules_split.
  set (w4 := schedules_added now userId w).
  assert (Hlog : forall (J : Data -> nat -> Prop),
             log_ok J -> keeps J (four_records today now userId n)).
  { intros J HJ. unfold four_records. repeat keeps_step. }
  destruct (setupDefaultSchedules_catalog today now userId w) as [Hus Hss].
  rewrite setupDefaultSchedules_split in Hus, Hss. fold w4 in Hus, Hss.
  split; [done|split; [done|split]].
  - intros i l Hi.
    destruct (Hlog (evolved_from eq (data w4)) (evolved_log_ok eq (data w4)) w4
                (evolved_refl eq (data w4) (λ l, eq_refl)) i l Hi)
      as (l' & Hl' & ->).
    exact Hl'.
  - intros Hnd Hfresh.
    apply NoDup_cons in Hnd as [H1 Hnd]. apply NoDup_cons in Hnd as [H2 Hnd].
    apply NoDup_cons in Hnd as [H3 _].
    assert (N12 : uuidv4 n <> uuidv4 (S n))
      by (intros E; apply H1; rewrite E; in_list).
    assert (N13 : uuidv4 n <> uuidv4 (S (S n)))
      by (intros E; apply H1; rewrite E; in_list).
    assert (N14 : uuidv4 n <> uuidv4 (S (S (S n))))
      by (intros E; apply H1; rewrite E; in_list).
    assert (N23 : uuidv4 (S n) <> uuidv4 (S (S n)))
      by (intros E; apply H2; rewrite E; in_list).
    assert (N24 : uuidv4 (S n) <> uuidv4 (S (S (S n))))
      by (intros E; apply H2; rewrite E; in_list).
    assert (N34 : uuidv4 (S (S n)) <> uuidv4 (S (S (S n))))
      by (intros E; apply H3; rewrite E; in_list).
    assert (Hne : forall a b uid k, a <> b ->
               ~ log_matches a today (pending_record k b uid today now)).
    { intros a b uid k Hab [Hsid _]. by apply Hab. }
    unfold four_records. rewrite !exec_bind, exec_ret.
    rewrite (exec_createMedicationLog_new now (uuidv4 n))
      by (apply Hfresh; subst ids; in_list).
    cbv zeta. cbn [data uuid_n trace].
    rewrite (exec_createMedicationLog_new now (uuidv4 (S n))).
    2:{ cbn [data uuid_n trace]. apply today_record_add_log.
        - apply Hfresh; subst ids; in_list.
        - apply Hne; congruence. }
    cbv zeta. cbn [data uuid_n trace].
    rewrite (exec_createMedicationLog_new now (uuidv4 (S (S n)))).
    2:{ cbn [data uuid_n trace]. repeat apply today_record_add_log.
        - apply Hfresh; subst ids; in_list.
        - apply Hne; congruence.
        - apply Hne; congruence. }
    cbv zeta. cbn [data uuid_n trace].
    rewrite (exec_createMedicationLog_new now (uuidv4 (S (S (S n))))).
    2:{ cbn [data uuid_n trace]. repeat apply today_record_add_log.
        - apply Hfresh; subst ids; in_list.
        - apply Hne; congruence.
        - apply Hne; congruence.
        - apply Hne; congruence. }
    cbv zeta. cbn [data uuid_n trace medicationLogs add_log].
    rewrite <- !app_assoc. done.
Qed.

(** ** The daily initializer *)

(** X10: what [initDailySchedule] leaves behind. After it, every schedule of
    every registered user has a record of the day; the users, the schedules
    and the records that were there are as they were, in their places; and
    every record it added is PENDING with no reminder sent and no time of
    intake. *)
Theorem initDailySchedule_completes_the_day (today : string) (now : Z)
    (w : World) :
  let w' := exec (initDailySchedule today now) w in
  (forall u s, u ∈ users (data w) -> s ∈ schedules (data w) ->
               Schedule.user_id s = User.id u ->
               has_record today (Schedule.id s) (data w'))
  /\ users (data w') = users (data w)
  /\ schedules (data w') = schedules (data w)
  /\ (forall i l, logs_of w !! i = Some l -> logs_of w' !! i = Some l)
  /\ (forall i l, logs_of w' !! i = Some l -> (length (logs_of w) <= i)%nat ->
        Log.status l = PENDING /\ Log.retry_count l = 0
        /\ Log.last_reminded_at l = None /\ Log.taken_at l = None).
Proof.
  cbv zeta. destruct (initDailySchedule_catalog today now w) as [Hus Hss].
  split; [|split; [done|split; [done|split]]].
  - intros u s. apply initDailySchedule_covers.
  - intros i l Hi.
    destruct (initDailySchedule_appends today now w i l Hi) as (l' & Hl' & ->).
    exact Hl'.
  - set (new_pending := λ (d : Data) (_ : nat),
           forall i l, medicationLogs d !! i = Some l ->
                       (length (logs_of w) <= i)%nat ->
                       Log.status l = PENDING /\ Log.retry_count l = 0
                       /\ Log.last_reminded_at l = None
                       /\ Log.taken_at l = None).
    apply (keeps_initDailySchedule new_pending).
    + intros d k l _ Hst Hrc Hlr Hta _ Hd i l' Hi Hlen. cbn in Hi.
      apply lookup_app_Some in Hi as [Hi|[_ Hi]]; [by apply (Hd i)|].
      apply list_lookup_singleton_Some in Hi as [_ <-]. done.
    + intros i l Hi Hlen. apply lookup_lt_Some in Hi. lia.
Qed.

(** ** Nothing is deleted *)

Lemma lookup_snoc_Some {A} (xs : list A) (x y : A) i :
  xs !! i = Some y -> (xs ++ [x]) !! i = Some y.
Proof. apply lookup_app_l_Some. Qed.

(** Every user, schedule and record of [d0] is still at its place in [d];
    users and schedules as they were, records with the same key. *)
Definition retained (d0 d : Data) : Prop :=
  (forall i u, users d0 !! i = Some u -> users d !! i = Some u)
  /\ (forall i s, schedules d0 !! i = Some s -> schedules d !! i = Some s)
  /\ evolved same_key d0 d.

(** X11: no entry point deletes or replaces a user or a schedule, or moves a
    record. Along every run of scheduler jobs and webhook events each user
    and each schedule stays at its index exactly as it was, and each record
    stays at its index with the same identifier, schedule, user, date and
    creation time; so a schedule, once created, is there for good. *)
Theorem nothing_is_ever_deleted (steps : list Step) (w : World) :
  retained (data w) (data (exec (run steps) w)).
Proof.
  apply (keeps_run (λ d _, retained (data w) d)).
  - intros d n u _ (Hu & Hs & Hl). split; [|done].
    intros i u0 Hi. cbn. by apply lookup_snoc_Some, Hu.
  - intros d n s _ (Hu & Hs & Hl). split; [done|split; [|done]].
    intros i s0 Hi. cbn. by apply lookup_snoc_Some, Hs.
  - intros d n l _ _ _ _ _ _ (Hu & Hs & Hl). split; [done|split; [done|]].
    intros i l0 Hi. destruct (Hl i l0 Hi) as (l' & Hl' & Hkey).
    exists l'. split; [|done]. cbn. by apply lookup_snoc_Some.
  - intros d n i l st ad Hi _ (Hu & Hs & Hl). split; [done|split; [done|]].
    intros k l0 Hk. destruct (Hl k l0 Hk) as (l' & Hl' & Hkey).
    destruct (decide (k = i)) as [->|Hne].
    + exists (apply_update st ad l). split.
      * cbn. apply list_lookup_insert_eq. by eapply lookup_lt_Some.
      * assert (l' = l) as -> by congruence.
        eapply same_key_trans; [exact Hkey|apply apply_update_same_key].
    + exists l'. split; [|done]. cbn. by rewrite list_lookup_insert_ne.
  - split; [done|split; [done|]]. apply evolved_refl, same_key_refl.
Qed.

(** * The trace of an entry point *)

(** A property of the world that every entry point keeps, given that a push
    and a write of the store keep it. *)
Definition holds (I : World -> Prop) {A} (m : M A) : Prop :=
  forall w, I w -> I (exec m w).

Section Holds.

Variable I : World -> Prop.

Hypothesis I_push : forall w to msg ok,
  I w -> I (mkWorld (data w) (trace w ++ [Push to msg ok]) (uuid_n w)).

(** A store operation that changes the cache writes it to the file. *)
Hypothesis I_write : forall w d n,
  I w -> I (mkWorld d (trace w ++ [Saved d]) n).

Lemma holds_ret {A} (a : A) : holds I (ret a).
Proof. by intros w. Qed.

Lemma holds_bind {A B} (m : M A) (k : A -> M B) :
  holds I m -> (forall a, holds I (k a)) -> holds I (m ≫= k).
Proof. intros Hm Hk w Hw. rewrite exec_bind. by apply Hk, Hm. Qed.

Lemma holds_when (b : bool) (m : M unit) :
  (b = true -> holds I m) -> holds I (when b m).
Proof. destruct b; [auto|intros _; apply holds_ret]. Qed.

Lemma holds_with_id {A} sid (lookup : string -> M (option A)) :
  (forall x, holds I (lookup x)) -> holds I (with_id sid lookup).
Proof. intros H. destruct sid; [apply H|apply holds_ret]. Qed.

Lemma holds_for_each {A} (xs : list A) (body : A -> M unit) :
  (forall x, holds I (body x)) -> holds I (for_each xs body).
Proof.
  intros Hbody w Hw. apply (for_each_invariant I); [|done].
  intros x w' _. apply Hbody.
Qed.

Lemma holds_read {A} (m : M A) : (forall w, exec m w = w) -> holds I m.
Proof. intros Hm w Hw. by rewrite Hm. Qed.

Lemma holds_push to msg : holds I (push to msg).
Proof. intros w Hw. by apply I_push. Qed.

Lemma holds_saveDatabase : holds I saveDatabase.
Proof. intros w Hw. by apply (I_write w (data w) (uuid_n w)). Qed.

Lemma holds_createUser now line name : holds I (createUser now line name).
Proof.
  intros w Hw. unfold exec. rewrite createUser_run.
  destruct (snd <$> list_find _ _); [done|]. by apply I_write.
Qed.

Lemma holds_createSchedule now uid mealType time meds options :
  holds I (createSchedule now uid mealType time meds options).
Proof. intros w Hw. unfold exec. rewrite createSchedule_run. by apply I_write. Qed.

Lemma holds_createMedicationLog now sid uid date :
  holds I (createMedicationLog now sid uid date).
Proof.
  intros w Hw. unfold exec. rewrite createMedicationLog_run.
  destruct (snd <$> today_record _ _ _); [done|]. by apply I_write.
Qed.

Lemma holds_updateMedicationLogStatus logId st ad :
  holds I (updateMedicationLogStatus logId st ad).
Proof.
  intros w Hw. unfold exec. rewrite updateMedicationLogStatus_run.
  destruct (find_by_id _ _) as [[i l]|]; [|done]. by apply I_write.
Qed.

Ltac holds_step :=
  lazymatch goal with
  | |- holds _ (ret _) => apply holds_ret
  | |- holds _ (mbind _ _) => apply holds_bind; [|intros ?]
  | |- holds _ (when _ _) => apply holds_when; intros ?
  | |- holds _ (with_id _ _) => apply holds_with_id; intros ?
  | |- holds _ (for_each _ _) => apply holds_for_each; intros ?
  | |- holds _ saveDatabase => apply holds_saveDatabase
  | |- holds _ getAllUsers => by apply holds_read
  | |- holds _ (getUserByLineId _) => by apply holds_read
  | |- holds _ (getScheduleById _) => by apply holds_read
  | |- holds _ (getSchedulesByUserId _) => by apply holds_read
  | |- holds _ (getMedicationLogByScheduleAndDate _ _) => by apply holds_read
  | |- holds _ (getPendingLogsForDate _) => by apply holds_read
  | |- holds _ (push _ _) => apply holds_push
  | |- holds _ (sendTextMessage _ _) => apply holds_push
  | |- holds _ (sendReminderMessage _ _) => apply holds_push
  | |- holds _ (createUser _ _ _) => apply holds_createUser
  | |- holds _ (createSchedule _ _ _ _ _ _) => apply holds_createSchedule
  | |- holds _ (createMedicationLog _ _ _ _) => apply holds_createMedicationLog
  | |- holds _ (updateMedicationLogStatus _ _ _) =>
      apply holds_updateMedicationLogStatus
  | |- holds _ (match ?x with _ => _ end) => destruct x eqn:?
  end.

Lemma holds_setupDefaultSchedules today now userId :
  holds I (setupDefaultSchedules today now userId).
Proof. unfold setupDefaultSchedules. repeat holds_step. Qed.

Lemma holds_status_rows today schedules : holds I (status_rows today schedules).
Proof. apply holds_read. intros w. unfold exec. by rewrite status_rows_run. Qed.

Lemma holds_handleWebhookEvent today now event :
  holds I (handleWebhookEvent today now event).
Proof.
  unfold handleWebhookEvent, ensure_user, handle_taken, handle_snooze,
    handle_text.
  cbv zeta.
  repeat lazymatch goal with
    | |- holds _ (setupDefaultSchedules _ _ _) =>
        apply holds_setupDefaultSchedules
    | |- holds _ (status_rows _ _) => apply holds_status_rows
    | |- _ => holds_step
    end.
Qed.

Lemma holds_run_job job : holds I (run_job job).
Proof.
  destruct job; cbn [run_job];
    unfold initDailySchedule, init_user, init_schedule,
      sendReminderForMealType, remind_user, checkAndSendReminders, check_user,
      check_schedule, checkRetryNeeded, retry_log;
    cbv zeta; repeat holds_step.
Qed.

Lemma holds_run steps : holds I (run steps).
Proof.
  apply holds_for_each. intros [job|today now event]; cbn [run_step].
  - apply holds_run_job.
  - apply holds_bind; [apply holds_handleWebhookEvent|intros ?; apply holds_ret].
Qed.

End Holds.

(** The content of the file after the writes of a trace, [file] being its
    content before: every [saveDatabase] replaces it by the cache. *)
Definition file_after (file : Data) (tr : list Event) : Data :=
  fold_left (λ f e, match e with Saved d => d | Push _ _ _ => f end) tr file.

(** X12: the file follows the cache. Every store operation that changes the
    cache writes it out before it returns, so if file and cache agree before
    a run of scheduler jobs and webhook events, the last write of the run
    carries the cache as it is at the end: no change is left unsaved. *)
Theorem file_follows_the_cache (file : Data) (steps : list Step) (w : World) :
  file_after file (trace w) = data w ->
  file_after file (trace (exec (run steps) w)) = data (exec (run steps) w).
Proof.
  apply (holds_run (λ w, file_after file (trace w) = data w)).
  - intros w' to msg ok Hw'. unfold file_after in *. cbn.
    by rewrite fold_left_app.
  - intros w' d n _. unfold file_after. cbn. by rewrite fold_left_app.
Qed.

(** * A reminder and the buttons it carries *)

(** The reminder of a round of [sendReminderForMealType] for a record that
    is due: it shows the stored count, and the record is saved with the
    count raised by one right after it. *)
Lemma reminder_in_round today mealType u s j now w l :
  unique_ids (data w) -> on_target today mealType u s j (data w) l ->
  is_open (Log.status l) = true -> Log.retry_count l < 3 ->
  exists pre post,
    emitted (sendReminderForMealType today now mealType) w
    = pre
      ++ [Push (User.line_user_id u)
               (Flex (reminder_info s (Log.retry_count l)))
               (push_ok (length (trace w ++ pre)))]
      ++ post.
Proof.
  intros Hwf Htgt Hopen Hlt.
  unfold emitted. rewrite exec_sendReminderForMealType.
  pose proof Htgt as (Hu & _). pose proof Hwf as (Hnu & _).
  apply list_elem_of_split in Hu as (us1 & us2 & Hus).
  rewrite Hus in Hnu |- *. rewrite fmap_app, fmap_cons in Hnu.
  apply NoDup_app in Hnu as (_ & Hnot1 & Hnu2).
  apply NoDup_cons in Hnu2 as (Hnot2 & _).
  assert (Hothers : forall u', u' ∈ us1 ++ us2 ->
            u' ∈ users (data w) /\ User.id u' <> User.id u).
  { intros u' [H1|H2]%elem_of_app; rewrite Hus; split.
    - apply elem_of_app. by left.
    - intros Heq. apply (Hnot1 (User.id u')).
      + apply list_elem_of_fmap. by exists u'.
      + rewrite Heq. by left.
    - apply elem_of_app. right. by right.
    - intros Heq. apply Hnot2. rewrite <- Heq.
      apply list_elem_of_fmap. by exists u'. }
  rewrite exec_for_each_app, exec_for_each_cons.
  destruct (remind_others today mealType u s j now us1 w l Hwf Htgt)
    as (new1 & Htr1 & _ & _ & Hrw1 & Hj1).
  { intros u' Hu'. apply Hothers, elem_of_app. by left. }
  set (w1 := exec (for_each us1 (remind_user today now mealType)) w) in *.
  assert (Hwf1 : unique_ids (data w1)) by (by eapply rewrites_unique_ids).
  assert (Htgt1 : on_target today mealType u s j (data w1) l)
    by (by eapply on_target_rewrites).
  destruct (remind_target today mealType u s j now w1 l Hwf1 Htgt1)
    as (new2 & _ & _ & _ & Hrw2 & Hj2).
  pose proof Htgt1 as (_ & Hs1 & Hl1).
  pose proof (remind_user_exact today now mealType u w1 s j l
                (proj2 (proj2 (proj2 Hwf1))) Hs1 Hl1) as Hexact.
  unfold remind_user_result in Hexact. rewrite Hopen in Hexact.
  rewrite (bool_decide_eq_false_2 (3 <= Log.retry_count l)) in Hexact by lia.
  cbn [negb] in Hexact.
  set (w2 := exec (remind_user today now mealType u) w1) in *.
  assert (Hwf2 : unique_ids (data w2)) by (by eapply rewrites_unique_ids).
  assert (Htgt2 : on_target today mealType u s j (data w2)
                    (record_step now l))
    by (by eapply on_target_rewrites).
  destruct (remind_others today mealType u s j now us2 w2 _ Hwf2 Htgt2)
    as (new3 & Htr3 & _).
  { intros u' Hu'. destruct (Hothers u') as [Hin Hne].
    - apply elem_of_app. by right.
    - split; [|done]. destruct Hrw2 as (-> & _), Hrw1 as (-> & _). done. }
  exists new1, (Saved (set_log j (snoozed_now now l) (data w1)) :: new3).
  rewrite Htr3, Hexact. cbn [trace]. rewrite Htr1.
  rewrite <- !app_assoc. rewrite drop_app_length. done.
Qed.

(** X13: the buttons of a cron reminder are one behind the store. A round of
    [sendReminderForMealType] that finds a record due (open, fewer than three
    reminders) pushes a reminder whose buttons carry the stored count and
    then raises the stored count by one. An acknowledge through that button
    therefore writes the count of the button back: the record becomes TAKEN
    with the counter one lower than the store held; a snooze through it
    leaves the counter where the store had it. *)
Theorem buttons_of_a_cron_reminder (today mealType : string) (u : User.t)
    (s : Schedule.t) (j : nat) (now now' : Z) (w : World) (l : Log.t) :
  unique_ids (data w) ->
  on_target today mealType u s j (data w) l ->
  is_open (Log.status l) = true ->
  Log.retry_count l < 3 ->
  let r := Log.retry_count l in
  let w1 := exec (sendReminderForMealType today now mealType) w in
  let button action :=
    Postback (User.line_user_id u) (Some action) (Some (Schedule.id s)) r in
  (exists ok, Push (User.line_user_id u) (Flex (reminder_info s r)) ok
              ∈ emitted (sendReminderForMealType today now mealType) w)
  /\ (exists l1, logs_of w1 !! j = Some l1
                 /\ Log.status l1 = SNOOZED /\ Log.retry_count l1 = r + 1)
  /\ (exists l2, logs_of (exec (handleWebhookEvent today now' (button "taken"))
                               w1) !! j = Some l2
                 /\ Log.status l2 = TAKEN /\ Log.retry_count l2 = r)
  /\ (exists l3, logs_of (exec (handleWebhookEvent today now' (button "snooze"))
                               w1) !! j = Some l3
                 /\ Log.status l3 = (if bool_decide (r + 1 < 3) then SNOOZED
                                     else MISSED)
                 /\ Log.retry_count l3 = r + 1).
Proof.
  intros Hwf Htgt Hopen Hlt r w1 button.
  destruct (reminder_in_round today mealType u s j now w l Hwf Htgt Hopen Hlt)
    as (pre & post & Hem).
  destruct (evaluation_effect today mealType u s j now w l Hwf Htgt)
    as (new & _ & _ & _ & Hwf1 & Htgt1).
  fold w1 in Hwf1, Htgt1.
  assert (Hstep : record_step now l = snoozed_now now l).
  { unfold record_step. rewrite Hopen. cbn [negb].
    by rewrite (bool_decide_eq_false_2 (3 <= Log.retry_count l)) by lia. }
  rewrite Hstep in Htgt1.
  destruct Htgt1 as (Hu1 & Hs1 & Hl1).
  pose proof (today_record_lookup _ _ _ _ _ Hl1) as (Hj1 & _).
  destruct (snoozed_now_fields now l) as (Hst1 & Hrc1).
  assert (Hknown : eval (getUserByLineId (User.line_user_id u)) w1 = Some u).
  { destruct Hwf1 as (_ & Hline & _).
    apply list_elem_of_lookup_1 in Hu1 as (i & Hi).
    change (snd <$> list_find (λ u', User.line_user_id u' = User.line_user_id u)
                      (users (data w1)) = Some u).
    assert (Hfind : list_find (λ u', User.line_user_id u' = User.line_user_id u)
                      (users (data w1)) = Some (i, u)).
    { apply list_find_Some. split; [done|]. split; [done|].
      intros k u' Hk Hlt' Heq.
      assert (k = i); [|lia].
      eapply NoDup_lookup; [exact Hline| |].
      - by rewrite list_lookup_fmap, Hk.
      - by rewrite list_lookup_fmap, Hi, Heq. }
    by rewrite Hfind. }
  assert (Hsame : exec (ensure_user today now' (User.line_user_id u)) w1 = w1).
  { unfold exec. by rewrite (ensure_user_known _ _ _ _ u Hknown). }
  split; [|split; [|split]].
  - eexists. rewrite Hem. apply elem_of_app. right. by left.
  - by exists (snoozed_now now l).
  - exists (taken_now r now' (snoozed_now now l)).
    subst button. cbv beta.
    rewrite (postback_taken today now' _ _ r w1 j (snoozed_now now l));
      rewrite ?Hsame; try done; [|apply Hwf1].
    destruct (taken_now_fields r now' (snoozed_now now l)) as (Ht & _ & Hc & _).
    split; [|done]. cbn. apply list_lookup_insert_eq. by eapply lookup_lt_Some.
  - exists (snooze_now r now' (snoozed_now now l)).
    subst button. cbv beta.
    rewrite (postback_snooze today now' _ _ r w1 j (snoozed_now now l));
      rewrite ?Hsame; try done; [|apply Hwf1].
    destruct (snooze_now_fields r now' (snoozed_now now l)) as (Ht & Hc & _).
    split; [|done]. cbn. apply list_lookup_insert_eq. by eapply lookup_lt_Some.
Qed.

(** X14: a round for one meal type leaves the rest alone. A record of another
    day, or whose schedule is not of the meal type of the round, is not
    changed by [sendReminderForMealType] (record identifiers unique). *)
Theorem reminder_round_leaves_other_records (today : string) (now : Z)
    (mealType : string) (w : World) (i : nat) (l : Log.t) :
  unique_log_ids (data w) ->
  logs_of w !! i = Some l ->
  Log.date l <> today
  \/ (forall s, s ∈ schedules (data w) -> Schedule.id s = Log.schedule_id l ->
                Schedule.meal_type s <> mealType) ->
  logs_of (exec (sendReminderForMealType today now mealType) w) !! i = Some l.
Proof.
  intros Hnd Hi Hother. rewrite exec_sendReminderForMealType.
  cut (unique_log_ids
         (data (exec (for_each (users (data w))
                        (remind_user today now mealType)) w))
       /\ schedules
            (data (exec (for_each (users (data w))
                           (remind_user today now mealType)) w))
          = schedules (data w)
       /\ logs_of (exec (for_each (users (data w))
                           (remind_user today now mealType)) w) !! i = Some l).
  { by intros (_ & _ & H). }
  apply (for_each_invariant
           (λ w', unique_log_ids (data w')
                  /\ schedules (data w') = schedules (data w)
                  /\ logs_of w' !! i = Some l)); [|done].
  intros u' w' _ (Hnd' & Hss & Hi').
  destruct (find_schedule (data w') mealType u') as [s'|] eqn:Hs';
    [|by rewrite remind_user_no_schedule].
  destruct (today_record (data w') (Schedule.id s') today) as [[j' l']|] eqn:Hl';
    [|by rewrite (remind_user_no_record _ _ _ _ _ s')].
  rewrite (remind_user_exact today now mealType u' w' s' j' l') by done.
  pose proof (today_record_lookup _ _ _ _ _ Hl') as (Hj' & Hsid' & Hdate').
  apply find_schedule_in in Hs' as (Hin' & _ & Hmeal').
  assert (Hne : j' <> i).
  { intros ->. assert (l' = l) as -> by congruence.
    destruct Hother as [Hdate|Hmeal]; [done|].
    apply (Hmeal s'); [by rewrite <- Hss|done|done]. }
  unfold remind_user_result.
  destruct (negb (is_open (Log.status l'))); [done|].
  case_bool_decide; cbn [data schedules set_log].
  - split; [by apply (set_log_unique _ _ l'); [| |apply apply_update_id]|].
    split; [done|]. cbn. by rewrite list_lookup_insert_ne.
  - split; [by apply (set_log_unique _ _ l'); [| |apply apply_update_id]|].
    split; [done|]. cbn. by rewrite list_lookup_insert_ne.
Qed.

(** * The retry counter and the buttons (C3) *)

(** The store after a round of [sendReminderForMealType] that reminded of
    the record: the record counts one more, and its user is known. *)
Lemma after_cron_reminder today mealType u s j now now' w l :
  unique_ids (data w) -> on_target today mealType u s j (data w) l ->
  is_open (Log.status l) = true -> Log.retry_count l < 3 ->
  let w1 := exec (sendReminderForMealType today now mealType) w in
  unique_log_ids (data w1)
  /\ exec (ensure_user today now' (User.line_user_id u)) w1 = w1
  /\ today_record (data w1) (Schedule.id s) today = Some (j, snoozed_now now l).
Proof.
  intros Hwf Htgt Hopen Hlt w1.
  destruct (evaluation_effect today mealType u s j now w l Hwf Htgt)
    as (new & _ & _ & _ & Hwf1 & Htgt1).
  fold w1 in Hwf1, Htgt1.
  assert (Hstep : record_step now l = snoozed_now now l).
  { unfold record_step. rewrite Hopen. cbn [negb].
    by rewrite (bool_decide_eq_false_2 (3 <= Log.retry_count l)) by lia. }
  rewrite Hstep in Htgt1. destruct Htgt1 as (Hu1 & _ & Hl1).
  split; [apply Hwf1|]. split; [|done].
  assert (Hknown : eval (getUserByLineId (User.line_user_id u)) w1 = Some u).
  { destruct Hwf1 as (_ & Hline & _).
    apply list_elem_of_lookup_1 in Hu1 as (i & Hi).
    change (snd <$> list_find (λ u', User.line_user_id u' = User.line_user_id u)
                      (users (data w1)) = Some u).
    assert (Hfind : list_find (λ u', User.line_user_id u' = User.line_user_id u)
                      (users (data w1)) = Some (i, u)).
    { apply list_find_Some. split; [done|]. split; [done|].
      intros k u' Hk Hlt' Heq.
      assert (k = i); [|lia].
      eapply NoDup_lookup; [exact Hline| |].
      - by rewrite list_lookup_fmap, Hk.
      - by rewrite list_lookup_fmap, Hi, Heq. }
    by rewrite Hfind. }
  unfold exec. by rewrite (ensure_user_known _ _ _ _ u Hknown).
Qed.

(** C3, as the code has it. The retry counter is not monotonic, and honest
    use is enough to lower it. No scheduler job lowers the counter of any
    record. But a round of [sendReminderForMealType] puts the stored count
    [r] on the buttons of the reminder and then stores [r + 1], and the
    handler stores the count of the event: the acknowledge through the
    button of the latest reminder leaves [r], one less than the store held.
    Over a run, the counter of every record never decreases as long as every
    acknowledge carries a count that is at least the stored one and every
    snooze a count that is at least the stored one minus one (a snooze
    through the button of the latest reminder does; record identifiers being
    unique, as [uuidv4] makes them). *)
Theorem retry_count_kept_by_jobs_lowered_by_acknowledge :
  (forall (job : Job) (w : World),
      unique_log_ids (data w) ->
      forall (i : nat) (l : Log.t),
        logs_of w !! i = Some l ->
        exists l' : Log.t,
          logs_of (exec (run_job job) w) !! i = Some l'
          /\ same_key l l'
          /\ Log.retry_count l <= Log.retry_count l')
  /\ (forall (today mealType : string) (u : User.t) (s : Schedule.t) (j : nat)
             (now now' : Z) (w : World) (l : Log.t),
        unique_ids (data w) ->
        on_target today mealType u s j (data w) l ->
        is_open (Log.status l) = true ->
        Log.retry_count l < 3 ->
        let r := Log.retry_count l in
        let w1 := exec (sendReminderForMealType today now mealType) w in
        let w2 := exec (handleWebhookEvent today now'
                          (Postback (User.line_user_id u) (Some "taken")
                                    (Some (Schedule.id s)) r)) w1 in
        (exists ok, Push (User.line_user_id u) (Flex (reminder_info s r)) ok
                    ∈ emitted (sendReminderForMealType today now mealType) w)
        /\ Log.retry_count <$> logs_of w1 !! j = Some (r + 1)
        /\ Log.retry_count <$> logs_of w2 !! j = Some r)
  /\ ((forall m n, uuidv4 m = uuidv4 n -> m = n) ->
      forall (steps : list Step) (w : World),
        fresh_ids (data w) (uuid_n w) ->
        counts_not_behind steps w ->
        forall (i : nat) (l : Log.t),
          logs_of w !! i = Some l ->
          exists l' : Log.t,
            logs_of (exec (run steps) w) !! i = Some l'
            /\ same_key l l'
            /\ Log.retry_count l <= Log.retry_count l').
Proof.
  split; [|split].
  - intros job w Hnd i l Hi.
    destruct (run_job_scheduler_step job w Hnd i l Hi) as (l' & Hi' & Hstep).
    exists l'. split; [done|]. by apply scheduler_step_not_decreased.
  - intros today mealType u s j now now' w l Hwf Htgt Hopen Hlt r w1 w2.
    destruct (reminder_in_round today mealType u s j now w l Hwf Htgt Hopen Hlt)
      as (pre & post & Hem).
    destruct (after_cron_reminder today mealType u s j now now' w l
                Hwf Htgt Hopen Hlt) as (Hnd1 & Hsame & Hl1).
    fold w1 in Hnd1, Hsame, Hl1.
    pose proof (today_record_lookup _ _ _ _ _ Hl1) as (Hj1 & _).
    destruct (snoozed_now_fields now l) as (_ & Hrc1).
    split; [|split].
    + eexists. rewrite Hem. apply elem_of_app. right. by left.
    + rewrite Hj1.
      change (Some (Log.retry_count (snoozed_now now l)) = Some (r + 1)).
      by rewrite Hrc1.
    + subst w2.
      rewrite (postback_taken today now' _ _ r w1 j (snoozed_now now l));
        rewrite ?Hsame; try done.
      destruct (taken_now_fields r now' (snoozed_now now l)) as (_ & _ & Hc & _).
      cbn [set_log medicationLogs].
      rewrite list_lookup_insert_eq by (by eapply lookup_lt_Some).
      change (Some (Log.retry_count (taken_now r now' (snoozed_now now l)))
              = Some r).
      by rewrite Hc.
  - apply retry_count_not_decreased_by_run.
Qed.

(** * The server (index.js) *)

(** The JSON bodies of the development endpoints. *)
Record StatusRow := mkRow {
  row_scheduleId : string;
  row_mealType : string;
  row_time : string;
  row_medicines : list string;
  row_status : option Status;      (* [None] is 'N/A' *)
  row_retryCount : Z
}.

Inductive Body :=
| BodyError (error : string)
| BodyReminderSent                 (* { success: true, message: '提醒已發送' } *)
| BodySetup (userId : string)      (* { success: true, message: ..., userId } *)
| BodyStatus (userId : string) (displayName : option string) (today : string)
             (rows : list StatusRow).

Record Response := mkResponse {
  code : Z;
  body : Body
}.

(** [res.json(b)] answers 200 unless [res.status] set a code before. *)
Definition json (b : Body) : Response := mkResponse 200 b.

(** POST /trigger-reminder. [bot] tells whether the LINE client was built;
    the two fields of the request body are absent or strings. *)
Definition post_trigger_reminder (bot : bool) (scheduleId userId : option string)
    : M Response :=
  if negb bot then ret (mkResponse 503 (BodyError "LINE Bot 未設定"))
  else
    match nonempty scheduleId, nonempty userId with
    | Some sid, Some uid =>
        schedule ← getScheduleById sid;
        match schedule with
        | None => ret (mkResponse 404 (BodyError "找不到排程"))
        | Some schedule =>
            sendReminderMessage uid
              (mkInfo (Schedule.meal_type schedule)
                      (Schedule.medicines schedule)
                      (Schedule.id schedule)
                      0
                      (Schedule.is_second_dose schedule));;
            ret (json BodyReminderSent)
        end
    | _, _ => ret (mkResponse 400 (BodyError "缺少必要參數"))
    end.

(** POST /setup-user *)
Definition post_setup_user (today : string) (now : Z)
    (userId displayName : option string) : M Response :=
  match nonempty userId with
  | None => ret (mkResponse 400 (BodyError "缺少 userId"))
  | Some uid =>
      found ← getUserByLineId uid;
      user ← match found with
             | Some u => ret u
             | None =>
                 createUser now uid (Some (default uid (nonempty displayName)))
             end;
      setupDefaultSchedules today now (User.id user);;
      ret (json (BodySetup (User.line_user_id user)))
  end.

(** GET /user-status/:lineUserId *)
Definition status_row_of (d : Data) (today : string) (schedule : Schedule.t)
    : StatusRow :=
  let log := snd <$> today_record d (Schedule.id schedule) today in
  mkRow (Schedule.id schedule) (Schedule.meal_type schedule)
        (Schedule.default_time schedule) (Schedule.medicines schedule)
        (Log.status <$> log)
        (from_option Log.retry_count 0 log).

Fixpoint user_status_rows (today : string) (schedules : list Schedule.t)
    : M (list StatusRow) :=
  match schedules with
  | [] => ret []
  | schedule :: rest =>
      log ← getMedicationLogByScheduleAndDate (Schedule.id schedule) today;
      rows ← user_status_rows today rest;
      ret (mkRow (Schedule.id schedule) (Schedule.meal_type schedule)
                 (Schedule.default_time schedule) (Schedule.medicines schedule)
                 (Log.status <$> log)
                 (from_option Log.retry_count 0 log) :: rows)
  end.

Definition get_user_status (today : string) (lineUserId : string)
    : M Response :=
  user ← getUserByLineId lineUserId;
  match user with
  | None => ret (mkResponse 404 (BodyError "找不到用戶"))
  | Some user =>
      schedules ← getSchedulesByUserId (User.id user);
      rows ← user_status_rows today schedules;
      ret (json (BodyStatus (User.line_user_id user) (User.display_name user)
                            today rows))
  end.

Lemma nonempty_Some s x : nonempty s = Some x <-> s = Some x /\ x <> "".
Proof.
  destruct s as [[|a s]|]; cbn; split; try done.
  - by intros [[= <-] ?].
  - by intros [= <-].
  - by intros [[= <-] _].
  - by intros [? _].
Qed.

(** X15: the manual trigger pushes and never writes. POST /trigger-reminder
    answers 503 without a LINE client, 400 when a parameter is missing or
    empty, 404 when the schedule is unknown, and does nothing else in these
    cases. Otherwise it pushes one reminder for the schedule, with the count
    0 on its buttons, to the user named in the request (whoever owns the
    schedule, whatever the state of its record), and answers 200 whether the
    push went through or not. It never changes the store. *)
Theorem trigger_reminder_pushes_and_never_writes (bot : bool)
    (scheduleId userId : option string) (w : World) :
  let r := eval (post_trigger_reminder bot scheduleId userId) w in
  let w' := exec (post_trigger_reminder bot scheduleId userId) w in
  data w' = data w /\ uuid_n w' = uuid_n w
  /\ (code r <> 200 -> w' = w)
  /\ (bot = false -> code r = 503)
  /\ (bot = true -> nonempty scheduleId = None \/ nonempty userId = None ->
      code r = 400)
  /\ (forall sid uid,
        bot = true -> nonempty scheduleId = Some sid ->
        nonempty userId = Some uid ->
        match eval (getScheduleById sid) w with
        | None => code r = 404
        | Some s =>
            r = json BodyReminderSent
            /\ emitted (post_trigger_reminder bot scheduleId userId) w
               = [Push uid (Flex (reminder_info s 0))
                       (push_ok (length (trace w)))]
        end).
Proof.
  cbv zeta. unfold post_trigger_reminder.
  destruct bot; cbn [negb]; [|by repeat split].
  destruct (nonempty scheduleId) as [sid|] eqn:Hsid;
    [destruct (nonempty userId) as [uid|] eqn:Huid|].
  - change (eval (getScheduleById sid) w)
      with (snd <$> list_find (λ s, Schedule.id s = sid) (schedules (data w))).
    unfold emitted, eval, exec. rewrite run_bind.
    change (getScheduleById sid w)
      with (snd <$> list_find (λ s, Schedule.id s = sid) (schedules (data w)), w).
    cbv beta iota.
    destruct (snd <$> list_find _ _) as [s|] eqn:Hs.
    + mrun. repeat split; try done.
      * intros _ [?|?]; done.
      * intros sid' uid' _ [= <-] [= <-]. rewrite Hs. split; [done|].
        apply drop_app_length.
    + repeat split; try done.
      * intros _ [?|?]; done.
      * intros sid' uid' _ [= <-] [= <-].
        change ((getScheduleById sid w).1)
          with (snd <$> list_find (λ s, Schedule.id s = sid)
                          (schedules (data w))).
        by rewrite Hs.
  - repeat split; try done.
  - repeat split; try done.
Qed.

(** X16: POST /setup-user adds four schedules every time. With a user
    identifier it answers 200, registers the user if the LINE identifier is
    new (display name: the one given, else the identifier), and then appends
    the four default schedules, also for a user who has them already; the
    users and schedules that were there stay. Without an identifier it
    answers 400 and does nothing. *)
Theorem setup_user_adds_four_schedules (today : string) (now : Z)
    (userId displayName : option string) (w : World) :
  let r := eval (post_setup_user today now userId displayName) w in
  let w' := exec (post_setup_user today now userId displayName) w in
  (nonempty userId = None -> code r = 400 /\ w' = w)
  /\ (forall uid, nonempty userId = Some uid ->
        exists u,
          r = json (BodySetup uid)
          /\ eval (getUserByLineId uid) w' = Some u
          /\ (forall u0, eval (getUserByLineId uid) w = Some u0 ->
                u = u0 /\ users (data w') = users (data w))
          /\ (eval (getUserByLineId uid) w = None ->
                User.display_name u = Some (default uid (nonempty displayName))
                /\ users (data w') = users (data w) ++ [u])
          /\ exists id1 id2 id3 id4,
               schedules (data w')
               = schedules (data w)
                 ++ default_schedules now (User.id u) id1 id2 id3 id4).
Proof.
  cbv zeta. unfold post_setup_user.
  destruct (nonempty userId) as [uid|] eqn:Huid; split; try done.
  intros ? [= <-].
  set (name := Some (default uid (nonempty displayName))).
  pose proof (createUser_result now uid name w)
    as (Hline & Hfound & Hnew).
  unfold eval, exec. rewrite run_bind.
  change (getUserByLineId uid w) with (eval (getUserByLineId uid) w, w).
  cbv beta iota. rewrite run_bind.
  destruct (eval (getUserByLineId uid) w) as [u0|] eqn:Hu0.
  - change (ret u0 w) with (u0, w). cbv beta iota.
    rewrite run_bind, (run_unit (setupDefaultSchedules today now (User.id u0)) w).
    cbv beta iota. cbv [ret mret M_ret]. cbn [fst snd].
    destruct (setupDefaultSchedules_catalog today now (User.id u0) w)
      as [Hus Hss].
    assert (Hl0 : User.line_user_id u0 = uid).
    { change (snd <$> list_find (λ u, User.line_user_id u = uid)
                        (users (data w)) = Some u0) in Hu0.
      destruct (list_find _ _) as [[i x]|] eqn:Hfind; [|done].
      apply list_find_Some in Hfind as (_ & Hx & _). by injection Hu0 as <-. }
    exists u0. split; [by rewrite Hl0|].
    split; [|split; [|split]].
    + change (snd <$> list_find (λ u, User.line_user_id u = uid)
                        (users (data (exec (setupDefaultSchedules today now
                                              (User.id u0)) w))) = Some u0).
      by rewrite Hus.
    + by intros ? [= <-].
    + done.
    + by eexists _, _, _, _.
  - rewrite (run_eval_exec (createUser now uid name) w). cbv beta iota.
    set (u := eval (createUser now uid name) w) in *.
    set (w1 := exec (createUser now uid name) w) in *.
    rewrite run_bind, (run_unit (setupDefaultSchedules today now (User.id u)) w1).
    cbv beta iota. cbv [ret mret M_ret]. cbn [fst snd].
    destruct (setupDefaultSchedules_catalog today now (User.id u) w1)
      as [Hus Hss].
    destruct (Hnew eq_refl) as (Hname & Husers & Hschedules).
    exists u. split; [by rewrite Hline|]. split; [|split; [|split]].
    + change (snd <$> list_find (λ u, User.line_user_id u = uid)
                        (users (data (exec (setupDefaultSchedules today now
                                              (User.id u)) w1))) = Some u).
      rewrite Hus. exact Hfound.
    + done.
    + intros _. split; [done|]. by rewrite Hus.
    + rewrite Hss, Hschedules. by eexists _, _, _, _.
Qed.

Lemma user_status_rows_run today ss w :
  user_status_rows today ss w = (status_row_of (data w) today <$> ss, w).
Proof.
  induction ss as [|s ss IH]; [done|].
  cbn [user_status_rows]. rewrite run_bind.
  change (getMedicationLogByScheduleAndDate (Schedule.id s) today w)
    with (snd <$> today_record (data w) (Schedule.id s) today, w).
  cbv beta iota. rewrite run_bind, IH. reflexivity.
Qed.

(** X17: GET /user-status only reads. It answers 404 exactly when the LINE
    identifier is not registered; otherwise it answers with one row per
    schedule of the user, in the order of the store, each with the status
    and the retry count of the record of today, or N/A and 0 when the
    schedule has no record of today. It changes nothing and sends nothing. *)
Theorem user_status_reads_only (today lineUserId : string) (w : World) :
  exec (get_user_status today lineUserId) w = w
  /\ match eval (getUserByLineId lineUserId) w with
     | None => code (eval (get_user_status today lineUserId) w) = 404
     | Some u =>
         eval (get_user_status today lineUserId) w
         = json (BodyStatus (User.line_user_id u) (User.display_name u) today
                   (status_row_of (data w) today <$>
                    filter (λ s, Schedule.user_id s = User.id u)
                           (schedules (data w))))
     end.
Proof.
  unfold get_user_status, eval, exec. rewrite run_bind.
  change (getUserByLineId lineUserId w)
    with (snd <$> list_find (λ u, User.line_user_id u = lineUserId)
                    (users (data w)), w).
  cbv beta iota. cbn [fst].
  destruct (snd <$> list_find _ _) as [u|]; [|done].
  rewrite run_bind.
  change (getSchedulesByUserId (User.id u) w)
    with (filter (λ s, Schedule.user_id s = User.id u) (schedules (data w)), w).
  cbv beta iota. by rewrite run_bind, user_status_rows_run.
Qed.

(** * Schedules (database.js) *)

(** X18: [createSchedule] always appends, and fills in what is left out. The
    schedule it returns is the last of the store and the last of its user;
    its delay is never 0 (a delay of 0 or none is stored as 60) and its link
    is never the empty string (stored as none); every schedule that
    [getScheduleById] found before is still the one it finds, and the new
    schedule is found under its identifier when no older schedule has it. *)
Theorem createSchedule_appends_with_defaults (now : Z)
    (uid mealType time : string) (meds : list string)
    (options : ScheduleOptions) (w : World) :
  let s := eval (createSchedule now uid mealType time meds options) w in
  let w' := exec (createSchedule now uid mealType time meds options) w in
  schedules (data w') = schedules (data w) ++ [s]
  /\ eval (getSchedulesByUserId uid) w' = eval (getSchedulesByUserId uid) w ++ [s]
  /\ Schedule.link_delay_minutes s <> 0
  /\ (linkDelayMinutesOpt options = None \/ linkDelayMinutesOpt options = Some 0
      -> Schedule.link_delay_minutes s = 60)
  /\ Schedule.linked_schedule_id s <> Some ""
  /\ (forall sid s0, eval (getScheduleById sid) w = Some s0 ->
                     eval (getScheduleById sid) w' = Some s0)
  /\ (Schedule.id s ∉ Schedule.id <$> schedules (data w) ->
      eval (getScheduleById (Schedule.id s)) w' = Some s).
Proof.
  cbv zeta. unfold eval, exec. rewrite createSchedule_run. cbv zeta.
  cbn [fst snd data schedules add_schedule].
  set (s := Schedule.mk _ _ _ _ _ _ _ _ _). unfold add_schedule.
  cbn [data schedules].
  split; [done|]. split; [|split; [|split; [|split; [|split]]]].
  - change ((getSchedulesByUserId uid ?w0).1)
      with (filter (λ s, Schedule.user_id s = uid) (schedules (data w0))).
    cbn [data schedules]. rewrite filter_app. f_equal.
    rewrite filter_cons, decide_True by done. done.
  - subst s. cbn. by destruct (linkDelayMinutesOpt options) as [[]|].
  - subst s. cbn. by intros [->| ->].
  - subst s. cbn. by destruct (linkedScheduleIdOpt options) as [[]|].
  - intros sid s0.
    change ((getScheduleById sid ?w0).1)
      with (snd <$> list_find (λ s, Schedule.id s = sid) (schedules (data w0))).
    cbn [data schedules].
    destruct (list_find _ (schedules (data w))) as [[i x]|] eqn:Hfind; [|done].
    intros [= <-]. by rewrite (list_find_app_found _ _ _ _ Hfind).
  - intros Hfresh.
    change ((getScheduleById (Schedule.id s) ?w0).1)
      with (snd <$> list_find (λ s', Schedule.id s' = Schedule.id s)
                      (schedules (data w0))).
    cbn [data schedules]. rewrite list_find_snoc; [done| |done].
    apply list_find_None, Forall_forall. intros x Hx Heq. apply Hfresh.
    apply list_elem_of_fmap. by exists x.
Qed.

(** * The older scheduler, record by record (lineBot.js) *)

Lemma apply_update_twice st ad l :
  apply_update st ad (apply_update st ad l) = apply_update st ad l.
Proof. by destruct ad as [[t|] [n|] [r|]], st, l. Qed.

Lemma apply_update_stamp now l :
  apply_update (Log.status l) (mkAdditional None None (Some now)) l
  = Log.set_last_reminded_at now l.
Proof. by destruct l as [? ? ? ? []]. Qed.

(** What the check of every minute may do to a record: nothing, or stamp
    the time of the reminder on a record that is open. *)
Definition stamped (now : Z) (l l' : Log.t) : Prop :=
  l' = l
  \/ (is_open (Log.status l) = true /\ l' = Log.set_last_reminded_at now l).

Lemma stamped_refl now l : stamped now l l.
Proof. by left. Qed.

Lemma stamped_trans now l1 l2 l3 :
  stamped now l1 l2 -> stamped now l2 l3 -> stamped now l1 l3.
Proof.
  intros [->|[Ho1 ->]] [->|[Ho2 ->]]; try (by left); by right.
Qed.

Lemma for_each_rewrites_with (P : Log.t -> Log.t -> Prop) {A} (xs : list A)
    (body : A -> M unit) w :
  (forall l, P l l) ->
  (forall l1 l2 l3, P l1 l2 -> P l2 l3 -> P l1 l3) ->
  (forall x w', unique_log_ids (data w') ->
     wp (body x) w' (λ _ w'', rewrites P (data w') (data w''))) ->
  unique_log_ids (data w) ->
  wp (for_each xs body) w (λ _ w', rewrites P (data w) (data w')).
Proof.
  intros Hrefl Htrans Hbody Hnd.
  apply (wp_for_each (λ w', rewrites P (data w) (data w'))).
  - by apply rewrites_refl.
  - intros x w' _ Hrw.
    assert (Hnd' : unique_log_ids (data w')) by (by eapply rewrites_unique).
    eapply wp_conseq; [by apply Hbody|].
    intros ? w'' Hrw'. by eapply rewrites_trans.
  - done.
Qed.

Lemma check_schedule_stamps today currentTime now user schedule w :
  unique_log_ids (data w) ->
  wp (check_schedule today currentTime now user schedule) w
     (λ _ w', rewrites (stamped now) (data w) (data w')).
Proof.
  intros Hnd. unfold check_schedule.
  pose proof (rewrites_refl (stamped now) (stamped_refl now) (data w)) as Hrefl.
  case_bool_decide; wp_steps; [|done].
  destruct (snd <$> list_find (log_matches _ _) _) as [log|] eqn:Hlog;
    [|by wp_steps].
  apply found_log_in in Hlog as (Hin & _).
  destruct (is_open (Log.status log)) eqn:Hopen; wp_steps; [|done].
  assert (Hsend : forall tr,
    wp (updateMedicationLogStatus (Log.id log) (Log.status log)
          (mkAdditional None None (Some now)))
       (mkWorld (data w) tr (uuid_n w))
       (λ _ w', wp (ret ()) w'
                   (λ _ w'', rewrites (stamped now) (data w) (data w'')))).
  { intros tr. apply wp_updateMedicationLogStatus.
    intros r tr'. wp_steps. cbn [data].
    apply update_rewrites; try done; [apply stamped_refl|].
    right. split; [done|]. apply apply_update_stamp. }
  destruct (Schedule.is_second_dose schedule);
    [destruct (nonempty (Schedule.linked_schedule_id schedule)) as [linked|]|];
    wp_steps; try apply Hsend.
  destruct (snd <$> list_find (log_matches linked today) _) as [first|];
    [case_bool_decide|]; wp_steps; first [done | apply Hsend].
Qed.

(** X19: the check of every minute does not count its reminders. Whatever
    [checkAndSendReminders] sends, it leaves the users and the schedules as
    they are and every record with its status, its retry counter and its
    time of intake; the only thing it writes is the time of the reminder,
    on records that are open (record identifiers unique). *)
Theorem minute_check_only_stamps (today currentTime : string) (now : Z)
    (w : World) :
  unique_log_ids (data w) ->
  let d' := data (exec (checkAndSendReminders today currentTime now) w) in
  users d' = users (data w)
  /\ schedules d' = schedules (data w)
  /\ forall i l, logs_of w !! i = Some l ->
       medicationLogs d' !! i = Some l
       \/ (is_open (Log.status l) = true
           /\ medicationLogs d' !! i = Some (Log.set_last_reminded_at now l)).
Proof.
  intros Hnd d'.
  assert (Hrw : rewrites (stamped now) (data w) d').
  { subst d'.
    change (wp (checkAndSendReminders today currentTime now) w
              (λ _ w', rewrites (stamped now) (data w) (data w'))).
    unfold checkAndSendReminders. wp_steps.
    apply for_each_rewrites_with;
      [apply stamped_refl|apply stamped_trans| |done].
    intros user w' Hnd'. unfold check_user. wp_steps.
    apply for_each_rewrites_with;
      [apply stamped_refl|apply stamped_trans| |done].
    intros schedule w'' Hnd''. by apply check_schedule_stamps. }
  pose proof Hrw as (Hus & Hss & _). split; [done|]. split; [done|].
  intros i l Hi.
  destruct (rewrites_evolved _ _ _ Hrw i l Hi) as (l' & Hl' & _ & [->|[Ho ->]]);
    [by left|by right].
Qed.

(** The test of 30 minutes, in terms of the instant at which the round
    runs. *)
Lemma cooldown_by_the_clock zone t last :
  30 <= (getTaiwanTime zone t - last) `div` 60000 ->
  last + 30 * 60000 <= t + (taipei - zone).
Proof.
  intros Hm. unfold getTaiwanTime in Hm.
  assert (30 * 60000 <= 1000 * (t `div` 1000) + taipei - zone - last).
  { pose proof (Z.mul_div_le (1000 * (t `div` 1000) + taipei - zone - last)
                  60000 ltac:(lia)). lia. }
  pose proof (Z.mul_div_le t 1000 ltac:(lia)). lia.
Qed.

(** The two writes of [checkRetryNeeded], from the record [l0] as the
    round read it. *)
Definition retried (now : Z) (l0 : Log.t) : Log.t :=
  apply_update PENDING
    (mkAdditional None (Some (Log.retry_count l0 + 1)) (Some now)) l0.

Definition given_up (now : Z) (l0 : Log.t) : Log.t :=
  apply_update MISSED (mkAdditional None None (Some now)) l0.

(** The minutes since the last reminder of [l0], if there was one. *)
Definition minutes_since (now : Z) (l0 : Log.t) : option Z :=
  (λ last, (now - last) `div` 60000) <$> Log.last_reminded_at l0.

Definition retry_round (today : string) (now : Z) (l0 l : Log.t) : Prop :=
  l = l0
  \/ (Log.date l0 = today /\ Log.status l0 = SNOOZED /\ Log.retry_count l0 < 3
      /\ (exists m, minutes_since now l0 = Some m /\ 30 <= m)
      /\ l = retried now l0)
  \/ (Log.date l0 = today /\ Log.status l0 = PENDING /\ 3 <= Log.retry_count l0
      /\ (exists m, minutes_since now l0 = Some m /\ 90 <= m)
      /\ l = given_up now l0).

Lemma retry_log_round today d0 now pl w :
  unique_log_ids d0 -> pl_log pl ∈ medicationLogs d0 ->
  Log.date (pl_log pl) = today ->
  rewrites (retry_round today now) d0 (data w) ->
  wp (retry_log now pl) w (λ _ w', rewrites (retry_round today now) d0 (data w')).
Proof.
  intros Hnd Hin Hdate Hrw. unfold retry_log. cbv zeta.
  destruct (Log.last_reminded_at (pl_log pl)) as [lastReminded|] eqn:Hlast;
    [|by wp_steps].
  assert (Hmin : minutes_since now (pl_log pl)
                 = Some ((now - lastReminded) `div` 60000))
    by (unfold minutes_since; by rewrite Hlast).
  wp_steps.
  apply (wp_conseq _ _ (λ _ w', rewrites (retry_round today now) d0 (data w'))).
  - apply wp_when; [intros Hguard|done]. wp_steps.
    apply andb_prop in Hguard as [Hguard Hst%bool_decide_eq_true].
    apply andb_prop in Hguard as [Hm%bool_decide_eq_true Hrc%bool_decide_eq_true].
    destruct (snd <$> list_find _ (schedules (data w))) as [schedule|];
      [|by wp_steps].
    wp_steps. apply wp_updateMedicationLogStatus. intros r tr. wp_steps.
    cbn [data]. apply update_rewrites_from; try done.
    intros l _ _ [->|[(_ & _ & _ & _ & ->)|(_ & Hst' & _)]].
    + right. left. repeat split; try done. by eexists.
    + right. left.
      repeat split; try done; first [by eexists | apply apply_update_twice].
    + congruence.
  - intros a w' Hrw'. apply wp_when; [intros Hguard|done].
    apply andb_prop in Hguard as [Hguard Hst%bool_decide_eq_true].
    apply andb_prop in Hguard as [Hm%bool_decide_eq_true Hrc%bool_decide_eq_true].
    wp_steps. apply wp_updateMedicationLogStatus. intros r tr. wp_steps.
    cbn [data]. apply update_rewrites_from; try done.
    intros l _ _ [->|[(_ & Hst' & _)|(_ & _ & _ & _ & ->)]].
    + right. right. repeat split; try done. by eexists.
    + congruence.
    + right. right.
      repeat split; try done; first [by eexists | apply apply_update_twice].
Qed.

(** X20: a round of [checkRetryNeeded], record by record (record identifiers
    unique), at the instant [t] in a process whose zone is [zone]. Users and
    schedules stay. A record either stays as it is; or it was a record of
    today, SNOOZED with fewer than three reminders, with a stamp at least 30
    minutes behind [getTaiwanTime()], and is now PENDING with the counter
    raised by one; or it was of today, PENDING with at least three reminders,
    with a stamp at least 90 minutes behind [getTaiwanTime()], and is now
    MISSED. So a record that was retried is PENDING and is not retried again
    until it is snoozed anew. The minutes are counted from the clock of
    [getTaiwanTime]: a record that is touched has a stamp no later than 30
    minutes before [t] plus the difference of the zone of Taipei and the
    zone of the process, which is 30 minutes before [t] only in a process
    that runs in the zone of Taipei. *)
Theorem retry_round_record_by_record (zone : Z) (today : string) (t : Z)
    (w : World) :
  unique_log_ids (data w) ->
  let now := getTaiwanTime zone t in
  let d' := data (exec (checkRetryNeeded zone today t) w) in
  users d' = users (data w)
  /\ schedules d' = schedules (data w)
  /\ (forall i l, logs_of w !! i = Some l ->
        exists l', medicationLogs d' !! i = Some l'
                   /\ retry_round today now l l')
  /\ (forall l l', retry_round today now l l' -> l' <> l ->
        exists last, Log.last_reminded_at l = Some last
                     /\ last + 30 * 60000 <= t + (taipei - zone)).
Proof.
  intros Hnd now d'.
  assert (Hrw : rewrites (retry_round today now) (data w) d').
  { subst d'.
    change (wp (checkRetryNeeded zone today t) w
              (λ _ w', rewrites (retry_round today now) (data w) (data w'))).
    unfold checkRetryNeeded. cbv zeta. fold now. wp_steps.
    apply (wp_for_each
             (λ w', rewrites (retry_round today now) (data w) (data w')));
      [apply rewrites_refl; by left| |done].
    intros pl w' Hpl Hrw.
    apply list_elem_of_fmap in Hpl as (l & -> & Hl).
    apply list_elem_of_filter in Hl as ((Hdate & _) & Hl).
    by apply (retry_log_round today). }
  pose proof Hrw as (Hus & Hss & _). split; [done|]. split; [done|]. split.
  - intros i l Hi.
    destruct (rewrites_evolved _ _ _ Hrw i l Hi) as (l' & Hl' & _ & Hround).
    by exists l'.
  - intros l l' Hround Hne.
    assert (Hm : exists m, minutes_since now l = Some m /\ 30 <= m).
    { destruct Hround as [->|[(_ & _ & _ & Hm & _)|(_ & _ & _ & (m & Hm & Hle) & _)]];
        [done|done|]. exists m. split; [done|lia]. }
    destruct Hm as (m & Hm & Hle). unfold minutes_since in Hm.
    destruct (Log.last_reminded_at l) as [last|]; [|done].
    injection Hm as <-. exists last. split; [done|].
    by apply cooldown_by_the_clock.
Qed.

(** * The older scheduler when nobody answers *)

(** A record as the older scheduler finds it when no button was pressed: it
    is not SNOOZED (the older scheduler never writes SNOOZED; the handler
    and the cron scheduler do), and it has fewer than three retries while it
    is PENDING. A record that [checkAndSendReminders] reminded of and that
    was not answered is such a record. *)
Definition unanswered (l : Log.t) : Prop :=
  Log.status l <> SNOOZED /\ (Log.status l = PENDING -> Log.retry_count l < 3).


Lemma for_each_idle {A} (xs : list A) (body : A -> M unit) w :
  (forall x, x ∈ xs -> body x w = (tt, w)) -> for_each xs body w = (tt, w).
Proof.
  induction xs as [|x xs IH]; intros Hbody; [done|].
  cbn [for_each]. rewrite run_bind, Hbody by (by left).
  apply IH. intros y Hy. apply Hbody. by right.
Qed.

(** Both tests of [checkRetryNeeded] fail on an unanswered record, whatever
    the clock says. *)
Lemma retry_log_unanswered now pl w :
  unanswered (pl_log pl) -> retry_log now pl w = (tt, w).
Proof.
  intros [Hs Hp]. unfold retry_log. cbv zeta.
  destruct (Log.last_reminded_at (pl_log pl)) as [lastReminded|]; [|done].
  rewrite (bool_decide_eq_false_2 (Log.status (pl_log pl) = SNOOZED)) by done.
  rewrite andb_false_r.
  destruct (decide (Log.status (pl_log pl) = PENDING)) as [Hpen|Hpen].
  - rewrite (bool_decide_eq_false_2 (3 ≤ Log.retry_count (pl_log pl)))
      by (specialize (Hp Hpen); lia).
    by rewrite andb_false_r.
  - rewrite (bool_decide_eq_false_2 (Log.status (pl_log pl) = PENDING)) by done.
    by rewrite andb_false_r.
Qed.

Lemma checkRetryNeeded_unanswered zone today t w :
  Forall unanswered (logs_of w) -> checkRetryNeeded zone today t w = (tt, w).
Proof.
  intros Hall. unfold checkRetryNeeded. cbv zeta. rewrite run_bind.
  change (getPendingLogsForDate today w)
    with (join_pending (data w) <$>
            filter (λ l, Log.date l = today ∧ is_open (Log.status l) = true)
                   (logs_of w), w).
  apply for_each_idle. intros pl Hpl.
  apply list_elem_of_fmap in Hpl as (l & -> & Hl).
  apply list_elem_of_filter in Hl as [_ Hl].
  apply retry_log_unanswered. cbn. rewrite Forall_forall in Hall. by apply Hall.
Qed.

Lemma stamped_unanswered now l l' : stamped now l l' -> unanswered l -> unanswered l'.
Proof. by intros [->|[_ ->]]. Qed.

Lemma checkAndSendReminders_stamps today currentTime now w :
  unique_log_ids (data w) ->
  rewrites (stamped now) (data w)
           (data (exec (checkAndSendReminders today currentTime now) w)).
Proof.
  intros Hnd.
  change (wp (checkAndSendReminders today currentTime now) w
            (λ _ w', rewrites (stamped now) (data w) (data w'))).
  unfold checkAndSendReminders. wp_steps.
  apply for_each_rewrites_with;
    [apply stamped_refl|apply stamped_trans| |done].
  intros user w' Hnd'. unfold check_user. wp_steps.
  apply for_each_rewrites_with;
    [apply stamped_refl|apply stamped_trans| |done].
  intros schedule w'' Hnd''. by apply check_schedule_stamps.
Qed.

Lemma rewrites_unanswered now d d' :
  rewrites (stamped now) d d' ->
  Forall unanswered (medicationLogs d) -> Forall unanswered (medicationLogs d').
Proof.
  intros (_ & _ & Hall) Hun.
  eapply Forall2_Forall_r; [exact Hall|].
  eapply Forall_impl; [exact Hun|].
  intros l Hl l' [_ Hst]. by eapply stamped_unanswered.
Qed.




(** The retry checks that follow, each with the zone of its process, the
    date and the instant. *)
Definition retry_checks (clocks : list (Z * string * Z)) : M unit :=
  for_each clocks (λ c, checkRetryNeeded c.1.1 c.1.2 c.2).

Lemma retry_checks_unanswered clocks w :
  Forall unanswered (logs_of w) -> retry_checks clocks w = (tt, w).
Proof.
  intros Hun. apply for_each_idle. intros c _.
  by apply checkRetryNeeded_unanswered.
Qed.

(** * The retry ceiling, scheduler by scheduler (C2) *)


(** * The cooldown of the older scheduler (C7) *)

(** C7, where the code breaks it. [checkRetryNeeded] is the job that resends
    a reminder that was not answered, but it retries SNOOZED records only,
    and [checkAndSendReminders] leaves the record it reminded of as it was:
    on a store of unanswered records, after the check of the minute has sent
    its reminders, every retry check at every clock does nothing, so the
    reminder is not sent again after 31 minutes or ever. Where it does
    retry, the 30 minutes are counted from [getTaiwanTime()]: the reminder
    answers to a record of today that is SNOOZED with fewer than three
    retries and whose stamp is no later than 30 minutes before the instant
    [t] of the round plus the difference of the zone of Taipei and the zone
    of the process. *)
Theorem unanswered_reminder_is_never_resent :
  (forall (today currentTime : string) (now : Z)
          (clocks : list (Z * string * Z)) (w : World),
      unique_log_ids (data w) ->
      Forall unanswered (logs_of w) ->
      let w1 := exec (checkAndSendReminders today currentTime now) w in
      retry_checks clocks w1 = (tt, w1))
  /\ (forall (zone : Z) (today : string) (t : Z) (w : World) to info ok,
        Push to (Flex info) ok ∈ emitted (checkRetryNeeded zone today t) w ->
        exists (l : Log.t) (last : Z),
          l ∈ logs_of w
          /\ Log.date l = today
          /\ Log.schedule_id l = scheduleId info
          /\ Log.status l = SNOOZED
          /\ Log.retry_count l < 3
          /\ Log.last_reminded_at l = Some last
          /\ last + 30 * 60000 <= t + (taipei - zone)).
Proof.
  split.
  - intros today currentTime now clocks w Hnd Hun w1.
    apply retry_checks_unanswered. subst w1.
    eapply rewrites_unanswered; [|exact Hun].
    by apply checkAndSendReminders_stamps.
  - intros zone today t w to info ok Hin.
    pose proof (checkRetryNeeded_emits zone today t w) as Hall.
    rewrite Forall_forall in Hall. specialize (Hall _ Hin). cbn in Hall.
    destruct Hall as (l & last & Hl & Hdate & Hsid & Hst & Hrc & _ & Hlast & Hm).
    exists l, last. repeat split; try done. by apply cooldown_by_the_clock.
Qed.

End Bot.

(** * A day with one patient *)

(** The oracles of the scenario: identifiers "u", "uI", "uII", ... in the
    order they are drawn, and a network that delivers every push. *)
Fixpoint tally (n : nat) : string :=
  match n with
  | O => ""
  | S k => "I" +:+ tally k
  end.

Definition demo_uuid (n : nat) : string := "u" +:+ tally n.

Definition net_up : nat -> bool := λ _, true.

Lemma tally_inj m n : tally m = tally n -> m = n.
Proof.
  revert n. induction m as [|m IH]; intros [|n] H; try done.
  injection H as H. f_equal. by apply IH.
Qed.

Lemma demo_uuid_inj m n : demo_uuid m = demo_uuid n -> m = n.
Proof. unfold demo_uuid. intros [= H]. by apply tally_inj. Qed.

Definition fresh_install : World := mkWorld (mkData [] [] []) [] 0.

Definition day : string := "2024-05-01".

(** The instant [h]:[m] of that day, in milliseconds. *)
Definition at_ (h m : Z) : Z := (60 * h + m) * 60000.

Definition alice : string := "U-alice".

(** Alice writes to the bot for the first time at 07:00: she is registered
    with the four schedules and their records of the day. *)
Definition seeded : World :=
  exec (handleWebhookEvent demo_uuid net_up day (at_ 7 0)
          (TextEvent alice "hello"))
       fresh_install.

Definition alice_user : User.t := User.mk "u" alice (Some alice) (at_ 7 0).

Definition first_dose : Schedule.t :=
  Schedule.mk "uI" "u" "早餐後（西藥）" "08:00" ["高血壓（西藥）"]
              false None 60 (at_ 7 0).


Definition lunch : Schedule.t :=
  Schedule.mk "uIII" "u" "午餐後" "13:00" ["高血壓（中藥）"]
              false None 60 (at_ 7 0).

Definition lunch_record : Log.t :=
  Log.mk "uIIIIIII" "uIII" "u" day PENDING 0 None None (at_ 7 0).

Example seeded_lunch :
  find_schedule (data seeded) "午餐後" alice_user = Some lunch
  /\ today_record (data seeded) "uIII" day = Some (2%nat, lunch_record).
Proof. by vm_compute. Qed.

Ltac by_computation :=
  first [ compute_done | by vm_compute | vm_compute; by repeat constructor ].

Lemma seeded_unique_ids : unique_ids (data seeded).
Proof. repeat split; by_computation. Qed.

Lemma seeded_on_target :
  on_target day "午餐後" alice_user lunch 2 (data seeded) lunch_record.
Proof. repeat split; by_computation. Qed.

Lemma seeded_fresh_ids : fresh_ids demo_uuid (data seeded) (uuid_n seeded).
Proof.
  assert (Hrun : exec (run_step demo_uuid net_up
                         (Act day (at_ 7 0) (TextEvent alice "hello")))
                      fresh_install = seeded) by (by vm_compute).
  rewrite <- Hrun. apply fresh_ids_run_step; [apply demo_uuid_inj|].
  split; [apply NoDup_nil_2|]. intros k _. apply not_elem_of_nil.
Qed.

(** ** C10: an update by identifier *)

Lemma update_of_unknown_id_witness :
  eval (updateMedicationLogStatus "no-such-id" TAKEN
          (mkAdditional None None None)) seeded = None
  /\ exec (updateMedicationLogStatus "no-such-id" TAKEN
             (mkAdditional None None None)) seeded = seeded.
Proof.
  apply (proj1 (updateMedicationLogStatus_addressed_only "no-such-id" TAKEN
                  (mkAdditional None None None) seeded)).
  by_computation.
Defined.

(** ** C1: terminal records *)

(** Alice acknowledges lunch at 13:05, from a reminder that showed two
    reminders. *)
Definition lunch_taken : World :=
  exec (handleWebhookEvent demo_uuid net_up day (at_ 13 5)
          (Postback alice (Some "taken") (Some "uIII") 2))
       seeded.

Definition lunch_taken_record : Log.t :=
  Log.mk "uIIIIIII" "uIII" "u" day TAKEN 2 None (Some (at_ 13 5)) (at_ 7 0).

(** A second acknowledge, at 13:40 with the count 0, rewrites the time of
    intake and the retry counter of the TAKEN record; a snooze reopens it. *)
Lemma acknowledge_and_snooze_rewrite_a_taken_record :
  logs_of lunch_taken !! 2%nat = Some lunch_taken_record
  /\ logs_of (exec (handleWebhookEvent demo_uuid net_up day (at_ 13 40)
                      (Postback alice (Some "taken") (Some "uIII") 0))
                   lunch_taken) !! 2%nat
     = Some (Log.mk "uIIIIIII" "uIII" "u" day TAKEN 0 None
                    (Some (at_ 13 40)) (at_ 7 0))
  /\ logs_of (exec (handleWebhookEvent demo_uuid net_up day (at_ 13 40)
                      (Postback alice (Some "snooze") (Some "uIII") 0))
                   lunch_taken) !! 2%nat
     = Some (Log.mk "uIIIIIII" "uIII" "u" day SNOOZED 1 (Some (at_ 13 40))
                    (Some (at_ 13 5)) (at_ 7 0)).
Proof. by vm_compute. Qed.

Lemma taken_record_kept_by_scheduler_witness :
  logs_of (exec (run_job demo_uuid net_up (JobReminder day (at_ 13 30) "午餐後"))
                lunch_taken) !! 2%nat
  = Some lunch_taken_record.
Proof.
  apply (proj1 (terminal_kept_by_schedulers_rewritten_by_actions
                  demo_uuid net_up)).
  - by_computation.
  - by vm_compute.
  - by left.
Defined.

(** ** C2: the retry ceiling *)

(** The check of 13:00 of the older scheduler, in a process in the zone of
    Taipei, reminds Alice of lunch and stamps the record, which stays
    PENDING. *)
Definition lunch_reminded_once : World :=
  exec (checkAndSendReminders net_up day "13:00"
          (getTaiwanTime taipei (at_ 13 0))) seeded.

Ltac all_unanswered :=
  vm_compute;
  repeat (apply Forall_cons; split; [split; [done|by intros _]|]);
  apply Forall_nil_2.

Lemma seeded_unanswered : Forall unanswered (logs_of seeded).
Proof. all_unanswered. Qed.





(** ** C3: the retry counter *)

(** After the reminders of 13:00 and 13:30 the record of lunch counts two. *)
Definition lunch_reminded_twice : World :=
  exec (evaluations net_up day "午餐後" [at_ 13 0; at_ 13 30]) seeded.

(** An action that carries the count 0 lowers the stored counter from 2 to
    0 (acknowledge) or to 1 (snooze). *)
Lemma stale_count_lowers_the_retry_counter :
  Log.retry_count <$> logs_of lunch_reminded_twice !! 2%nat = Some 2
  /\ Log.retry_count <$>
       logs_of (exec (handleWebhookEvent demo_uuid net_up day (at_ 13 35)
                        (Postback alice (Some "taken") (Some "uIII") 0))
                     lunch_reminded_twice) !! 2%nat
     = Some 0
  /\ Log.retry_count <$>
       logs_of (exec (handleWebhookEvent demo_uuid net_up day (at_ 13 35)
                        (Postback alice (Some "snooze") (Some "uIII") 0))
                     lunch_reminded_twice) !! 2%nat
     = Some 1.
Proof. by vm_compute. Qed.

(** The reminder of 13:00 and the acknowledge through its button: the
    button carries the count 0, the store holds 1 when Alice presses it, and
    the acknowledge leaves 0. *)
Lemma acknowledge_through_the_button_lowers_the_counter :
  emitted (sendReminderForMealType net_up day (at_ 13 0) "午餐後") seeded
  = [Push alice (Flex (reminder_info lunch 0)) true;
     Saved (data (exec (sendReminderForMealType net_up day (at_ 13 0) "午餐後")
                       seeded))]
  /\ logs_of (exec (sendReminderForMealType net_up day (at_ 13 0) "午餐後")
                   seeded) !! 2%nat
     = Some (Log.mk "uIIIIIII" "uIII" "u" day SNOOZED 1 (Some (at_ 13 0)) None
                    (at_ 7 0))
  /\ logs_of (exec (run demo_uuid net_up
                      [Tick (JobReminder day (at_ 13 0) "午餐後");
                       Act day (at_ 13 5)
                         (Postback alice (Some "taken") (Some "uIII") 0)])
                   seeded) !! 2%nat
     = Some (Log.mk "uIIIIIII" "uIII" "u" day TAKEN 0 (Some (at_ 13 0))
                    (Some (at_ 13 5)) (at_ 7 0)).
Proof. by vm_compute. Qed.

(** A run of jobs and actions; its last acknowledge reports the count that
    the store holds. *)
Definition faithful_run : list Step :=
  [ Tick (JobReminder day (at_ 13 0) "午餐後");
    Act day (at_ 13 10) (Postback alice (Some "snooze") (Some "uIII") 0);
    Tick (JobRetry taipei day (at_ 13 25));
    Tick (JobReminder day (at_ 13 30) "午餐後");
    Tick (JobInit day (at_ 13 31));
    Act day (at_ 13 35) (Postback alice (Some "taken") (Some "uIII") 2) ].

(** Lunch with every reminder snoozed through its own button: the buttons
    carry 0, 1 and 2 while the store holds 1, 2 and 3. *)
Definition snoozed_lunch : list Step :=
  [ Tick (JobReminder day (at_ 13 0) "午餐後");
    Act day (at_ 13 5) (Postback alice (Some "snooze") (Some "uIII") 0);
    Tick (JobReminder day (at_ 13 30) "午餐後");
    Act day (at_ 13 40) (Postback alice (Some "snooze") (Some "uIII") 1);
    Tick (JobReminder day (at_ 14 0) "午餐後");
    Act day (at_ 14 10) (Postback alice (Some "snooze") (Some "uIII") 2);
    Tick (JobReminder day (at_ 14 30) "午餐後") ].

Example snoozed_lunch_ends_missed :
  logs_of (exec (run demo_uuid net_up snoozed_lunch) seeded) !! 2%nat
  = Some (Log.mk "uIIIIIII" "uIII" "u" day MISSED 3 (Some (at_ 14 10)) None
                 (at_ 7 0)).
Proof. by vm_compute. Qed.

Lemma retry_count_kept_by_jobs_lowered_by_acknowledge_witness :
  (exists l' : Log.t,
     logs_of (exec (run demo_uuid net_up snoozed_lunch) seeded) !! 2%nat
     = Some l'
     /\ same_key lunch_record l'
     /\ Log.retry_count lunch_record <= Log.retry_count l')
  /\ Log.retry_count <$>
       logs_of (exec (sendReminderForMealType net_up day (at_ 13 0) "午餐後")
                     seeded) !! 2%nat
     = Some 1
  /\ Log.retry_count <$>
       logs_of (exec (handleWebhookEvent demo_uuid net_up day (at_ 13 5)
                        (Postback alice (Some "taken") (Some "uIII") 0))
                     (exec (sendReminderForMealType net_up day (at_ 13 0)
                              "午餐後") seeded)) !! 2%nat
     = Some 0.
Proof.
  split.
  - apply (proj2 (proj2 (retry_count_kept_by_jobs_lowered_by_acknowledge
                           demo_uuid net_up))
             demo_uuid_inj snoozed_lunch seeded seeded_fresh_ids).
    + cbn [counts_not_behind snoozed_lunch].
      repeat lazymatch goal with
        | |- True => exact I
        | |- count_not_behind _ _ _ => cbn [count_not_behind]
        | |- _ /\ _ => split
        | |- forall _, _ =>
            intros ? ? Hl; vm_compute in Hl; injection Hl as <- <-;
            split; intros Ha; first [discriminate Ha | by vm_compute]
        end.
    + by vm_compute.
  - apply (proj1 (proj2 (retry_count_kept_by_jobs_lowered_by_acknowledge
                           demo_uuid net_up))
             day "午餐後" alice_user lunch 2%nat (at_ 13 0) (at_ 13 5)
             seeded lunch_record).
    + apply seeded_unique_ids.
    + apply seeded_on_target.
    + reflexivity.
    + reflexivity.
Defined.

(** ** C4: the count of the event *)

(** Two acknowledges that differ in the reported count only leave different
    records: the count of the event is what is stored. *)
Lemma reported_count_decides_the_stored_one :
  Log.retry_count <$>
    logs_of (exec (handleWebhookEvent demo_uuid net_up day (at_ 13 35)
                     (Postback alice (Some "taken") (Some "uIII") 0))
                  lunch_reminded_twice) !! 2%nat
  = Some 0
  /\ Log.retry_count <$>
       logs_of (exec (handleWebhookEvent demo_uuid net_up day (at_ 13 35)
                        (Postback alice (Some "taken") (Some "uIII") 7))
                     lunch_reminded_twice) !! 2%nat
     = Some 7
  /\ data (exec (handleWebhookEvent demo_uuid net_up day (at_ 13 35)
                   (Postback alice (Some "taken") (Some "uIII") 0))
                lunch_reminded_twice)
     <> data (exec (handleWebhookEvent demo_uuid net_up day (at_ 13 35)
                      (Postback alice (Some "taken") (Some "uIII") 7))
                   lunch_reminded_twice).
Proof. repeat split; by vm_compute. Qed.

Definition lunch_record_twice : Log.t :=
  Log.mk "uIIIIIII" "uIII" "u" day SNOOZED 2 (Some (at_ 13 30)) None (at_ 7 0).

Lemma action_writes_the_reported_count_witness :
  data (exec (handleWebhookEvent demo_uuid net_up day (at_ 13 35)
                (Postback alice (Some "taken") (Some "uIII") 7))
             lunch_reminded_twice)
  = set_log 2 (taken_now 7 (at_ 13 35) lunch_record_twice)
            (data (exec (ensure_user demo_uuid day (at_ 13 35) alice)
                        lunch_reminded_twice))
  /\ Log.retry_count (taken_now 7 (at_ 13 35) lunch_record_twice) = 7.
Proof.
  destruct (action_writes_the_reported_count demo_uuid net_up day (at_ 13 35)
              alice "uIII" 7 lunch_reminded_twice 2 lunch_record_twice)
    as (Htaken & _ & Hcount & _).
  - by_computation.
  - by vm_compute.
  - by split.
Defined.

(** ** C6: the prerequisite of the second dose *)



(** ** C7: the cooldown *)

(** The retry checks of the afternoon, every five minutes from 13:05 to
    16:20, in a process in the zone of Taipei. *)
Definition afternoon_checks : list (Z * string * Z) :=
  (λ k, (taipei, day, at_ 13 (5 * Z.of_nat k))) <$> seq 1 40.

Lemma unanswered_reminder_is_never_resent_witness :
  retry_checks net_up afternoon_checks lunch_reminded_once
  = (tt, lunch_reminded_once).
Proof.
  apply (proj1 (unanswered_reminder_is_never_resent net_up) day "13:00"
           (getTaiwanTime taipei (at_ 13 0)) afternoon_checks seeded).
  - by_computation.
  - apply seeded_unanswered.
Defined.

(** The reminder of 13:00 is the only one: the retry check of 13:30 and the
    one of 13:35, 35 minutes after the reminder, push nothing, and after the
    forty checks of the afternoon the record is as the reminder left it. *)
Example lunch_reminded_once_and_never_again :
  emitted (checkAndSendReminders net_up day "13:00"
             (getTaiwanTime taipei (at_ 13 0))) seeded
  = [Push alice (Flex (reminder_info lunch 0)) true;
     Saved (data lunch_reminded_once)]
  /\ emitted (checkRetryNeeded net_up taipei day (at_ 13 30))
             lunch_reminded_once = []
  /\ emitted (checkRetryNeeded net_up taipei day (at_ 13 35))
             lunch_reminded_once = []
  /\ logs_of (exec (retry_checks net_up afternoon_checks) lunch_reminded_once)
       !! 2%nat
     = Some (Log.mk "uIIIIIII" "uIII" "u" day PENDING 0 (Some (at_ 13 0)) None
                    (at_ 7 0)).
Proof. by vm_compute. Qed.

(** The same afternoon in a process whose zone is UTC: Alice snoozes at
    13:02 through the button of the reminder of 13:00, and the retry check
    of 13:05 reminds her again, three minutes after the snooze and five
    minutes after the reminder before. In a process in the zone of Taipei
    the check of 13:05 pushes nothing. *)
Definition lunch_snoozed (zone : Z) : World :=
  exec (run demo_uuid net_up
          [Tick (JobCheck day "13:00" (getTaiwanTime zone (at_ 13 0)));
           Act day (at_ 13 2) (Postback alice (Some "snooze") (Some "uIII") 0)])
       seeded.

Example cooldown_is_lost_outside_the_zone_of_taipei :
  emitted (checkRetryNeeded net_up 0 day (at_ 13 5)) (lunch_snoozed 0)
  = [Saved (data (exec (checkRetryNeeded net_up 0 day (at_ 13 5))
                       (lunch_snoozed 0)));
     Push alice (Flex (reminder_info lunch 2)) true]
  /\ emitted (checkRetryNeeded net_up taipei day (at_ 13 5))
             (lunch_snoozed taipei)
     = [].
Proof. by vm_compute. Qed.

(** ** C8: the time of intake *)

(** Acknowledged at 13:05 and snoozed at 13:40, the record is SNOOZED and
    still carries the time of intake. *)
Lemma snoozed_record_keeps_taken_at :
  logs_of (exec (run demo_uuid net_up
                   [Act day (at_ 7 0) (TextEvent alice "hello");
                    Act day (at_ 13 5)
                      (Postback alice (Some "taken") (Some "uIII") 2);
                    Act day (at_ 13 40)
                      (Postback alice (Some "snooze") (Some "uIII") 0)])
                fresh_install) !! 2%nat
  = Some (Log.mk "uIIIIIII" "uIII" "u" day SNOOZED 1 (Some (at_ 13 40))
                 (Some (at_ 13 5)) (at_ 7 0)).
Proof. by vm_compute. Qed.

Lemma taken_has_time_witness :
  taken_has_time
    (data (exec (run demo_uuid net_up
                   [Act day (at_ 7 0) (TextEvent alice "hello");
                    Tick (JobReminder day (at_ 13 0) "午餐後");
                    Act day (at_ 13 5)
                      (Postback alice (Some "taken") (Some "uIII") 1)])
                fresh_install)).
Proof.
  apply (proj1 (taken_at_set_when_taken_written_by_acknowledge
                  demo_uuid net_up)).
  apply Forall_nil_2.
Defined.

(** ** C9: the last transition *)

(** After the reminders of 13:00, 13:30 and 14:00. *)
Definition lunch_reminded_thrice : World :=
  exec (evaluations net_up day "午餐後" [at_ 13 0; at_ 13 30; at_ 14 0]) seeded.

Definition lunch_record_thrice : Log.t :=
  Log.mk "uIIIIIII" "uIII" "u" day SNOOZED 3 (Some (at_ 14 0)) None (at_ 7 0).

(** At 14:30 the store that is written to the file already holds the record
    as MISSED when the notice is pushed. *)
Lemma missed_is_saved_before_the_notice :
  exists d' : Data,
    emitted (sendReminderForMealType net_up day (at_ 14 30) "午餐後")
            lunch_reminded_thrice
    = [Saved d'; Push alice (TextMessage TxtExceeded) true]
    /\ Log.status <$> medicationLogs d' !! 2%nat = Some MISSED.
Proof. eexists. split; by vm_compute. Qed.

Lemma missed_is_saved_then_notified_witness :
  emitted (remind_user net_up day (at_ 14 30) "午餐後" alice_user)
          lunch_reminded_thrice
  = [Saved (set_log 2 (missed_now (at_ 14 30) lunch_record_thrice)
                    (data lunch_reminded_thrice));
     Push alice (TextMessage TxtExceeded)
          (net_up (S (length (trace lunch_reminded_thrice))))].
Proof.
  apply (missed_is_saved_then_notified net_up day (at_ 14 30) "午餐後"
           alice_user lunch_reminded_thrice lunch 2 lunch_record_thrice).
  - by_computation.
  - by vm_compute.
  - by vm_compute.
  - reflexivity.
  - by vm_compute.
Defined.

(** ** C5: the initializer on first contact *)

(** The records of today of the user for a meal slot. *)
Definition slot_records (d : Data) (userId mealType today : string)
    : list Log.t :=
  filter (λ l, Log.user_id l = userId /\ Log.date l = today
               /\ Schedule.meal_type <$>
                    (snd <$> list_find (λ s, Schedule.id s = Log.schedule_id l)
                                       (schedules d))
                  = Some mealType)
         (medicationLogs d).

(** C5, where the code breaks it. A user who is not known yet and whose
    first message is the set-up command gets the default schedules twice:
    once from the registration on first contact, once from the command. The
    second call of [setupDefaultSchedules] does not find or clear what the
    first one made; it draws four new schedules and four new records, so
    each meal slot of the user ends the day with two records. *)
Theorem setup_on_first_contact_doubles_the_slots :
  let w := exec (handleWebhookEvent demo_uuid net_up day (at_ 7 0)
                   (TextEvent "U-bob" "設定提醒")) fresh_install in
  length (users (data w)) = 1%nat
  /\ Schedule.meal_type <$> schedules (data w)
     = ["早餐後（西藥）"; "早餐後（中藥）"; "午餐後"; "晚餐後";
        "早餐後（西藥）"; "早餐後（中藥）"; "午餐後"; "晚餐後"]
  /\ length (medicationLogs (data w)) = 8%nat
  /\ length (slot_records (data w) "u" "午餐後" day) = 2%nat.
Proof. by vm_compute. Qed.

(** ** The daily initializer run twice *)

Lemma initDailySchedule_twice_witness :
  exec (initDailySchedule demo_uuid day (at_ 7 30))
       (exec (initDailySchedule demo_uuid day (at_ 7 15)) seeded)
  = exec (initDailySchedule demo_uuid day (at_ 7 15)) seeded
  /\ length (filter (log_matches "uIII" day)
               (logs_of (exec (initDailySchedule demo_uuid day (at_ 7 30))
                           (exec (initDailySchedule demo_uuid day (at_ 7 15))
                                 seeded))))
     = 1%nat.
Proof.
  apply (initDailySchedule_twice demo_uuid day (at_ 7 15) (at_ 7 30) seeded
           alice_user lunch).
  - by_computation.
  - by_computation.
  - by_computation.
  - reflexivity.
Defined.

(** * The store does not depend on delivery *)

(** Two copies of the bot that draw the same identifiers and differ in the
    outcome of every push. *)
Section Delivery.

Variable uuidv4 : nat -> string.
Variables ok1 ok2 : nat -> bool.

Definition same_store (w1 w2 : World) : Prop :=
  data w1 = data w2 /\ uuid_n w1 = uuid_n w2.

(** [m1] and [m2] take worlds with the same store to worlds with the same
    store, with results related by [R]. *)
Definition sim {A} (R : A -> A -> Prop) (m1 m2 : M A) : Prop :=
  forall w1 w2, same_store w1 w2 ->
    R (eval m1 w1) (eval m2 w2) /\ same_store (exec m1 w1) (exec m2 w2).

Lemma eval_bind {A B} (m : M A) (k : A -> M B) (w : World) :
  eval (m ≫= k) w = eval (k (eval m w)) (exec m w).
Proof. unfold exec, eval. rewrite run_bind. destruct (m w); reflexivity. Qed.

Lemma sim_ret {A} (a : A) : sim eq (ret a) (ret a).
Proof. by intros w1 w2 Hw. Qed.

Lemma sim_bind {A B} (RA : A -> A -> Prop) (R : B -> B -> Prop)
    (m1 m2 : M A) (k1 k2 : A -> M B) :
  sim RA m1 m2 ->
  (forall a1 a2, RA a1 a2 -> sim R (k1 a1) (k2 a2)) ->
  sim R (m1 ≫= k1) (m2 ≫= k2).
Proof.
  intros Hm Hk w1 w2 Hw. rewrite !eval_bind, !exec_bind.
  destruct (Hm w1 w2 Hw) as [Ha Hw']. by apply Hk.
Qed.

Lemma sim_when (b : bool) (m1 m2 : M unit) :
  sim eq m1 m2 -> sim eq (when b m1) (when b m2).
Proof. destruct b; [done|]. intros _. apply sim_ret. Qed.

Lemma sim_with_id {A} sid (lookup : string -> M (option A)) :
  (forall x, sim eq (lookup x) (lookup x)) ->
  sim eq (with_id sid lookup) (with_id sid lookup).
Proof. intros H. destruct sid; [apply H|apply sim_ret]. Qed.

Lemma sim_for_each {A} (xs : list A) (body1 body2 : A -> M unit) :
  (forall x, sim eq (body1 x) (body2 x)) ->
  sim eq (for_each xs body1) (for_each xs body2).
Proof.
  intros Hbody. induction xs as [|x xs IH]; [apply sim_ret|].
  cbn [for_each]. eapply sim_bind; [apply Hbody|]. intros _ _ _. exact IH.
Qed.

(** An operation of the store reads and writes the store only. *)
Lemma sim_push to msg : sim (λ _ _, True) (push ok1 to msg) (push ok2 to msg).
Proof. by intros w1 w2 Hw. Qed.

Lemma sim_read {A} (f : Data -> A) (m : M A) :
  (forall w, m w = (f (data w), w)) -> sim eq m m.
Proof.
  intros Hm w1 w2 [Hd Hn]. unfold eval, exec. rewrite !Hm. cbn [fst snd].
  by rewrite Hd.
Qed.

Lemma sim_getAllUsers : sim eq getAllUsers getAllUsers.
Proof. by apply (sim_read users). Qed.

Lemma sim_getUserByLineId x : sim eq (getUserByLineId x) (getUserByLineId x).
Proof.
  by apply (sim_read (λ d, snd <$> list_find (λ u, User.line_user_id u = x)
                                      (users d))).
Qed.

Lemma sim_getScheduleById x : sim eq (getScheduleById x) (getScheduleById x).
Proof.
  by apply (sim_read (λ d, snd <$> list_find (λ s, Schedule.id s = x)
                                      (schedules d))).
Qed.

Lemma sim_getSchedulesByUserId x :
  sim eq (getSchedulesByUserId x) (getSchedulesByUserId x).
Proof.
  by apply (sim_read (λ d, filter (λ s, Schedule.user_id s = x) (schedules d))).
Qed.

Lemma sim_getMedicationLogByScheduleAndDate x y :
  sim eq (getMedicationLogByScheduleAndDate x y)
         (getMedicationLogByScheduleAndDate x y).
Proof.
  by apply (sim_read (λ d, snd <$> list_find (log_matches x y)
                                      (medicationLogs d))).
Qed.

Lemma sim_getPendingLogsForDate x :
  sim eq (getPendingLogsForDate x) (getPendingLogsForDate x).
Proof.
  by apply (sim_read
              (λ d, join_pending d <$>
                    filter (λ l, Log.date l = x /\ is_open (Log.status l) = true)
                           (medicationLogs d))).
Qed.

Lemma sim_createUser now line name :
  sim eq (createUser uuidv4 now line name) (createUser uuidv4 now line name).
Proof.
  intros w1 w2 [Hd Hn]. unfold eval, exec, same_store.
  rewrite !createUser_run, Hd, Hn.
  by destruct (snd <$> list_find _ _).
Qed.

Lemma sim_createSchedule now uid mealType time meds options :
  sim eq (createSchedule uuidv4 now uid mealType time meds options)
         (createSchedule uuidv4 now uid mealType time meds options).
Proof.
  intros w1 w2 [Hd Hn]. unfold eval, exec, same_store.
  rewrite !createSchedule_run, Hd, Hn. done.
Qed.

Lemma sim_createMedicationLog now sid uid date :
  sim eq (createMedicationLog uuidv4 now sid uid date)
         (createMedicationLog uuidv4 now sid uid date).
Proof.
  intros w1 w2 [Hd Hn]. unfold eval, exec, same_store.
  rewrite !createMedicationLog_run, Hd, Hn.
  by destruct (snd <$> today_record _ _ _).
Qed.

Lemma sim_updateMedicationLogStatus logId st ad :
  sim eq (updateMedicationLogStatus logId st ad)
         (updateMedicationLogStatus logId st ad).
Proof.
  intros w1 w2 [Hd Hn]. unfold eval, exec, same_store.
  rewrite !updateMedicationLogStatus_run, Hd, Hn.
  by destruct (find_by_id _ _) as [[i l]|].
Qed.

Lemma sim_status_rows today ss :
  sim eq (status_rows today ss) (status_rows today ss).
Proof.
  apply (sim_read (λ d, status_of d today <$> ss)).
  apply status_rows_run.
Qed.

Ltac sim_step :=
  lazymatch goal with
  | |- sim _ (ret _) (ret _) => apply sim_ret
  | |- sim _ (mbind _ _) (mbind _ _) =>
      eapply sim_bind; [|intros ? ? ?]
  | |- sim _ (when _ _) (when _ _) => apply sim_when
  | |- sim _ (with_id _ _) (with_id _ _) => apply sim_with_id; intros ?
  | |- sim _ (for_each _ _) (for_each _ _) => apply sim_for_each; intros ?
  | |- sim _ getAllUsers _ => apply sim_getAllUsers
  | |- sim _ (getUserByLineId _) _ => apply sim_getUserByLineId
  | |- sim _ (getScheduleById _) _ => apply sim_getScheduleById
  | |- sim _ (getSchedulesByUserId _) _ => apply sim_getSchedulesByUserId
  | |- sim _ (getMedicationLogByScheduleAndDate _ _) _ =>
      apply sim_getMedicationLogByScheduleAndDate
  | |- sim _ (getPendingLogsForDate _) _ => apply sim_getPendingLogsForDate
  | |- sim _ (createUser _ _ _ _) _ => apply sim_createUser
  | |- sim _ (createSchedule _ _ _ _ _ _ _) _ => apply sim_createSchedule
  | |- sim _ (createMedicationLog _ _ _ _ _) _ => apply sim_createMedicationLog
  | |- sim _ (updateMedicationLogStatus _ _ _) _ =>
      apply sim_updateMedicationLogStatus
  | |- sim _ (status_rows _ _) _ => apply sim_status_rows
  | |- sim _ (sendTextMessage _ _ _) _ => apply sim_push
  | |- sim _ (sendReminderMessage _ _ _) _ => apply sim_push
  | |- sim _ (push _ _ _) _ => apply sim_push
  | |- sim _ (match ?x with _ => _ end) (match ?x with _ => _ end) =>
      destruct x eqn:?
  end.

Lemma sim_setupDefaultSchedules today now userId :
  sim eq (setupDefaultSchedules uuidv4 today now userId)
         (setupDefaultSchedules uuidv4 today now userId).
Proof. unfold setupDefaultSchedules. repeat (subst; sim_step). Qed.

Lemma sim_handleWebhookEvent today now event :
  sim eq (handleWebhookEvent uuidv4 ok1 today now event)
         (handleWebhookEvent uuidv4 ok2 today now event).
Proof.
  unfold handleWebhookEvent, ensure_user, handle_taken, handle_snooze,
    handle_text.
  cbv zeta.
  repeat lazymatch goal with
    | |- sim _ (setupDefaultSchedules _ _ _ _) _ =>
        apply sim_setupDefaultSchedules
    | |- _ => subst; sim_step
    end.
Qed.

Lemma sim_run_job job :
  sim eq (run_job uuidv4 ok1 job) (run_job uuidv4 ok2 job).
Proof.
  destruct job; cbn [run_job];
    unfold initDailySchedule, init_user, init_schedule,
      sendReminderForMealType, remind_user, checkAndSendReminders, check_user,
      check_schedule, checkRetryNeeded, retry_log;
    cbv zeta; repeat (subst; sim_step).
Qed.

Lemma sim_run steps : sim eq (run uuidv4 ok1 steps) (run uuidv4 ok2 steps).
Proof.
  apply sim_for_each. intros [job|today now event]; cbn [run_step].
  - apply sim_run_job.
  - eapply sim_bind; [apply sim_handleWebhookEvent|]. intros _ _ _.
    apply sim_ret.
Qed.

(** X21: the store does not depend on delivery. Two runs of the same jobs and
    events from the same store, drawing the same identifiers, end in the
    same store whatever the outcome of each push: a failed push is not
    noticed, not retried and not recorded, and the retry counter advances
    for a reminder that did not go out as for one that did. *)
Theorem store_is_independent_of_delivery (steps : list Step) (w1 w2 : World) :
  data w1 = data w2 -> uuid_n w1 = uuid_n w2 ->
  data (exec (run uuidv4 ok1 steps) w1) = data (exec (run uuidv4 ok2 steps) w2)
  /\ uuid_n (exec (run uuidv4 ok1 steps) w1)
     = uuid_n (exec (run uuidv4 ok2 steps) w2).
Proof.
  intros Hd Hn. by destruct (sim_run steps w1 w2 (conj Hd Hn)) as [_ ?].
Qed.

End Delivery.

(** * The data of a button and [handlePostback] (lineBot.js) *)

(** Strings are kept as their UTF-8 bytes. [URLSearchParams] and [parseInt]
    belong to the platform; they are embedded as their standards define them
    (the URL standard's parser for application/x-www-form-urlencoded, the
    language standard's parseInt with radix 10 and its text of a number). *)

Definition bytes (s : string) : list ascii :=
  String.list_ascii_of_string s.
Definition text (bs : list ascii) : string :=
  String.string_of_list_ascii bs.

(** ** [new URLSearchParams(init)] and [params.get(name)] *)

(** The sequences between the occurrences of [sep]. *)
Fixpoint split_on (sep : ascii) (bs : list ascii) : list (list ascii) :=
  match bs with
  | [] => [[]]
  | b :: rest =>
      if decide (b = sep) then [] :: split_on sep rest
      else match split_on sep rest with
           | [] => [[b]]
           | first :: more => (b :: first) :: more
           end
  end.

(** Name and value of a sequence: what is before and after its first "=";
    a sequence without "=" is a name with the empty value. *)
Fixpoint name_of (bs : list ascii) : list ascii :=
  match bs with
  | [] => []
  | b :: rest => if decide (b = "="%char) then [] else b :: name_of rest
  end.

Fixpoint value_of (bs : list ascii) : list ascii :=
  match bs with
  | [] => []
  | b :: rest => if decide (b = "="%char) then rest else value_of rest
  end.

Definition plus_to_space (bs : list ascii) : list ascii :=
  (λ b, if decide (b = "+"%char) then " "%char else b) <$> bs.

Definition hex_value (b : ascii) : option N :=
  let n := N_of_ascii b in
  if ((48 <=? n) && (n <=? 57))%N then Some (n - 48)%N
  else if ((65 <=? n) && (n <=? 70))%N then Some (n - 55)%N
  else if ((97 <=? n) && (n <=? 102))%N then Some (n - 87)%N
  else None.

(** Percent-decoding: "%" followed by two hexadecimal digits is the byte
    they name, any other byte is itself. *)
Fixpoint percent_decode (bs : list ascii) : list ascii :=
  match bs with
  | [] => []
  | b :: rest =>
      if decide (b = "%"%char) then
        match rest with
        | h :: l :: rest' =>
            match hex_value h, hex_value l with
            | Some x, Some y => ascii_of_N (16 * x + y) :: percent_decode rest'
            | _, _ => b :: percent_decode rest
            end
        | _ => b :: percent_decode rest
        end
      else b :: percent_decode rest
  end.

(** UTF-8 decoding without byte order mark, errors replaced by U+FFFD. The
    state of the decoder: the bytes of the character under way, how many
    are still needed, and the bounds of the next one. *)
Record Utf8State := mkUtf8 {
  utf8_pending : list ascii;
  utf8_needed : nat;
  utf8_lower : N;
  utf8_upper : N
}.

Definition utf8_idle : Utf8State := mkUtf8 [] 0 128 191.

Definition replacement : list ascii :=
  [ascii_of_N 239; ascii_of_N 191; ascii_of_N 189].

(** A byte read with no character under way: what is put out, and the
    state after it. *)
Definition lead_byte (b : ascii) : list ascii * Utf8State :=
  let n := N_of_ascii b in
  if (n <=? 127)%N then ([b], utf8_idle)
  else if ((194 <=? n) && (n <=? 223))%N then ([], mkUtf8 [b] 1 128 191)
  else if ((224 <=? n) && (n <=? 239))%N then
    ([], mkUtf8 [b] 2 (if (n =? 224)%N then 160 else 128)%N
                      (if (n =? 237)%N then 159 else 191)%N)
  else if ((240 <=? n) && (n <=? 244))%N then
    ([], mkUtf8 [b] 3 (if (n =? 240)%N then 144 else 128)%N
                      (if (n =? 244)%N then 143 else 191)%N)
  else (replacement, utf8_idle).

Fixpoint utf8_decode (st : Utf8State) (bs : list ascii) : list ascii :=
  match bs with
  | [] => match utf8_needed st with O => [] | S _ => replacement end
  | b :: rest =>
      match utf8_needed st with
      | O => let (out, st') := lead_byte b in out ++ utf8_decode st' rest
      | S k =>
          let n := N_of_ascii b in
          if ((utf8_lower st <=? n) && (n <=? utf8_upper st))%N then
            match k with
            | O => utf8_pending st ++ [b] ++ utf8_decode utf8_idle rest
            | S _ =>
                utf8_decode (mkUtf8 (utf8_pending st ++ [b]) k 128 191) rest
            end
          else
            let (out, st') := lead_byte b in
            replacement ++ out ++ utf8_decode st' rest
      end
  end.

Definition decode_component (bs : list ascii) : string :=
  text (utf8_decode utf8_idle (percent_decode (plus_to_space bs))).

(** A leading "?" of the initializer is dropped. *)
Definition strip_question (bs : list ascii) : list ascii :=
  match bs with
  | b :: rest => if decide (b = "?"%char) then rest else bs
  | [] => bs
  end.

(** The pair of a sequence; an empty sequence gives none. *)
Definition pair_of (sequence : list ascii) : option (string * string) :=
  match sequence with
  | [] => None
  | _ => Some (decode_component (name_of sequence),
               decode_component (value_of sequence))
  end.

(** The list of name-value pairs of [new URLSearchParams(init)]. *)
Definition URLSearchParams (init : string) : list (string * string) :=
  omap pair_of (split_on "&"%char (strip_question (bytes init))).

(** [params.get(name)]: the value of the first pair with that name. *)
Definition params_get (name : string) (params : list (string * string))
    : option string :=
  snd <$> (snd <$> list_find (λ p, p.1 = name) params).

(** ** Numbers, [parseInt(s, 10)] and the text of a number *)

(** The numbers that a retry counter can be: not-a-number, an infinity, or
    an integer that is a double. Minus zero is not told from zero; both are
    written "0". *)
Inductive Number :=
| NaN
| Int (z : Z)
| Infinity (negative : bool).

(** The number value of an integer: the integer itself up to 2^53, beyond
    that the nearest integer with 53 significant bits, a tie going to the
    even one, and an infinity from 2^1024 on. *)
Definition number_value (z : Z) : Number :=
  let a := Z.abs z in
  if a <=? 2 ^ 53 then Int z
  else
    let e := Z.log2 a - 52 in
    let q := a `div` 2 ^ e in
    let r := a `mod` 2 ^ e in
    let half := 2 ^ (e - 1) in
    let q' := if r <? half then q
              else if half <? r then q + 1
              else if Z.even q then q else q + 1 in
    let m := q' * 2 ^ e in
    if 2 ^ 1024 <=? m then Infinity (z <? 0) else Int (Z.sgn z * m).

(** Leading white space and line terminators, as UTF-8. *)
Fixpoint trim_start (cs : list N) : list N :=
  match cs with
  | (9 :: r | 10 :: r | 11 :: r | 12 :: r | 13 :: r | 32 :: r)%N =>
      trim_start r
  | (194 :: 160 :: r)%N => trim_start r
  | (225 :: 154 :: 128 :: r)%N => trim_start r
  | (226 :: 128 :: c :: r)%N =>
      if ((128 <=? c) && (c <=? 138) || (c =? 168) || (c =? 169)
          || (c =? 175))%N
      then trim_start r else cs
  | (226 :: 129 :: 159 :: r)%N => trim_start r
  | (227 :: 128 :: 128 :: r)%N => trim_start r
  | (239 :: 187 :: 191 :: r)%N => trim_start r
  | _ => cs
  end.

(** The longest prefix of decimal digits. *)
Fixpoint digits_prefix (cs : list N) : Decimal.uint :=
  match cs with
  | (48 :: r)%N => Decimal.D0 (digits_prefix r)
  | (49 :: r)%N => Decimal.D1 (digits_prefix r)
  | (50 :: r)%N => Decimal.D2 (digits_prefix r)
  | (51 :: r)%N => Decimal.D3 (digits_prefix r)
  | (52 :: r)%N => Decimal.D4 (digits_prefix r)
  | (53 :: r)%N => Decimal.D5 (digits_prefix r)
  | (54 :: r)%N => Decimal.D6 (digits_prefix r)
  | (55 :: r)%N => Decimal.D7 (digits_prefix r)
  | (56 :: r)%N => Decimal.D8 (digits_prefix r)
  | (57 :: r)%N => Decimal.D9 (digits_prefix r)
  | _ => Decimal.Nil
  end.

(** [parseInt(s, 10)]: white space, a sign, the digits that follow, and the
    number value of the integer they write (the digits are all taken into
    account, as Node does). *)
Definition parseInt (s : string) : Number :=
  let cs := trim_start (N_of_ascii <$> bytes s) in
  let '(sign, cs) := match cs with
                     | (45 :: r)%N => (-1, r)
                     | (43 :: r)%N => (1, r)
                     | _ => (1, cs)
                     end in
  match digits_prefix cs with
  | Decimal.Nil => NaN
  | d => number_value (sign * Z.of_uint d)
  end.

(** ** [handlePostback] and the data that [sendReminderMessage] puts on the
    buttons *)

Record PostbackData := mkPostback {
  pb_action : option string;
  pb_scheduleId : option string;
  pb_retryCount : Number
}.

(** [x || '0'] on a string or null. *)
Definition or_zero (x : option string) : string :=
  match x with
  | Some (String a s) => String a s
  | _ => "0"
  end.

Definition handlePostback (postbackData : string) : PostbackData :=
  let params := URLSearchParams postbackData in
  mkPostback (params_get "action" params)
             (params_get "schedule_id" params)
             (parseInt (or_zero (params_get "retry_count" params))).

(** The decimal digits of an integer, with its sign. *)
Definition decimal (n : Z) : string := NilZero.string_of_int (Z.to_int n).

(** The digits of a numeral without its trailing zeros. *)
Fixpoint significant (ds : list ascii) : list ascii :=
  match ds with
  | [] => []
  | d :: rest =>
      match significant rest with
      | [] => if decide (d = "0"%char) then [] else [d]
      | more => d :: more
      end
  end.

(** The multiple of [10 ^ zeros] nearest to the double [v] among those whose
    number value is [v], if there is one. *)
Definition read_back_as (v zeros : Z) : option Z :=
  let p := 10 ^ zeros in
  let lo := v `div` p * p in
  let hi := lo + p in
  let ok c := match number_value c with
              | Int z => bool_decide (z = v)
              | _ => false
              end in
  match ok lo, ok hi with
  | true, true => Some (if v - lo <=? hi - v then lo else hi)
  | true, false => Some lo
  | false, true => Some hi
  | false, false => None
  end.

(** The integer with the fewest significant digits whose number value is the
    double [v], the nearest to [v] among those: what the text of [v]
    writes. Seventeen digits tell every double from the next. *)
Definition shortest (v : Z) : Z :=
  let n := Z.of_nat (String.length (decimal v)) in
  default v (head (omap (λ k, read_back_as v (n - Z.of_nat k)) (seq 1 17))).

(** The text of a positive integer of more than 21 digits. *)
Definition exponent_text (c : Z) : string :=
  let ds := bytes (decimal c) in
  let exponent := decimal (Z.of_nat (length ds) - 1) in
  match significant ds with
  | [] => ""
  | [d] => text [d] +:+ "e+" +:+ exponent
  | d :: more => text (d :: "."%char :: more) +:+ "e+" +:+ exponent
  end.

(** [`${n}`]: the text of the number value of the integer [n]. Up to 2^53
    every integer is a double, so the shortest digits that are read back as
    the number are its own. *)
Definition number_text (n : Z) : string :=
  match number_value n with
  | NaN => "NaN"
  | Infinity negative => if negative then "-Infinity" else "Infinity"
  | Int z =>
      if Z.abs z <=? 2 ^ 53 then decimal z
      else
        let c := shortest (Z.abs z) in
        (if z <? 0 then "-" else "")
        +:+ (if c <? 10 ^ 21 then decimal c else exponent_text c)
  end.

(** [`action=${action}&schedule_id=${scheduleId}&retry_count=${retryCount}`] *)
Definition button_data (action : string) (info : ScheduleInfo) : string :=
  "action=" +:+ action +:+ "&schedule_id=" +:+ scheduleId info
  +:+ "&retry_count=" +:+ number_text (retryCount info).

Lemma bytes_app (a b : string) : bytes (a +:+ b) = bytes a ++ bytes b.
Proof.
  unfold bytes. induction a as [|c a IH]; [done|].
  change (String c a +:+ b) with (String c (a +:+ b)). cbn. by f_equal.
Qed.

Lemma text_bytes (s : string) : text (bytes s) = s.
Proof. apply String.string_of_list_ascii_of_string. Qed.

Lemma split_on_none sep xs : sep ∉ xs -> split_on sep xs = [xs].
Proof.
  induction xs as [|x xs IH]; intros Hsep; [done|].
  apply not_elem_of_cons in Hsep as [Hx Hxs]. cbn.
  rewrite decide_False by done. by rewrite IH.
Qed.

Lemma split_on_app sep xs ys :
  sep ∉ xs -> split_on sep (xs ++ sep :: ys) = xs :: split_on sep ys.
Proof.
  induction xs as [|x xs IH]; intros Hsep; cbn.
  - by rewrite decide_True.
  - apply not_elem_of_cons in Hsep as [Hx Hxs].
    rewrite decide_False by done. by rewrite IH.
Qed.

(** The bytes that pass the parser of [URLSearchParams] as they are: ASCII
    other than the separator, the plus sign and the percent sign. *)
Definition plain_byte (b : ascii) : Prop :=
  (N_of_ascii b < 128)%N
  /\ b <> "&"%char /\ b <> "+"%char /\ b <> "%"%char.

Definition plain (s : string) : Prop := Forall plain_byte (bytes s).

Lemma plus_to_space_plain bs : Forall plain_byte bs -> plus_to_space bs = bs.
Proof.
  induction 1 as [|b bs (_ & _ & Hplus & _) _ IH]; [done|].
  unfold plus_to_space in *. cbn. rewrite decide_False by done. by rewrite IH.
Qed.

Lemma percent_decode_plain bs : Forall plain_byte bs -> percent_decode bs = bs.
Proof.
  induction 1 as [|b bs (_ & _ & _ & Hpercent) _ IH]; [done|].
  cbn. rewrite decide_False by done. by rewrite IH.
Qed.

Lemma utf8_decode_plain bs :
  Forall plain_byte bs -> utf8_decode utf8_idle bs = bs.
Proof.
  induction 1 as [|b bs (Hascii & _) _ IH]; [done|].
  cbn [utf8_decode utf8_idle utf8_needed]. unfold lead_byte.
  assert (Hle : (N_of_ascii b <=? 127)%N = true) by (apply N.leb_le; lia).
  rewrite Hle. cbn. by rewrite IH.
Qed.

Lemma decode_component_plain bs :
  Forall plain_byte bs -> decode_component bs = text bs.
Proof.
  intros Hbs. unfold decode_component.
  by rewrite plus_to_space_plain, percent_decode_plain, utf8_decode_plain.
Qed.

(** Replaces the code of every character literal by its value. *)
Ltac eval_codes :=
  repeat match goal with
    | |- context [N_of_ascii (Ascii ?a ?b ?c ?d ?e ?f ?g ?h)] =>
        let v := eval vm_compute in (N_of_ascii (Ascii a b c d e f g h)) in
        change (N_of_ascii (Ascii a b c d e f g h)) with v
    end.

(** The digits of a decimal numeral, back and forth. *)
Lemma digits_prefix_uint (d : Decimal.uint) :
  digits_prefix (N_of_ascii <$> bytes (NilEmpty.string_of_uint d)) = d.
Proof.
  unfold bytes. induction d; [done|..];
    cbn [NilEmpty.string_of_uint String.list_ascii_of_string];
    rewrite fmap_cons; eval_codes; cbn [digits_prefix]; f_equal; exact IHd.
Qed.

Lemma plain_uint (d : Decimal.uint) :
  Forall plain_byte (bytes (NilEmpty.string_of_uint d)).
Proof.
  induction d; cbn [NilEmpty.string_of_uint bytes String.list_ascii_of_string];
    [by constructor|..];
    (constructor; [unfold plain_byte; eval_codes; by repeat split; try lia|done]).
Qed.

Lemma decimal_pos p :
  decimal (Z.pos p) = NilEmpty.string_of_uint (Pos.to_uint p).
Proof.
  unfold decimal. cbn.
  pose proof (DecimalPos.Unsigned.to_uint_nonnil p).
  by destruct (Pos.to_uint p).
Qed.

Lemma decimal_neg p :
  decimal (Z.neg p) = String "-" (NilEmpty.string_of_uint (Pos.to_uint p)).
Proof.
  unfold decimal. cbn.
  pose proof (DecimalPos.Unsigned.to_uint_nonnil p).
  by destruct (Pos.to_uint p).
Qed.

Lemma plain_decimal n : plain (decimal n).
Proof.
  destruct n as [|p|p].
  - repeat constructor; unfold plain_byte; eval_codes; by repeat split; try lia.
  - rewrite decimal_pos. apply plain_uint.
  - rewrite decimal_neg. constructor; [|apply plain_uint].
    unfold plain_byte; eval_codes; by repeat split; try lia.
Qed.

Lemma decimal_nonempty n : or_zero (Some (decimal n)) = decimal n.
Proof.
  destruct n as [|p|p]; [done| |by rewrite decimal_neg].
  rewrite decimal_pos.
  pose proof (DecimalPos.Unsigned.to_uint_nonnil p).
  by destruct (Pos.to_uint p).
Qed.

Lemma parseInt_digits (d : Decimal.uint) :
  d <> Decimal.Nil ->
  parseInt (NilEmpty.string_of_uint d) = number_value (Z.of_uint d)
  /\ parseInt (String "-" (NilEmpty.string_of_uint d))
     = number_value (- Z.of_uint d).
Proof.
  intros Hd. unfold parseInt.
  destruct d as [|d|d|d|d|d|d|d|d|d|d]; [done|..];
    pose proof (digits_prefix_uint d) as Hdigits; unfold bytes in *;
    cbn [NilEmpty.string_of_uint String.list_ascii_of_string];
    rewrite !fmap_cons; eval_codes; cbn [trim_start digits_prefix];
    rewrite Hdigits; (split; f_equal; lia).
Qed.

(** [parseInt] reads the digits of an integer as its number value. *)
Lemma parseInt_decimal n : parseInt (decimal n) = number_value n.
Proof.
  destruct n as [|p|p]; [done|..].
  - rewrite decimal_pos.
    destruct (parseInt_digits (Pos.to_uint p)) as [-> _];
      [apply DecimalPos.Unsigned.to_uint_nonnil|].
    unfold Z.of_uint. by rewrite DecimalPos.Unsigned.of_to.
  - rewrite decimal_neg.
    destruct (parseInt_digits (Pos.to_uint p)) as [_ ->];
      [apply DecimalPos.Unsigned.to_uint_nonnil|].
    unfold Z.of_uint. by rewrite DecimalPos.Unsigned.of_to.
Qed.

(** Up to 2^53 an integer is its own number value, and its text is its
    digits. *)
Lemma number_value_safe n : Z.abs n <= 2 ^ 53 -> number_value n = Int n.
Proof.
  intros Hn. unfold number_value. cbv zeta.
  by rewrite (proj2 (Z.leb_le _ _) Hn).
Qed.

Lemma number_text_safe n : Z.abs n <= 2 ^ 53 -> number_text n = decimal n.
Proof.
  intros Hn. unfold number_text. rewrite (number_value_safe n Hn).
  by rewrite (proj2 (Z.leb_le _ _) Hn).
Qed.

Lemma plain_no_separator bs : Forall plain_byte bs -> "&"%char ∉ bs.
Proof.
  intros Hbs Hin. rewrite Forall_forall in Hbs.
  by destruct (Hbs _ Hin) as (_ & Hsep & _).
Qed.

Lemma plain_literal (s : string) :
  forallb (λ b, (N_of_ascii b <? 128)%N
                && negb (bool_decide (b = "&"%char))
                && negb (bool_decide (b = "+"%char))
                && negb (bool_decide (b = "%"%char))) (bytes s) = true ->
  plain s.
Proof.
  unfold plain. induction (bytes s) as [|b bs IH]; [by constructor|].
  cbn [forallb]. intros [Hb Hbs]%andb_prop. constructor; [|by apply IH].
  apply andb_prop in Hb as [Hb H3]. apply andb_prop in Hb as [Hb H2].
  apply andb_prop in Hb as [H0 H1]. apply N.ltb_lt in H0.
  apply negb_true_iff, bool_decide_eq_false in H1, H2, H3. done.
Qed.

Lemma name_value_of name value :
  "="%char ∉ name ->
  name_of (name ++ "="%char :: value) = name
  /\ value_of (name ++ "="%char :: value) = value.
Proof.
  induction name as [|b name IH]; intros Hname; cbn.
  - by rewrite !decide_True.
  - apply not_elem_of_cons in Hname as [Hb Hname].
    rewrite !decide_False by done. destruct (IH Hname) as [-> ->]. done.
Qed.

Lemma pair_of_named name value :
  name <> [] -> "="%char ∉ name ->
  pair_of (name ++ "="%char :: value)
  = Some (decode_component name, decode_component value).
Proof.
  intros Hne Hname. destruct (name_value_of name value Hname) as [Hn Hv].
  unfold pair_of. rewrite Hn, Hv. by destruct name.
Qed.

(** X22: the data of a button is read back as it was written. For every
    action and schedule identifier made of ASCII other than "&", "+" and "%"
    (the two actions and every UUID are such) and every integer count of
    magnitude up to 2^53, [handlePostback] applied to the data that
    [sendReminderMessage] puts on a button returns that action, that
    schedule identifier and that count. (Beyond 2^53 the count is rounded to
    a double before it is written, and from 10^21 on its text has an
    exponent, of which [parseInt] reads the leading digits only.) *)
Theorem button_data_round_trip (action : string) (info : ScheduleInfo) :
  plain action -> plain (scheduleId info) ->
  Z.abs (retryCount info) <= 2 ^ 53 ->
  handlePostback (button_data action info)
  = mkPostback (Some action) (Some (scheduleId info)) (Int (retryCount info)).
Proof.
  intros Ha Hs Hsafe.
  assert (Htext : number_text (retryCount info) = decimal (retryCount info))
    by (by apply number_text_safe).
  pose proof (plain_decimal (retryCount info)) as Hn.
  pose proof (decimal_nonempty (retryCount info)) as Hne.
  assert (Hparse : parseInt (decimal (retryCount info))
                   = Int (retryCount info))
    by (by rewrite parseInt_decimal, number_value_safe).
  unfold button_data. rewrite Htext. clear Htext.
  set (num := decimal (retryCount info)) in *.
  set (sid := scheduleId info) in *.
  assert (Hparams : URLSearchParams
                      ("action=" +:+ action +:+ "&schedule_id=" +:+ sid
                       +:+ "&retry_count=" +:+ num)
                    = [("action", action); ("schedule_id", sid);
                       ("retry_count", num)]).
  { unfold URLSearchParams.
    set (input := (bytes "action" ++ "="%char :: bytes action)
                  ++ "&"%char :: (bytes "schedule_id" ++ "="%char :: bytes sid)
                  ++ "&"%char :: (bytes "retry_count" ++ "="%char :: bytes num)).
    assert (Hb : bytes ("action=" +:+ action +:+ "&schedule_id=" +:+ sid
                        +:+ "&retry_count=" +:+ num) = input).
    { subst input. rewrite !bytes_app, <- !app_assoc. reflexivity. }
    rewrite Hb.
    assert (Hinput : strip_question input = input) by reflexivity.
    rewrite Hinput. subst input.
    assert (Hsep : forall (name value : string),
               plain name -> plain value ->
               "&"%char ∉ bytes name ++ "="%char :: bytes value).
    { intros name value Hname Hvalue. apply plain_no_separator.
      apply Forall_app. split; [done|]. constructor; [|done].
      unfold plain_byte. eval_codes. by repeat split; try lia. }
    assert (Hl1 : plain "action") by (by apply plain_literal).
    assert (Hl2 : plain "schedule_id") by (by apply plain_literal).
    assert (Hl3 : plain "retry_count") by (by apply plain_literal).
    rewrite split_on_app, split_on_app, split_on_none by (by apply Hsep).
    cbn [omap list_omap].
    rewrite !pair_of_named by (done || compute_done).
    rewrite !decode_component_plain by done.
    by rewrite !text_bytes. }
  unfold handlePostback. rewrite Hparams.
  clearbody num sid.
  change (params_get "action" _) with (Some action).
  change (params_get "schedule_id" _) with (Some sid).
  change (params_get "retry_count" _) with (Some num).
  by rewrite Hne, Hparse.
Qed.

(** * The further properties on the day with one patient *)

(** A network that delivers nothing. *)
Definition net_down : nat -> bool := λ _, false.

Ltac in_cases H :=
  repeat (apply elem_of_cons in H as [->|H]); [..|by apply elem_of_nil in H].

Lemma createUser_finds_or_creates_witness :
  users (data (exec (createUser demo_uuid (at_ 7 30) alice None) seeded))
    !! 0%nat
  = Some alice_user.
Proof.
  apply (proj2 (proj2 (proj2 (proj2
           (createUser_finds_or_creates demo_uuid (at_ 7 30) (at_ 7 31)
              alice None None seeded))))).
  by vm_compute.
Defined.

Lemma createMedicationLog_finds_or_creates_witness :
  exec (createMedicationLog demo_uuid (at_ 8 0) "uIII" "someone-else" day)
       seeded
  = seeded.
Proof.
  apply (proj1 (proj2 (proj2 (proj2 (proj2 (proj2
           (createMedicationLog_finds_or_creates demo_uuid (at_ 8 0) (at_ 8 1)
              "uIII" "someone-else" "u" day seeded))))))).
  eexists. vm_compute. reflexivity.
Defined.

Lemma createSchedule_appends_with_defaults_witness :
  eval (getScheduleById
          (Schedule.id
             (eval (createSchedule demo_uuid (at_ 8 0) "u" "睡前" "22:00" []
                      (mkOptions None (Some "") (Some 0))) seeded)))
       (exec (createSchedule demo_uuid (at_ 8 0) "u" "睡前" "22:00" []
                (mkOptions None (Some "") (Some 0))) seeded)
  = Some (eval (createSchedule demo_uuid (at_ 8 0) "u" "睡前" "22:00" []
                  (mkOptions None (Some "") (Some 0))) seeded).
Proof.
  apply (createSchedule_appends_with_defaults demo_uuid (at_ 8 0) "u" "睡前"
           "22:00" [] (mkOptions None (Some "") (Some 0)) seeded).
  by_computation.
Defined.

Lemma record_keys_stay_unique_witness :
  unique_keys (data (exec (run demo_uuid net_up faithful_run) seeded)).
Proof.
  apply (record_keys_stay_unique demo_uuid net_up faithful_run seeded).
  by_computation.
Defined.

Lemma identifiers_stay_unique_witness :
  unique_ids (data (exec (run demo_uuid net_up
                            (Act day (at_ 7 0) (TextEvent alice "hello")
                             :: faithful_run))
                         fresh_install)).
Proof.
  apply (identifiers_stay_unique demo_uuid net_up demo_uuid_inj).
  - repeat split; apply NoDup_nil_2.
  - intros k _. repeat split; apply not_elem_of_nil.
Defined.

Lemma nothing_is_ever_deleted_witness :
  schedules (data (exec (run demo_uuid net_up faithful_run) seeded)) !! 2%nat
  = Some lunch.
Proof.
  apply (proj1 (proj2 (nothing_is_ever_deleted demo_uuid net_up faithful_run
                         seeded))).
  by vm_compute.
Defined.

Lemma file_follows_the_cache_witness :
  file_after (mkData [] [] [])
             (trace (exec (run demo_uuid net_up faithful_run) seeded))
  = data (exec (run demo_uuid net_up faithful_run) seeded).
Proof.
  apply (file_follows_the_cache demo_uuid net_up). by vm_compute.
Defined.

Lemma postback_without_record_is_silent_witness :
  handleWebhookEvent demo_uuid net_up day (at_ 13 5)
    (Postback alice (Some "taken") (Some "schedule-of-another-day") 0) seeded
  = (mkResult true (Some "taken"), seeded).
Proof.
  apply (postback_without_record_is_silent demo_uuid net_up day (at_ 13 5)
           alice (Some "taken") (Some "schedule-of-another-day") 0 seeded
           alice_user).
  - by vm_compute.
  - left. intros sid [= <-]. by vm_compute.
Defined.

Lemma button_replies_witness :
  emitted (handleWebhookEvent demo_uuid net_up day (at_ 8 5)
             (Postback alice (Some "taken") (Some "uI") 0)) seeded
  = [Saved (set_log 0 (taken_now 0 (at_ 8 5)
                         (Log.mk "uIIIII" "uI" "u" day PENDING 0 None None
                                 (at_ 7 0)))
                    (data seeded));
     Push alice (TextMessage TxtRecorded) true;
     Push alice (TextMessage TxtHerbalHint) true].
Proof.
  refine (proj1 (button_replies demo_uuid net_up day (at_ 8 5) alice "uI" 0
                   seeded alice_user 0
                   (Log.mk "uIIIII" "uI" "u" day PENDING 0 None None (at_ 7 0))
                   _ _ _)).
  - by vm_compute.
  - by_computation.
  - by vm_compute.
Defined.

Lemma text_of_registered_user_reads_only_witness :
  data (exec (handleWebhookEvent demo_uuid net_up day (at_ 12 0)
                (TextEvent alice "/status")) seeded)
  = data seeded.
Proof.
  apply (proj1 (proj2 (text_of_registered_user_reads_only demo_uuid net_up day
                         (at_ 12 0) alice "/status" seeded alice_user
                         ltac:(by vm_compute) ltac:(by vm_compute)))).
Defined.

Lemma setupDefaultSchedules_appends_witness :
  uuid_n (exec (setupDefaultSchedules demo_uuid day (at_ 12 0) "u") seeded)
  = 17%nat.
Proof.
  apply (proj2 (proj2 (proj2 (setupDefaultSchedules_appends demo_uuid day
                                (at_ 12 0) "u" seeded)))).
  - by_computation.
  - intros sid Hsid. in_cases Hsid; by vm_compute.
Defined.

Lemma initDailySchedule_completes_the_day_witness :
  has_record "2024-05-02" "uIII"
    (data (exec (initDailySchedule demo_uuid "2024-05-02" (at_ 24 0)) seeded)).
Proof.
  apply (proj1 (initDailySchedule_completes_the_day demo_uuid "2024-05-02"
                  (at_ 24 0) seeded) alice_user lunch).
  - by_computation.
  - by_computation.
  - reflexivity.
Defined.

Lemma buttons_of_a_cron_reminder_witness :
  exists l2,
    logs_of (exec (handleWebhookEvent demo_uuid net_up day (at_ 13 5)
                     (Postback alice (Some "taken") (Some "uIII") 0))
                  (exec (sendReminderForMealType net_up day (at_ 13 0) "午餐後")
                        seeded)) !! 2%nat = Some l2
    /\ Log.status l2 = TAKEN /\ Log.retry_count l2 = 0.
Proof.
  apply (buttons_of_a_cron_reminder demo_uuid net_up day "午餐後" alice_user
           lunch 2 (at_ 13 0) (at_ 13 5) seeded lunch_record).
  - apply seeded_unique_ids.
  - apply seeded_on_target.
  - reflexivity.
  - by vm_compute.
Defined.

Lemma reminder_round_leaves_other_records_witness :
  logs_of (exec (sendReminderForMealType net_up day (at_ 13 0) "午餐後") seeded)
    !! 0%nat
  = Some (Log.mk "uIIIII" "uI" "u" day PENDING 0 None None (at_ 7 0)).
Proof.
  apply (reminder_round_leaves_other_records net_up day (at_ 13 0) "午餐後"
           seeded).
  - by_computation.
  - by vm_compute.
  - right. intros s Hs Hid. vm_compute in Hs. in_cases Hs; by vm_compute.
Defined.

Lemma minute_check_only_stamps_witness :
  users (data (exec (checkAndSendReminders net_up day "13:00" (at_ 13 0))
                    seeded))
  = users (data seeded).
Proof.
  apply (minute_check_only_stamps net_up day "13:00" (at_ 13 0) seeded).
  by_computation.
Defined.

(** Lunch as Alice snoozed it at 13:02, in a process in the zone of
    Taipei. *)
Definition lunch_snoozed_record : Log.t :=
  Log.mk "uIIIIIII" "uIII" "u" day SNOOZED 1 (Some (at_ 13 2)) None (at_ 7 0).

(** The retry check of 13:35 retries it: it is PENDING again and counts
    two. *)
Example lunch_retried :
  logs_of (lunch_snoozed taipei) !! 2%nat = Some lunch_snoozed_record
  /\ logs_of (exec (checkRetryNeeded net_up taipei day (at_ 13 35))
                   (lunch_snoozed taipei)) !! 2%nat
     = Some (Log.mk "uIIIIIII" "uIII" "u" day PENDING 2 (Some (at_ 13 35)) None
                    (at_ 7 0)).
Proof. by vm_compute. Qed.

Lemma retry_round_record_by_record_witness :
  exists l' : Log.t,
    logs_of (exec (checkRetryNeeded net_up taipei day (at_ 13 35))
                  (lunch_snoozed taipei)) !! 2%nat = Some l'
    /\ retry_round day (getTaiwanTime taipei (at_ 13 35))
                   lunch_snoozed_record l'.
Proof.
  apply (proj1 (proj2 (proj2
           (retry_round_record_by_record net_up taipei day (at_ 13 35)
              (lunch_snoozed taipei) ltac:(by_computation))))).
  by vm_compute.
Defined.

Lemma trigger_reminder_pushes_and_never_writes_witness :
  code (eval (post_trigger_reminder net_up true (Some "uIII") (Some ""))
             seeded)
  = 400.
Proof.
  apply (proj1 (proj2 (proj2 (proj2 (proj2
           (trigger_reminder_pushes_and_never_writes net_up true (Some "uIII")
              (Some "") seeded)))))).
  - reflexivity.
  - by right.
Defined.

Lemma setup_user_adds_four_schedules_witness :
  length (schedules
            (data (exec (post_setup_user demo_uuid day (at_ 12 0) (Some alice)
                           None) seeded)))
  = 8%nat.
Proof.
  destruct (proj2 (setup_user_adds_four_schedules demo_uuid day (at_ 12 0)
                     (Some alice) None seeded) alice eq_refl)
    as (u & _ & _ & _ & _ & id1 & id2 & id3 & id4 & Hss).
  rewrite Hss, length_app. reflexivity.
Defined.

Lemma store_is_independent_of_delivery_witness :
  data (exec (run demo_uuid net_up faithful_run) seeded)
  = data (exec (run demo_uuid net_down faithful_run) seeded).
Proof.
  apply (store_is_independent_of_delivery demo_uuid net_up net_down
           faithful_run seeded seeded); reflexivity.
Defined.

Lemma button_data_round_trip_witness :
  handlePostback (button_data "snooze" (reminder_info lunch 2))
  = mkPostback (Some "snooze") (Some "uIII") (Int 2).
Proof.
  apply (button_data_round_trip "snooze" (reminder_info lunch 2));
    [by apply plain_literal|by apply plain_literal|by vm_compute].
Defined.

(** Where the round trip ends: 2^53 + 1 is no double and is written as
    2^53; 2^64 is written with the seventeen digits that tell it from the
    next double and read back as itself; 10^21 is written "1e+21", of which
    [parseInt] reads 1. *)
Example counts_beyond_the_safe_integers :
  number_text (2 ^ 53 + 1) = "9007199254740992"
  /\ number_text (2 ^ 64) = "18446744073709552000"
  /\ pb_retryCount (handlePostback (button_data "taken"
                                      (reminder_info lunch (2 ^ 64))))
     = Int (2 ^ 64)
  /\ number_text (10 ^ 21) = "1e+21"
  /\ pb_retryCount (handlePostback (button_data "taken"
                                      (reminder_info lunch (10 ^ 21))))
     = Int 1.
Proof. by vm_compute. Qed.
